(** * CasbinX: permission resolution and security guardrails

    A shallow embedding of the Go packages [core], [internal/role],
    [internal/user], [internal/check] and [engine] of casbinx, followed by
    the properties of the permission resolver and of the security
    validator.

    Conventions.
    - A Go [string] is a [string] (a sequence of bytes); [Action] and
      [Resource] are string types, as in the source.
    - A Go function returning [error] returns [option error] ([None] is
      [nil]); one returning [(T, error)] returns [result T].
    - A method that mutates the policy store or the role table takes the
      state and returns the new one next to its error.
    - The casbin enforcer and the SQL table of role metadata are external
      to the repository; they are modelled in [Module casbin] and by the
      field [roles] of [World], from the contract the source relies on. *)

From Stdlib Require Import String Ascii List Bool ZArith Lia.
Import ListNotations.
Local Open Scope string_scope.
Local Open Scope list_scope.

(* ================================================================== *)
(** * Errors and results *)

(** A Go [error] value: a [core.Error] struct, or the value built by a
    [fmt.Errorf] call, with the error it wraps when the format has [%w]. *)
Inductive error : Type :=
| Error (Code Message : string)
| Errorf (msg : string)
| Wrapf (msg : string) (err : error).

Inductive result (A : Type) : Type :=
| Ok (a : A)
| Err (e : error).
Arguments Ok {A} a.
Arguments Err {A} e.

Definition bind {A B : Type} (r : result A) (k : A -> result B) : result B :=
  match r with
  | Ok a => k a
  | Err e => Err e
  end.

Notation "x <- r ;; k" := (bind r (fun x => k))
  (at level 100, r at next level, right associativity).

(** [s[i]] on a row of strings; the callers check [len] first. *)
Definition idx (row : list string) (i : nat) : string := nth i row "".

Definition neqb (a b : string) : bool := negb (String.eqb a b).

(* ================================================================== *)
(** * package core *)

Definition Action := string.
Definition Resource := string.

Definition ActionRead : Action := "read".
Definition ActionWrite : Action := "write".
Definition ActionDelete : Action := "delete".
Definition ActionNone : Action := "_none".

Definition ResourceTenant : Resource := "tenant".
Definition ResourceSystem : Resource := "system".
Definition ResourceUser : Resource := "user".
Definition ResourcePermission : Resource := "permission".
Definition ResourceRole : Resource := "role".
Definition ResourceTagUser : Resource := "tag_user".
Definition ResourceTagTenant : Resource := "tag_tenant".
Definition ResourcePlaceholder : Resource := "_placeholder".

Definition AllActions : list Action := [ActionRead; ActionWrite; ActionDelete].

Definition ParseAction (s : string) : result Action :=
  if s =? "read" then Ok ActionRead
  else if s =? "write" then Ok ActionWrite
  else if s =? "delete" then Ok ActionDelete
  else if s =? "_none" then Ok ActionNone
  else Err (Errorf ("invalid action: " ++ s ++
                    ", only 'read', 'write', 'delete', '_none' are supported")).

Record Permission : Type := mkPermission {
  Resource_of : Resource;
  Action_of : Action
}.

Definition Permission_IsValid (p : Permission) : bool :=
  neqb (Resource_of p) "" && neqb (Action_of p) "".

Definition PlaceholderPermission : Permission :=
  mkPermission ResourcePlaceholder ActionNone.

Inductive PermissionType : Type :=
| PermissionTypeNormal
| PermissionTypeSystem.

Definition PermissionType_eqb (a b : PermissionType) : bool :=
  match a, b with
  | PermissionTypeNormal, PermissionTypeNormal => true
  | PermissionTypeSystem, PermissionTypeSystem => true
  | _, _ => false
  end.

Inductive PolicyType : Type :=
| PolicyTypePermission
| PolicyTypeGrouping.

Record Policy : Type := mkPolicy {
  Type_ : PolicyType;
  Subject : string;
  Domain : string;
  PResource : Resource;
  PAction : Action
}.

Record GroupingPolicy : Type := mkGroupingPolicy {
  UserKey : string;
  RoleKey : string;
  TenantKey : string
}.

Record Role : Type := mkRole {
  Key : string;
  Name : string;
  Description : string;
  Permissions : list Permission;
  RTenantKey : string
}.

Definition ErrInvalidParameter : error :=
  Error "INVALID_PARAMETER" "无效参数".
Definition ErrSelfElevationPrevented : error :=
  Error "SELF_ELEVATION_PREVENTED" "不允许为自己分配管理员权限".
Definition ErrSystemPermissionImmutable : error :=
  Error "SYSTEM_PERMISSION_IMMUTABLE" "系统权限不可变更".
Definition ErrSystemRoleImmutable : error :=
  Error "SYSTEM_ROLE_IMMUTABLE"
    "该角色包含系统级权限（如租户管理、系统配置等），不允许修改。请创建新的自定义角色来调整权限".
Definition ErrSystemRoleAssignmentDenied : error :=
  Error "SYSTEM_ROLE_ASSIGNMENT_DENIED"
    "角色包含系统级权限，只能在租户初始化时分配给管理员用户".
Definition ErrSystemRoleRemovalDenied : error :=
  Error "SYSTEM_ROLE_REMOVAL_DENIED"
    "无法移除该角色：角色包含系统级权限，移除后用户将无法管理系统".
Definition ErrGlobalRoleAccessDenied : error :=
  Error "GLOBAL_ROLE_ACCESS_DENIED"
    "操作全局域角色需要全局权限，当前用户只有租户级权限".

(** ** core/config.go *)

Record SecurityConfig : Type := mkSecurityConfig {
  PreventSelfElevation : bool;
  SystemPermissions : list Permission
}.

Definition DefaultSecurityConfig : SecurityConfig :=
  {| PreventSelfElevation := true;
     SystemPermissions :=
       [ mkPermission ResourceTenant ActionWrite;
         mkPermission ResourceTenant ActionDelete;
         mkPermission ResourceTenant ActionRead;
         mkPermission ResourceSystem ActionWrite;
         mkPermission ResourceSystem ActionRead;
         mkPermission ResourceSystem ActionDelete;
         mkPermission ResourceUser ActionWrite;
         mkPermission ResourceUser ActionDelete;
         mkPermission ResourcePermission ActionWrite;
         mkPermission ResourcePermission ActionDelete ] |}.

(** ** The security validator *)

(** The interface [PermissionChecker]. *)
Record PermissionChecker : Type := mkPermissionChecker {
  CheckPermission : string -> string -> Permission -> result bool
}.

(** [permissionChecker] is [nil] until [SetPermissionChecker] is called. *)
Record SecurityValidator : Type := mkSecurityValidator {
  config : SecurityConfig;
  permissionChecker : option PermissionChecker
}.

Definition NewSecurityValidator (c : SecurityConfig) : SecurityValidator :=
  {| config := c; permissionChecker := None |}.

Definition SetPermissionChecker (sv : SecurityValidator)
    (checker : PermissionChecker) : SecurityValidator :=
  {| config := config sv; permissionChecker := Some checker |}.

Module Validator.

Fixpoint isSystemPermission_loop (sys : list Permission)
    (permission : Permission) : bool :=
  match sys with
  | [] => false
  | sysPerm :: rest =>
      if (Resource_of permission =? Resource_of sysPerm)
         && (Action_of permission =? Action_of sysPerm)
      then true
      else isSystemPermission_loop rest permission
  end.

Definition isSystemPermission (sv : SecurityValidator)
    (permission : Permission) : bool :=
  isSystemPermission_loop (SystemPermissions (config sv)) permission.

Definition GetPermissionType (sv : SecurityValidator)
    (permission : Permission) : PermissionType :=
  if isSystemPermission sv permission then PermissionTypeSystem
  else PermissionTypeNormal.

Definition isManagementPermission (sv : SecurityValidator)
    (permission : Permission) : bool :=
  if (Resource_of permission =? ResourcePermission)
     && ((Action_of permission =? ActionWrite)
         || (Action_of permission =? ActionDelete))
  then true
  else if (Resource_of permission =? ResourceUser)
     && ((Action_of permission =? ActionWrite)
         || (Action_of permission =? ActionDelete))
  then true
  else if (Resource_of permission =? ResourceRole)
     && ((Action_of permission =? ActionWrite)
         || (Action_of permission =? ActionDelete))
  then true
  else if isSystemPermission sv permission then true
  else false.

(** The method [PreventSelfElevation] (the configuration field has the
    same name in the source). *)
Definition PreventSelfElevation_check (sv : SecurityValidator)
    (operatorKey targetKey : string) (permission : Permission)
    : option error :=
  if negb (PreventSelfElevation (config sv)) then None
  else if neqb operatorKey targetKey then None
  else if isManagementPermission sv permission
       then Some ErrSelfElevationPrevented
  else None.

Definition validateOperatorPermission (sv : SecurityValidator)
    (operatorKey domain : string) (permission : Permission)
    : option error :=
  match permissionChecker sv with
  | None => None
  | Some checker =>
      match GetPermissionType sv permission with
      | PermissionTypeSystem =>
          let permissionToCheck :=
            mkPermission ResourcePermission ActionWrite in
          match CheckPermission checker operatorKey domain
                  permissionToCheck with
          | Err err => Some (Wrapf "检查操作者权限时出错: " err)
          | Ok hasPermission =>
              if negb hasPermission then
                Some (Errorf ("操作者 " ++ operatorKey ++
                              " 没有权限管理权限，无法操作系统权限 " ++
                              Resource_of permission ++ ":" ++
                              Action_of permission))
              else None
          end
      | PermissionTypeNormal =>
          let permissionToCheck :=
            mkPermission ResourcePermission ActionWrite in
          match CheckPermission checker operatorKey domain
                  permissionToCheck with
          | Err err => Some (Wrapf "检查操作者权限时出错: " err)
          | Ok hasPermission =>
              if negb hasPermission then
                Some (Errorf ("操作者 " ++ operatorKey ++
                              " 没有权限管理权限，无法操作权限 " ++
                              Resource_of permission ++ ":" ++
                              Action_of permission))
              else None
          end
      end
  end.

Definition ValidatePermissionGrant (sv : SecurityValidator)
    (operatorKey targetUserKey tenantKey : string)
    (permission : Permission) : option error :=
  match PreventSelfElevation_check sv operatorKey targetUserKey
          permission with
  | Some err => Some err
  | None =>
      if isSystemPermission sv permission
      then Some ErrSystemPermissionImmutable
      else
        match validateOperatorPermission sv operatorKey tenantKey
                permission with
        | Some err => Some err
        | None => None
        end
  end.

Definition ValidatePermissionGrantWithDomain (sv : SecurityValidator)
    (operatorKey targetUserKey operatorDomain : string)
    (permission : Permission) : option error :=
  match PreventSelfElevation_check sv operatorKey targetUserKey
          permission with
  | Some err => Some err
  | None =>
      if isSystemPermission sv permission
      then Some ErrSystemPermissionImmutable
      else
        match validateOperatorPermission sv operatorKey operatorDomain
                permission with
        | Some err => Some err
        | None => None
        end
  end.

Definition ValidatePermissionRevoke (sv : SecurityValidator)
    (operatorKey targetUserKey tenantKey : string)
    (permission : Permission) : option error :=
  match PreventSelfElevation_check sv operatorKey targetUserKey
          permission with
  | Some err => Some err
  | None =>
      if isSystemPermission sv permission
      then Some ErrSystemPermissionImmutable
      else
        match validateOperatorPermission sv operatorKey tenantKey
                permission with
        | Some err => Some err
        | None => None
        end
  end.

End Validator.

(* ================================================================== *)
(** * The casbin enforcer

    External to the repository.  The model file used by casbinx declares
    permission rules [p = sub, dom, obj, act] and grouping rules
    [g = user, role, domain]; a rule is a row of strings.  The queries
    keep the order of the store; a write never fails in this model, so
    the [err] of a casbin write is always [nil]. *)

Module casbin.

Record Enforcer : Type := mkEnforcer {
  policy : list (list string);
  grouping : list (list string)
}.

Fixpoint row_eqb (a b : list string) : bool :=
  match a, b with
  | [], [] => true
  | x :: a', y :: b' => (x =? y) && row_eqb a' b'
  | _, _ => false
  end.

Definition GetPolicy (e : Enforcer) : list (list string) := policy e.

Definition GetGroupingPolicy (e : Enforcer) : list (list string) :=
  grouping e.

(** A rule that is already stored is not added again. *)
Definition addRule (rules : list (list string)) (rule : list string)
    : list (list string) :=
  if existsb (row_eqb rule) rules then rules else rules ++ [rule].

Definition removeRule (rules : list (list string)) (rule : list string)
    : list (list string) :=
  filter (fun r => negb (row_eqb r rule)) rules.

Definition AddPolicy (e : Enforcer) (sub dom obj act : string)
    : Enforcer :=
  mkEnforcer (addRule (policy e) [sub; dom; obj; act]) (grouping e).

Definition RemovePolicy (e : Enforcer) (sub dom obj act : string)
    : Enforcer :=
  mkEnforcer (removeRule (policy e) [sub; dom; obj; act]) (grouping e).

(** In a filtered query an empty field value matches every rule. *)
Definition fieldMatch (value field : string) : bool :=
  (value =? "") || (field =? value).

Definition GetPermissionsForUser (e : Enforcer) (user domain : string)
    : list (list string) :=
  filter (fun r => fieldMatch user (idx r 0) && fieldMatch domain (idx r 1))
         (policy e).

(** The roles a user is directly given in one domain. *)
Definition GetRolesForUserInDomain (e : Enforcer) (name domain : string)
    : list string :=
  map (fun g => idx g 1)
      (filter (fun g => (idx g 0 =? name) && (idx g 2 =? domain))
              (grouping e)).

Definition AddRoleForUserInDomain (e : Enforcer)
    (user role domain : string) : Enforcer :=
  mkEnforcer (policy e) (addRule (grouping e) [user; role; domain]).

Definition DeleteRoleForUserInDomain (e : Enforcer)
    (user role domain : string) : Enforcer :=
  mkEnforcer (policy e) (removeRule (grouping e) [user; role; domain]).

End casbin.

(* ================================================================== *)
(** * core.Enforcer

    The struct wraps one casbin enforcer; the methods below take that
    enforcer as their receiver. *)

Module Enforcer.

Definition AddPolicy (e : casbin.Enforcer) (subject domain : string)
    (permission : Permission) : casbin.Enforcer :=
  casbin.AddPolicy e subject domain (Resource_of permission)
                   (Action_of permission).

Definition RemovePolicy (e : casbin.Enforcer) (subject domain : string)
    (permission : Permission) : casbin.Enforcer :=
  casbin.RemovePolicy e subject domain (Resource_of permission)
                      (Action_of permission).

Fixpoint GetPolicies_loop (allPolicies : list (list string))
    (subject domain : string) : result (list Policy) :=
  match allPolicies with
  | [] => Ok []
  | policy :: rest =>
      if (4 <=? length policy)%nat then
        action <- ParseAction (idx policy 3) ;;
        if ((subject =? "") || (idx policy 0 =? subject))
           && ((domain =? "") || (idx policy 1 =? domain))
        then
          policies <- GetPolicies_loop rest subject domain ;;
          Ok (mkPolicy PolicyTypePermission (idx policy 0) (idx policy 1)
                       (idx policy 2) action :: policies)
        else GetPolicies_loop rest subject domain
      else GetPolicies_loop rest subject domain
  end.

Definition GetPolicies (e : casbin.Enforcer) (subject domain : string)
    : result (list Policy) :=
  GetPolicies_loop (casbin.GetPolicy e) subject domain.

Definition GetAllPolicies (e : casbin.Enforcer) : result (list Policy) :=
  GetPolicies e "" "".

Definition ClearPolicies (e : casbin.Enforcer) (subject : string)
    : option error * casbin.Enforcer :=
  match GetPolicies e subject "" with
  | Err err => (Some err, e)
  | Ok policies =>
      (None,
       fold_left
         (fun e' policy =>
            casbin.RemovePolicy e' (Subject policy) (Domain policy)
                                (PResource policy) (PAction policy))
         policies e)
  end.

Definition AddGroupingPolicy (e : casbin.Enforcer)
    (userKey roleKey domain : string) : casbin.Enforcer :=
  casbin.AddRoleForUserInDomain e userKey roleKey domain.

Definition RemoveGroupingPolicy (e : casbin.Enforcer)
    (userKey roleKey domain : string) : casbin.Enforcer :=
  casbin.DeleteRoleForUserInDomain e userKey roleKey domain.

Definition GetRolesForUser (e : casbin.Enforcer) (userKey domain : string)
    : result (list string) :=
  Ok (casbin.GetRolesForUserInDomain e userKey domain).

Definition GetGroupingPolicies (e : casbin.Enforcer)
    : result (list GroupingPolicy) :=
  Ok (flat_map
        (fun policy =>
           if (3 <=? length policy)%nat
           then [mkGroupingPolicy (idx policy 0) (idx policy 1)
                                  (idx policy 2)]
           else [])
        (casbin.GetGroupingPolicy e)).

(** The loop that keeps the first occurrence of every role;
    [roleMap] holds the roles already seen. *)
Fixpoint uniqueRoles_loop (allRoles roleMap : list string) : list string :=
  match allRoles with
  | [] => []
  | role :: rest =>
      if negb (existsb (String.eqb role) roleMap)
      then role :: uniqueRoles_loop rest (role :: roleMap)
      else uniqueRoles_loop rest roleMap
  end.

(** Step 4 of [GetImplicitPermissions]: rows to [Permission]s. *)
Fixpoint toPermissions (allPolicies : list (list string))
    : result (list Permission) :=
  match allPolicies with
  | [] => Ok []
  | policy :: rest =>
      if (4 <=? length policy)%nat then
        action <- ParseAction (idx policy 3) ;;
        permissions <- toPermissions rest ;;
        Ok (mkPermission (idx policy 2) action :: permissions)
      else toPermissions rest
  end.

(** The rows gathered by steps 1 to 3 of [GetImplicitPermissions]. *)
Definition implicitPolicies (e : casbin.Enforcer)
    (userKey domain : string) : list (list string) :=
  let userPolicies := casbin.GetPermissionsForUser e userKey domain in
  let tenantRoles := casbin.GetRolesForUserInDomain e userKey domain in
  let allRoles :=
    tenantRoles ++
    (if neqb domain "*"
     then casbin.GetRolesForUserInDomain e userKey "*"
     else []) in
  let uniqueRoles := uniqueRoles_loop allRoles [] in
  let domainsToCheck :=
    ["*"] ++ (if neqb domain "*" then [domain] else []) in
  userPolicies ++
  flat_map
    (fun role =>
       flat_map
         (fun checkDomain =>
            casbin.GetPermissionsForUser e role checkDomain)
         domainsToCheck)
    uniqueRoles.

Definition GetImplicitPermissions (e : casbin.Enforcer)
    (userKey domain : string) : result (list Permission) :=
  toPermissions (implicitPolicies e userKey domain).

Definition CheckPermission (e : casbin.Enforcer) (subject domain : string)
    (permission : Permission) : result bool :=
  userPermissions <- GetImplicitPermissions e subject domain ;;
  Ok (existsb
        (fun userPerm =>
           (Resource_of userPerm =? Resource_of permission)
           && (Action_of userPerm =? Action_of permission))
        userPermissions).

Fixpoint GetDirectPermissions_loop (allPolicies : list (list string))
    (userKey domain : string) : result (list Permission) :=
  match allPolicies with
  | [] => Ok []
  | policy :: rest =>
      if (4 <=? length policy)%nat then
        if (idx policy 0 =? userKey) && (idx policy 1 =? domain) then
          action <- ParseAction (idx policy 3) ;;
          permissions <- GetDirectPermissions_loop rest userKey domain ;;
          Ok (mkPermission (idx policy 2) action :: permissions)
        else GetDirectPermissions_loop rest userKey domain
      else GetDirectPermissions_loop rest userKey domain
  end.

Definition GetDirectPermissions (e : casbin.Enforcer)
    (userKey domain : string) : result (list Permission) :=
  GetDirectPermissions_loop (casbin.GetPolicy e) userKey domain.

Definition IsRoleAssigned (e : casbin.Enforcer)
    (userKey roleKey domain : string) : result bool :=
  roles <- GetRolesForUser e userKey domain ;;
  Ok (existsb (fun role => role =? roleKey) roles).

Definition IsRoleInUse (e : casbin.Enforcer) (roleKey : string)
    : result bool :=
  groupPolicies <- GetGroupingPolicies e ;;
  Ok (existsb (fun policy => RoleKey policy =? roleKey) groupPolicies).

Definition GetUsersWithRole (e : casbin.Enforcer)
    (roleKey domain : string) : result (list string) :=
  groupPolicies <- GetGroupingPolicies e ;;
  Ok (map UserKey
        (filter
           (fun policy =>
              (RoleKey policy =? roleKey)
              && ((domain =? "") || (TenantKey policy =? domain)))
           groupPolicies)).

End Enforcer.

(* ================================================================== *)
(** * State of one casbinx client

    [enforcer] is the policy store behind the casbin enforcer; [roles] is
    the SQL table of role metadata that the role manager and the user
    manager both query (columns role_key, name, description, tenant_key).
    A query on the table never fails in this model. *)

Record roleMetadata : Type := mkRoleMetadata {
  md_RoleKey : string;
  md_Name : string;
  md_Description : option string;
  md_TenantKey : string
}.

Record World : Type := mkWorld {
  enforcer : casbin.Enforcer;
  roles : list roleMetadata
}.

Definition setEnforcer (w : World) (e : casbin.Enforcer) : World :=
  mkWorld e (roles w).

(** The guard [if err := f(); err != nil { return wrap(err) }] run over a
    list of permissions: the first error is returned. *)
Fixpoint firstError (check : Permission -> option error)
    (permissions : list Permission) : option error :=
  match permissions with
  | [] => None
  | permission :: rest =>
      match check permission with
      | Some err => Some err
      | None => firstError check rest
      end
  end.

(** The value of a [(bool, error)] pair whose error the caller drops;
    every return of the source with a non-nil error carries [false]. *)
Definition valueOf (r : result bool) : bool :=
  match r with
  | Ok b => b
  | Err _ => false
  end.

(* ================================================================== *)
(** * package role *)

Module roleManager.

(** SELECT COUNT( * ) FROM roles WHERE role_key = $1 *)
Definition isRoleExistsInDB (w : World) (roleKey : string) : result bool :=
  let count :=
    length (filter (fun r => md_RoleKey r =? roleKey) (roles w)) in
  Ok (0 <? count)%nat.

Definition getRoleMetadata (w : World) (roleKey : string)
    : result roleMetadata :=
  match find (fun r => md_RoleKey r =? roleKey) (roles w) with
  | Some role => Ok role
  | None => Err (Errorf "sql: no rows in result set")
  end.

Definition updateRoleMetadata (w : World)
    (roleKey name description : string) : World :=
  mkWorld (enforcer w)
    (map (fun r =>
            if md_RoleKey r =? roleKey
            then mkRoleMetadata (md_RoleKey r) name (Some description)
                                (md_TenantKey r)
            else r)
         (roles w)).

Definition deleteRoleMetadata (w : World) (roleKey : string) : World :=
  mkWorld (enforcer w)
    (filter (fun r => negb (md_RoleKey r =? roleKey)) (roles w)).

Definition isSystemPermission (sv : SecurityValidator)
    (permission : Permission) : bool :=
  PermissionType_eqb (Validator.GetPermissionType sv permission)
                     PermissionTypeSystem.

Definition addPermissions (e : casbin.Enforcer)
    (roleKey domain : string) (permissions : list Permission)
    : casbin.Enforcer :=
  fold_left
    (fun e' perm =>
       if negb (Permission_IsValid perm) then e'
       else Enforcer.AddPolicy e' roleKey domain perm)
    permissions e.

Definition setRolePermissions (w : World) (roleKey : string)
    (permissions : list Permission) : option error * World :=
  match Enforcer.ClearPolicies (enforcer w) roleKey with
  | (Some err, _) => (Some err, w)
  | (None, e1) =>
      let e2 := addPermissions e1 roleKey "*" permissions in
      if (length permissions =? 0)%nat
      then (None, setEnforcer w
                    (Enforcer.AddPolicy e2 roleKey "*"
                                        PlaceholderPermission))
      else (None, setEnforcer w e2)
  end.

Definition setRolePermissionsInTenant (w : World)
    (roleKey tenantKey : string) (permissions : list Permission)
    : option error * World :=
  match Enforcer.ClearPolicies (enforcer w) roleKey with
  | (Some err, _) => (Some err, w)
  | (None, e1) =>
      let e2 := addPermissions e1 roleKey tenantKey permissions in
      if (length permissions =? 0)%nat
      then (None, setEnforcer w
                    (Enforcer.AddPolicy e2 roleKey tenantKey
                                        PlaceholderPermission))
      else (None, setEnforcer w e2)
  end.

Definition isRoleExists (w : World) (roleKey : string) : result bool :=
  exists_ <- isRoleExistsInDB w roleKey ;;
  if exists_ then Ok true
  else
    policies <- Enforcer.GetPolicies (enforcer w) roleKey "" ;;
    if (0 <? length policies)%nat then Ok true
    else Enforcer.IsRoleInUse (enforcer w) roleKey.

Definition GetRolePermissions (w : World) (roleKey : string)
    : result (list Permission) :=
  if roleKey =? "" then Err ErrInvalidParameter
  else
    isRole <- isRoleExistsInDB w roleKey ;;
    if negb isRole
    then Err (Errorf ("'" ++ roleKey ++ "' 不是一个有效的角色"))
    else
      policies <- Enforcer.GetPolicies (enforcer w) roleKey "" ;;
      Ok (map (fun policy =>
                 mkPermission (PResource policy) (PAction policy))
            (filter
               (fun policy =>
                  negb ((PResource policy =? ResourcePlaceholder)
                        && (PAction policy =? ActionNone)))
               policies)).

Definition GetRole (w : World) (roleKey : string) : result Role :=
  if roleKey =? "" then Err ErrInvalidParameter
  else
    match getRoleMetadata w roleKey with
    | Err _ => Err (Errorf ("角色 '" ++ roleKey ++ "' 不存在"))
    | Ok md =>
        permissions <- GetRolePermissions w roleKey ;;
        let description :=
          match md_Description md with
          | Some d => d
          | None => ""
          end in
        Ok (mkRole (md_RoleKey md) (md_Name md) description permissions
                   (md_TenantKey md))
    end.

Definition HasSystemPermissions (sv : SecurityValidator) (w : World)
    (roleKey : string) : result bool :=
  if roleKey =? "" then Err ErrInvalidParameter
  else
    isRole <- isRoleExistsInDB w roleKey ;;
    if negb isRole then Ok false
    else
      permissions <- GetRolePermissions w roleKey ;;
      Ok (existsb (isSystemPermission sv) permissions).

Definition UserRoleHasSystemPermissions (sv : SecurityValidator)
    (w : World) (userKey roleKey tenantKey : string) : result bool :=
  if (userKey =? "") || (roleKey =? "") then Err ErrInvalidParameter
  else
    isRole <- isRoleExistsInDB w roleKey ;;
    if negb isRole then Ok false
    else
      hasRole <- Enforcer.IsRoleAssigned (enforcer w) userKey roleKey
                                         tenantKey ;;
      if negb hasRole then Ok false
      else HasSystemPermissions sv w roleKey.

Definition UpdateRole (sv : SecurityValidator) (w : World)
    (operatorKey roleKey roleName description tenantKey : string)
    (permissions : list Permission) : option error * World :=
  if roleKey =? "" then (Some ErrInvalidParameter, w)
  else
    match isRoleExists w roleKey with
    | Err err => (Some err, w)
    | Ok exists_ =>
        if negb exists_
        then (Some (Errorf ("角色 '" ++ roleKey ++ "' 不存在")), w)
        else if valueOf (HasSystemPermissions sv w roleKey)
        then (Some ErrSystemRoleImmutable, w)
        else
          let w1 :=
            if neqb roleName "" || neqb description ""
            then updateRoleMetadata w roleKey roleName description
            else w in
          setRolePermissionsInTenant w1 roleKey tenantKey permissions
    end.

Definition DeleteRole (sv : SecurityValidator) (w : World)
    (roleKey : string) : option error * World :=
  if roleKey =? "" then (Some ErrInvalidParameter, w)
  else
    match isRoleExists w roleKey with
    | Err err => (Some err, w)
    | Ok exists_ =>
        if negb exists_
        then (Some (Errorf ("角色 '" ++ roleKey ++ "' 不存在")), w)
        else if valueOf (HasSystemPermissions sv w roleKey)
        then (Some ErrSystemRoleImmutable, w)
        else
          match Enforcer.ClearPolicies (enforcer w) roleKey with
          | (Some err, _) => (Some err, w)
          | (None, e1) =>
              (None, deleteRoleMetadata (setEnforcer w e1) roleKey)
          end
    end.

Definition GrantPermission (sv : SecurityValidator) (w : World)
    (operatorKey roleKey : string) (permission : Permission)
    : option error * World :=
  if (roleKey =? "") || (Resource_of permission =? "")
     || (Action_of permission =? "")
  then (Some ErrInvalidParameter, w)
  else
    match isRoleExistsInDB w roleKey with
    | Err err => (Some err, w)
    | Ok isRole =>
        if negb isRole
        then (Some (Errorf ("'" ++ roleKey ++ "' 不是一个有效的角色")), w)
        else if valueOf (HasSystemPermissions sv w roleKey)
        then (Some ErrSystemRoleImmutable, w)
        else
          match GetRole w roleKey with
          | Err err => (Some err, w)
          | Ok role =>
              let tenantKey := RTenantKey role in
              (None, setEnforcer w
                       (Enforcer.AddPolicy (enforcer w) roleKey tenantKey
                                           permission))
          end
    end.

Definition RevokePermission (sv : SecurityValidator) (w : World)
    (operatorKey roleKey : string) (permission : Permission)
    : option error * World :=
  if (roleKey =? "") || (Resource_of permission =? "")
     || (Action_of permission =? "")
  then (Some ErrInvalidParameter, w)
  else
    match isRoleExistsInDB w roleKey with
    | Err err => (Some err, w)
    | Ok isRole =>
        if negb isRole
        then (Some (Errorf ("'" ++ roleKey ++ "' 不是一个有效的角色")), w)
        else if valueOf (HasSystemPermissions sv w roleKey)
        then (Some ErrSystemRoleImmutable, w)
        else
          match GetRole w roleKey with
          | Err err => (Some err, w)
          | Ok role =>
              let tenantKey := RTenantKey role in
              (None, setEnforcer w
                       (Enforcer.RemovePolicy (enforcer w) roleKey
                                              tenantKey permission))
          end
    end.

Definition SetRolePermissions (sv : SecurityValidator) (w : World)
    (roleKey : string) (permissions : list Permission)
    : option error * World :=
  if roleKey =? "" then (Some ErrInvalidParameter, w)
  else
    match isRoleExistsInDB w roleKey with
    | Err err => (Some err, w)
    | Ok isRole =>
        if negb isRole
        then (Some (Errorf ("'" ++ roleKey ++ "' 不是一个有效的角色")), w)
        else if valueOf (HasSystemPermissions sv w roleKey)
        then (Some ErrSystemRoleImmutable, w)
        else setRolePermissions w roleKey permissions
    end.

Definition GetUsersWithRole (w : World) (roleKey tenantKey : string)
    : result (list string) :=
  if roleKey =? "" then Err ErrInvalidParameter
  else Enforcer.GetUsersWithRole (enforcer w) roleKey tenantKey.

End roleManager.

(* ================================================================== *)
(** * package user *)

Module userManager.

Definition validateParams (userKey : string) (permission : Permission)
    : option error :=
  if (userKey =? "") || (Resource_of permission =? "")
     || (Action_of permission =? "")
  then Some ErrInvalidParameter
  else None.

Definition isRoleExistsInDB (w : World) (roleKey : string) : result bool :=
  let count :=
    length (filter (fun r => md_RoleKey r =? roleKey) (roles w)) in
  Ok (0 <? count)%nat.

Definition validateNotRole (w : World) (subject : string) : option error :=
  match isRoleExistsInDB w subject with
  | Err err => Some err
  | Ok isRole =>
      if isRole
      then Some (Errorf ("不能直接给角色 '" ++ subject ++
                         "' 操作权限，请使用角色管理接口"))
      else
        match Enforcer.IsRoleInUse (enforcer w) subject with
        | Err err => Some err
        | Ok isInUse =>
            if isInUse
            then Some (Errorf ("不能直接给角色 '" ++ subject ++
                               "' 操作权限，请使用角色管理接口"))
            else None
        end
  end.

Definition validateRoleExists (w : World) (roleKey : string)
    : option error :=
  match isRoleExistsInDB w roleKey with
  | Err err => Some err
  | Ok isRole =>
      if isRole then None
      else
        match Enforcer.GetPolicies (enforcer w) roleKey "" with
        | Err err => Some err
        | Ok policies =>
            if (0 <? length policies)%nat then None
            else
              match Enforcer.IsRoleInUse (enforcer w) roleKey with
              | Err err => Some err
              | Ok isInUse =>
                  if isInUse then None
                  else Some (Errorf ("角色 '" ++ roleKey ++ "' 不存在"))
              end
        end
  end.

Definition GrantPermission (w : World)
    (operatorKey userKey tenantKey : string) (permission : Permission)
    : option error * World :=
  match validateParams userKey permission with
  | Some err => (Some err, w)
  | None =>
      match validateNotRole w userKey with
      | Some err => (Some err, w)
      | None =>
          (None, setEnforcer w
                   (Enforcer.AddPolicy (enforcer w) userKey tenantKey
                                       permission))
      end
  end.

Definition RevokePermission (w : World)
    (operatorKey userKey tenantKey : string) (permission : Permission)
    : option error * World :=
  match validateParams userKey permission with
  | Some err => (Some err, w)
  | None =>
      match validateNotRole w userKey with
      | Some err => (Some err, w)
      | None =>
          (None, setEnforcer w
                   (Enforcer.RemovePolicy (enforcer w) userKey tenantKey
                                          permission))
      end
  end.

Definition AssignRole (w : World)
    (operatorKey userKey roleKey tenantKey : string)
    : option error * World :=
  if (userKey =? "") || (roleKey =? "") then (Some ErrInvalidParameter, w)
  else
    match validateNotRole w userKey with
    | Some err => (Some err, w)
    | None =>
        match validateRoleExists w roleKey with
        | Some err => (Some err, w)
        | None =>
            (None, setEnforcer w
                     (Enforcer.AddGroupingPolicy (enforcer w) userKey
                                                 roleKey tenantKey))
        end
    end.

Definition RemoveRole (w : World)
    (operatorKey userKey roleKey tenantKey : string)
    : option error * World :=
  if (userKey =? "") || (roleKey =? "") then (Some ErrInvalidParameter, w)
  else
    match validateNotRole w userKey with
    | Some err => (Some err, w)
    | None =>
        (None, setEnforcer w
                 (Enforcer.RemoveGroupingPolicy (enforcer w) userKey
                                                roleKey tenantKey))
    end.

End userManager.

(* ================================================================== *)
(** * package check *)

Module checkManager.

Definition CheckPermission (e : casbin.Enforcer)
    (userKey tenantKey : string) (permission : Permission) : result bool :=
  Enforcer.CheckPermission e userKey tenantKey permission.

Definition coreResources : list Resource :=
  [ResourceUser; ResourceRole; ResourcePermission; ResourceSystem;
   ResourceTenant].

(** The inner loop of [CanAccessTenant], over [core.AllActions]. *)
Fixpoint anyAction (e : casbin.Enforcer) (userKey tenantKey : string)
    (resource : Resource) (actions : list Action) : result bool :=
  match actions with
  | [] => Ok false
  | action :: rest =>
      hasPermission <- CheckPermission e userKey tenantKey
                         (mkPermission resource action) ;;
      if hasPermission then Ok true
      else anyAction e userKey tenantKey resource rest
  end.

(** The outer loop of [CanAccessTenant], over [coreResources]. *)
Fixpoint anyResource (e : casbin.Enforcer) (userKey tenantKey : string)
    (resources : list Resource) : result bool :=
  match resources with
  | [] => Ok false
  | resource :: rest =>
      found <- anyAction e userKey tenantKey resource AllActions ;;
      if found then Ok true
      else anyResource e userKey tenantKey rest
  end.

Definition CanAccessTenant (e : casbin.Enforcer)
    (userKey tenantKey : string) : result bool :=
  hasTenantReadPermission <-
    CheckPermission e userKey "*"
      (mkPermission ResourceTenant ActionRead) ;;
  if hasTenantReadPermission then Ok true
  else
    roles <- Enforcer.GetRolesForUser e userKey tenantKey ;;
    if (0 <? length roles)%nat then Ok true
    else anyResource e userKey tenantKey coreResources.

End checkManager.

(* ================================================================== *)
(** * package engine *)

Module casbinxClient.

(** The validator of a client: built from the security configuration,
    with the check manager attached as its permission checker.  The
    checker reads the policy store of the client. *)
Definition securityValidator (cfg : SecurityConfig) (w : World)
    : SecurityValidator :=
  SetPermissionChecker (NewSecurityValidator cfg)
    (mkPermissionChecker (checkManager.CheckPermission (enforcer w))).

Fixpoint permissionExists (permission : Permission)
    (permissions : list Permission) : bool :=
  match permissions with
  | [] => false
  | p :: rest =>
      if (Resource_of p =? Resource_of permission)
         && (Action_of p =? Action_of permission)
      then true
      else permissionExists permission rest
  end.

Definition findAddedPermissions (oldPermissions newPermissions
    : list Permission) : list Permission :=
  filter (fun newPerm => negb (permissionExists newPerm oldPermissions))
         newPermissions.

Definition findRemovedPermissions (oldPermissions newPermissions
    : list Permission) : list Permission :=
  filter (fun oldPerm => negb (permissionExists oldPerm newPermissions))
         oldPermissions.

Definition GrantPermission (cfg : SecurityConfig) (w : World)
    (operatorKey userKey tenantKey : string) (permission : Permission)
    : option error * World :=
  match Validator.ValidatePermissionGrant (securityValidator cfg w)
          operatorKey userKey tenantKey permission with
  | Some err => (Some err, w)
  | None =>
      userManager.GrantPermission w operatorKey userKey tenantKey
                                  permission
  end.

Definition RevokePermission (cfg : SecurityConfig) (w : World)
    (operatorKey userKey tenantKey : string) (permission : Permission)
    : option error * World :=
  match Validator.ValidatePermissionRevoke (securityValidator cfg w)
          operatorKey userKey tenantKey permission with
  | Some err => (Some err, w)
  | None =>
      userManager.RevokePermission w operatorKey userKey tenantKey
                                   permission
  end.

Definition AssignRole (cfg : SecurityConfig) (w : World)
    (operatorKey userKey roleKey tenantKey : string)
    : option error * World :=
  let userPermission := mkPermission ResourceUser ActionWrite in
  match checkManager.CheckPermission (enforcer w) operatorKey tenantKey
          userPermission with
  | Err err => (Some (Wrapf "检查操作者用户管理权限时出错: " err), w)
  | Ok hasUserPermission =>
      if negb hasUserPermission
      then (Some (Errorf ("操作者 " ++ operatorKey ++
                          " 没有用户管理权限，无法分配角色")), w)
      else
        let rolePermission := mkPermission ResourceRole ActionWrite in
        match checkManager.CheckPermission (enforcer w) operatorKey
                tenantKey rolePermission with
        | Err err => (Some (Wrapf "检查操作者角色管理权限时出错: " err), w)
        | Ok hasRolePermission =>
            if negb hasRolePermission
            then (Some (Errorf ("操作者 " ++ operatorKey ++
                                " 没有角色管理权限，无法分配角色")), w)
            else
              match roleManager.HasSystemPermissions
                      (securityValidator cfg w) w roleKey with
              | Err err => (Some (Wrapf "检查角色系统权限时出错: " err), w)
              | Ok hasSystemPerms =>
                  if hasSystemPerms
                  then (Some ErrSystemRoleAssignmentDenied, w)
                  else userManager.AssignRole w operatorKey userKey
                                              roleKey tenantKey
              end
        end
  end.

Definition RemoveRole (cfg : SecurityConfig) (w : World)
    (operatorKey userKey roleKey tenantKey : string)
    : option error * World :=
  let userPermission := mkPermission ResourceUser ActionWrite in
  match checkManager.CheckPermission (enforcer w) operatorKey tenantKey
          userPermission with
  | Err err => (Some (Wrapf "检查操作者用户管理权限时出错: " err), w)
  | Ok hasUserPermission =>
      if negb hasUserPermission
      then (Some (Errorf ("操作者 " ++ operatorKey ++
                          " 没有用户管理权限，无法分配角色")), w)
      else
        let rolePermission := mkPermission ResourceRole ActionWrite in
        match checkManager.CheckPermission (enforcer w) operatorKey
                tenantKey rolePermission with
        | Err err => (Some (Wrapf "检查操作者角色管理权限时出错: " err), w)
        | Ok hasRolePermission =>
            if negb hasRolePermission
            then (Some (Errorf ("操作者 " ++ operatorKey ++
                                " 没有角色管理权限，无法分配角色")), w)
            else
              match roleManager.UserRoleHasSystemPermissions
                      (securityValidator cfg w) w userKey roleKey
                      tenantKey with
              | Err err =>
                  (Some (Wrapf "检查用户角色系统权限时出错: " err), w)
              | Ok hasSystemPerms =>
                  if hasSystemPerms
                  then (Some ErrSystemRoleRemovalDenied, w)
                  else userManager.RemoveRole w operatorKey userKey
                                              roleKey tenantKey
              end
        end
  end.

Definition CanAccessTenant (w : World) (userKey tenantKey : string)
    : result bool :=
  checkManager.CanAccessTenant (enforcer w) userKey tenantKey.

Definition hasGlobalRoleAssignments (w : World) (roleKey : string)
    : result bool :=
  users <- roleManager.GetUsersWithRole w roleKey "*" ;;
  Ok (0 <? length users)%nat.

Definition hasGlobalPermission (w : World) (operatorKey : string)
    (permission : Permission) : result bool :=
  checkManager.CheckPermission (enforcer w) operatorKey "*" permission.

Definition validateGlobalRoleOperation (w : World)
    (operatorKey roleKey : string) : option error :=
  match hasGlobalRoleAssignments w roleKey with
  | Err err => Some (Wrapf "检查角色全局分配失败: " err)
  | Ok hasGlobalAssignments =>
      if negb hasGlobalAssignments then None
      else
        match hasGlobalPermission w operatorKey
                (mkPermission ResourceRole ActionWrite) with
        | Err err => Some (Wrapf "检查全局权限失败: " err)
        | Ok hasGlobalPerm =>
            if negb hasGlobalPerm then Some ErrGlobalRoleAccessDenied
            else None
        end
  end.

Definition validateAdded (sv : SecurityValidator)
    (operatorKey roleKey tenantKey : string) (permission : Permission)
    : option error :=
  match Validator.ValidatePermissionGrant sv operatorKey roleKey tenantKey
          permission with
  | Some err =>
      Some (Wrapf ("新增角色权限验证失败 " ++ Resource_of permission ++ ":"
                   ++ Action_of permission ++ " - ") err)
  | None => None
  end.

Definition validateRemoved (sv : SecurityValidator)
    (operatorKey roleKey tenantKey : string) (permission : Permission)
    : option error :=
  match Validator.ValidatePermissionRevoke sv operatorKey roleKey tenantKey
          permission with
  | Some err =>
      Some (Wrapf ("删除角色权限验证失败 " ++ Resource_of permission ++ ":"
                   ++ Action_of permission ++ " - ") err)
  | None => None
  end.

Definition UpdateRole (cfg : SecurityConfig) (w : World)
    (operatorKey roleKey roleName description tenantKey : string)
    (permissions : list Permission) : option error * World :=
  match validateGlobalRoleOperation w operatorKey roleKey with
  | Some err => (Some err, w)
  | None =>
      match roleManager.GetRolePermissions w roleKey with
      | Err err => (Some (Wrapf "获取角色旧权限失败: " err), w)
      | Ok oldPermissions =>
          let sv := securityValidator cfg w in
          let addedPermissions :=
            findAddedPermissions oldPermissions permissions in
          let removedPermissions :=
            findRemovedPermissions oldPermissions permissions in
          match firstError (validateAdded sv operatorKey roleKey tenantKey)
                           addedPermissions with
          | Some err => (Some err, w)
          | None =>
              match firstError
                      (validateRemoved sv operatorKey roleKey tenantKey)
                      removedPermissions with
              | Some err => (Some err, w)
              | None =>
                  roleManager.UpdateRole sv w operatorKey roleKey roleName
                                         description tenantKey permissions
              end
          end
      end
  end.

Definition DeleteRole (cfg : SecurityConfig) (w : World)
    (roleKey : string) : option error * World :=
  roleManager.DeleteRole (securityValidator cfg w) w roleKey.

Definition GrantRolePermission (cfg : SecurityConfig) (w : World)
    (operatorKey roleKey : string) (permission : Permission)
    : option error * World :=
  match validateGlobalRoleOperation w operatorKey roleKey with
  | Some err => (Some err, w)
  | None =>
      match roleManager.GetRole w roleKey with
      | Err err => (Some (Wrapf "获取角色信息失败: " err), w)
      | Ok role =>
          let sv := securityValidator cfg w in
          let roleTenantKey := RTenantKey role in
          let permissionToValidate :=
            mkPermission (Resource_of permission) (Action_of permission) in
          match Validator.ValidatePermissionGrant sv operatorKey roleKey
                  roleTenantKey permissionToValidate with
          | Some err => (Some err, w)
          | None =>
              roleManager.GrantPermission sv w operatorKey roleKey
                                          permission
          end
      end
  end.

Definition RevokeRolePermission (cfg : SecurityConfig) (w : World)
    (operatorKey roleKey : string) (permission : Permission)
    : option error * World :=
  match validateGlobalRoleOperation w operatorKey roleKey with
  | Some err => (Some err, w)
  | None =>
      match roleManager.GetRole w roleKey with
      | Err err => (Some (Wrapf "获取角色信息失败: " err), w)
      | Ok role =>
          let sv := securityValidator cfg w in
          let roleTenantKey := RTenantKey role in
          let permissionToValidate :=
            mkPermission (Resource_of permission) (Action_of permission) in
          match Validator.ValidatePermissionRevoke sv operatorKey roleKey
                  roleTenantKey permissionToValidate with
          | Some err => (Some err, w)
          | None =>
              roleManager.RevokePermission sv w operatorKey roleKey
                                           permission
          end
      end
  end.

Definition SetRolePermissions (cfg : SecurityConfig) (w : World)
    (operatorKey roleKey : string) (permissions : list Permission)
    : option error * World :=
  match validateGlobalRoleOperation w operatorKey roleKey with
  | Some err => (Some err, w)
  | None =>
      match roleManager.GetRole w roleKey with
      | Err err => (Some (Wrapf "获取角色信息失败: " err), w)
      | Ok role =>
          let sv := securityValidator cfg w in
          let roleTenantKey := RTenantKey role in
          let oldPermissions := Permissions role in
          let addedPermissions :=
            findAddedPermissions oldPermissions permissions in
          let removedPermissions :=
            findRemovedPermissions oldPermissions permissions in
          match firstError
                  (validateAdded sv operatorKey roleKey roleTenantKey)
                  addedPermissions with
          | Some err => (Some err, w)
          | None =>
              match firstError
                      (validateRemoved sv operatorKey roleKey roleTenantKey)
                      removedPermissions with
              | Some err => (Some err, w)
              | None =>
                  roleManager.SetRolePermissions sv w roleKey permissions
              end
          end
      end
  end.

(** [s[lo:hi]] on a string: a run-time panic ([None]) unless
    [0 <= lo <= hi <= len(s)]. *)
Definition slice (s : string) (lo hi : Z) : option string :=
  if ((0 <=? lo) && (lo <=? hi) && (hi <=? Z.of_nat (String.length s)))%Z
  then Some (substring (Z.to_nat lo) (Z.to_nat (hi - lo)) s)
  else None.

(** [None] is a run-time panic.  The operands of [&&] and [||] are
    evaluated from left to right and only as far as needed. *)
Definition isTenantInitializationScenario
    (userKey roleKey tenantKey : string) : option bool :=
  if neqb roleKey "admin" then Some false
  else if (tenantKey =? "") || (tenantKey =? "*") then Some false
  else
    let len := Z.of_nat (String.length userKey) in
    if negb (5 <? len)%Z then Some false
    else
      match slice userKey 0 5 with
      | None => None
      | Some s1 =>
          if s1 =? "admin" then Some true
          else
            match slice userKey (len - 6) len with
            | None => None
            | Some s2 =>
                if s2 =? "-admin" then Some true
                else
                  match slice userKey (len - 9) (len - 4) with
                  | None => None
                  | Some s3 => Some (s3 =? "-admin-")
                  end
            end
      end.

End casbinxClient.

(* ================================================================== *)
(** * Vocabulary of the statements *)

(** The actions [ParseAction] accepts. *)
Definition validActionb (s : string) : bool :=
  (s =? "read") || (s =? "write") || (s =? "delete") || (s =? "_none").

(** A stored row with at least four fields is a permission tuple
    (subject, domain, resource, action). *)
Definition isTuple (row : list string) : bool := (4 <=? length row)%nat.

Definition tupleParses (row : list string) : Prop :=
  isTuple row = true -> validActionb (idx row 3) = true.

(** Every permission tuple of the store carries a parseable action. *)
Definition storeParses (e : casbin.Enforcer) : Prop :=
  Forall tupleParses (casbin.policy e).

(** Every permission rule has the four fields of the casbin model. *)
Definition storeArity (e : casbin.Enforcer) : Prop :=
  Forall (fun row => length row = 4%nat) (casbin.policy e).

Definition rowPermission (row : list string) : Permission :=
  mkPermission (idx row 2) (idx row 3).

Definition rowsPermissions (rows : list (list string)) : list Permission :=
  map rowPermission (filter isTuple rows).

(** The tuples whose subject and domain are exactly the given ones. *)
Definition isDirectRow (subject domain : string) (row : list string) : bool :=
  isTuple row && (idx row 0 =? subject) && (idx row 1 =? domain).

Definition directRows (e : casbin.Enforcer) (subject domain : string)
    : list (list string) :=
  filter (isDirectRow subject domain) (casbin.GetPolicy e).

(** The permissions the store reports for a subject in a domain. *)
Definition PermissionsOf (e : casbin.Enforcer) (subject domain : string)
    : list Permission :=
  rowsPermissions (casbin.GetPermissionsForUser e subject domain).

Definition RolesOf (e : casbin.Enforcer) (subject domain : string)
    : list string :=
  casbin.GetRolesForUserInDomain e subject domain.

(** The roles consulted for a subject in a domain: those held in the
    domain, and those held in the global domain when the domain is not
    the global one. *)
Definition consultedRole (e : casbin.Enforcer) (subject domain role : string)
    : Prop :=
  In role (RolesOf e subject domain)
  \/ (domain <> "*" /\ In role (RolesOf e subject "*")).

(** A subject holds a permission in a domain when [CheckPermission]
    answers [true]. *)
Definition holds (e : casbin.Enforcer) (subject domain : string)
    (p : Permission) : Prop :=
  Enforcer.CheckPermission e subject domain p = Ok true.

(** The [Policy] that [GetPolicies] builds from a row, and the rule
    that [ClearPolicies] removes for it. *)
Definition rowPolicy (row : list string) : Policy :=
  mkPolicy PolicyTypePermission (idx row 0) (idx row 1) (idx row 2)
           (idx row 3).

Definition policyRule (p : Policy) : list string :=
  [Subject p; Domain p; PResource p; PAction p].

(** The filter of [GetPolicies]: an empty subject or domain matches all. *)
Definition matchesFilter (subject domain : string) (row : list string)
    : bool :=
  isTuple row
  && (((subject =? "") || (idx row 0 =? subject))
      && ((domain =? "") || (idx row 1 =? domain))).

(** The rule written for a permission of a subject in a domain. *)
Definition permissionRule (subject domain : string) (p : Permission)
    : list string :=
  [subject; domain; Resource_of p; Action_of p].

(** The removals of [ClearPolicies], one per policy read. *)
Definition removeAll (policies : list Policy) (e : casbin.Enforcer)
    : casbin.Enforcer :=
  fold_left
    (fun e' policy =>
       casbin.RemovePolicy e' (Subject policy) (Domain policy)
                           (PResource policy) (PAction policy))
    policies e.

(** A role carries a system permission when one of the permissions that
    [GetRolePermissions] reports for it is in the configured set. *)
Definition systemTagged (cfg : SecurityConfig) (w : World)
    (roleKey : string) : Prop :=
  exists perms,
    roleManager.GetRolePermissions w roleKey = Ok perms
    /\ exists p, In p perms /\ In p (SystemPermissions cfg).

(* ================================================================== *)
(** * Example states *)

(** A role [sysadmin] that carries a system permission and is held by
    [carol] in [t1], a plain role [viewer], and an operator [boss] with
    the management permissions of tenant [t1]. *)
Definition world_sys : World :=
  {| enforcer :=
       {| casbin.policy :=
            [ ["sysadmin"; "*"; "tenant"; "write"];
              ["viewer"; "t1"; "document"; "read"];
              ["boss"; "t1"; "user"; "write"];
              ["boss"; "t1"; "role"; "write"];
              ["boss"; "t1"; "permission"; "write"] ];
          casbin.grouping := [ ["carol"; "sysadmin"; "t1"] ] |};
     roles :=
       [ mkRoleMetadata "sysadmin" "System administrator" None "*";
         mkRoleMetadata "viewer" "Viewer" None "t1" ] |}.

(** A role [ops], owned by tenant [t1], that [dave] holds in the global
    domain; [admin1] manages the permissions of tenant [t1]; nobody
    holds a permission in the global domain except through [ops]. *)
Definition world_tenants : World :=
  {| enforcer :=
       {| casbin.policy :=
            [ ["ops"; "*"; "user"; "read"];
              ["ops"; "t1"; "report"; "read"];
              ["admin1"; "t1"; "permission"; "write"];
              ["empty_role"; "*"; "_placeholder"; "_none"] ];
          casbin.grouping := [ ["dave"; "ops"; "*"] ] |};
     roles :=
       [ mkRoleMetadata "ops" "Operations" (Some "tenant operations") "t1";
         mkRoleMetadata "empty_role" "Empty" None "*" ] |}.

(** The default configuration with the self-elevation rule switched off. *)
Definition relaxedConfig : SecurityConfig :=
  {| PreventSelfElevation := false;
     SystemPermissions := SystemPermissions DefaultSecurityConfig |}.

(* ================================================================== *)
(** * The rest of package core *)

(** The text of an error, as [Error()] returns it; every format that
    wraps an error ends with its [%w]. *)
Fixpoint errorString (e : error) : string :=
  match e with
  | Error code message => "[" ++ code ++ "] " ++ message
  | Errorf msg => msg
  | Wrapf msg err => msg ++ errorString err
  end.

(** ** core/constants.go *)





Fixpoint HasManagePermission_loop
    (checkFunc : Resource -> Action -> result bool) (resource : Resource)
    (actions : list Action) : result bool :=
  match actions with
  | [] => Ok true
  | action :: rest =>
      hasPermission <- checkFunc resource action ;;
      if negb hasPermission then Ok false
      else HasManagePermission_loop checkFunc resource rest
  end.

Definition HasManagePermission
    (checkFunc : Resource -> Action -> result bool) (resource : Resource)
    : result bool :=
  HasManagePermission_loop checkFunc resource AllActions.

(** ** core/permission.go: the methods and helpers of [Permission] *)

Module PermissionOps.

Definition String (p : Permission) : string :=
  Resource_of p ++ ":" ++ Action_of p.

Definition Equal (p other : Permission) : bool :=
  (Resource_of p =? Resource_of other) && (Action_of p =? Action_of other).

Definition IsEmpty (p : Permission) : bool :=
  (Resource_of p =? "") || (Action_of p =? "").

Fixpoint ContainsPermission (permissions : list Permission)
    (target : Permission) : bool :=
  match permissions with
  | [] => false
  | perm :: rest =>
      if (Resource_of perm =? Resource_of target)
         && (Action_of perm =? Action_of target)
      then true
      else ContainsPermission rest target
  end.

(** [match] starts [true] and is cleared by each filter that is set and
    differs. *)
Definition filterMatch (resource : Resource) (action : Action)
    (perm : Permission) : bool :=
  let match1 :=
    if neqb resource "" && neqb (Resource_of perm) resource
    then false else true in
  if neqb action "" && neqb (Action_of perm) action then false else match1.

Definition FilterPermissions (permissions : list Permission)
    (resource : Resource) (action : Action) : list Permission :=
  filter (filterMatch resource action) permissions.

(** [permMap[key] = perm] on a map kept as a list of its entries. *)
Fixpoint mapStore (m : list (string * Permission)) (key : string)
    (perm : Permission) : list (string * Permission) :=
  match m with
  | [] => [(key, perm)]
  | (k, old) :: rest =>
      if k =? key then (k, perm) :: rest
      else (k, old) :: mapStore rest key perm
  end.

(** The result of [MergePermissions] lists the values of the map; Go
    fixes no order for them, the model lists them by first insertion. *)
Definition MergePermissions (permLists : list (list Permission))
    : list Permission :=
  map snd
      (fold_left (fun permMap perm => mapStore permMap (String perm) perm)
                 (concat permLists) []).

End PermissionOps.

(** ** The methods of [Role] *)

Module RoleEntity.

Definition GetKey (r : Role) : string := Key r.
Definition GetName (r : Role) : string := Name r.

Fixpoint hasPermission_loop (permissions : list Permission)
    (resource : Resource) (action : Action) : bool :=
  match permissions with
  | [] => false
  | perm :: rest =>
      if (Resource_of perm =? resource) && (Action_of perm =? action)
      then true
      else hasPermission_loop rest resource action
  end.

Definition HasPermission (r : Role) (resource : Resource) (action : Action)
    : bool :=
  hasPermission_loop (Permissions r) resource action.

Definition setPermissions (r : Role) (permissions : list Permission)
    : Role :=
  mkRole (Key r) (Name r) (Description r) permissions (RTenantKey r).

Definition AddPermission (r : Role) (permission : Permission) : Role :=
  if negb (HasPermission r (Resource_of permission) (Action_of permission))
  then setPermissions r (Permissions r ++ [permission])
  else r.

(** [append(r.Permissions[:i], r.Permissions[i+1:]...)] at the first
    index [i] that matches. *)
Fixpoint removeFirst (permissions : list Permission) (resource : Resource)
    (action : Action) : list Permission :=
  match permissions with
  | [] => []
  | perm :: rest =>
      if (Resource_of perm =? resource) && (Action_of perm =? action)
      then rest
      else perm :: removeFirst rest resource action
  end.

Definition RemovePermission (r : Role) (resource : Resource)
    (action : Action) : Role :=
  setPermissions r (removeFirst (Permissions r) resource action).

Definition IsValid (r : Role) : bool := neqb (Key r) "" && neqb (Name r) "".

Definition Clone (r : Role) : Role :=
  mkRole (Key r) (Name r) (Description r) (Permissions r) (RTenantKey r).

End RoleEntity.

(** ** core.Enforcer, continued *)

Module EnforcerOps.

Definition HasDirectPermission (e : casbin.Enforcer)
    (subject domain : string) (permission : Permission) : result bool :=
  policies <- Enforcer.GetPolicies e subject domain ;;
  Ok (existsb
        (fun policy =>
           (PResource policy =? Resource_of permission)
           && (PAction policy =? Action_of permission))
        policies).

(** The loop runs over the grouping rules read before the first removal. *)
Definition ClearUserRoles (e : casbin.Enforcer) (userKey : string)
    : casbin.Enforcer :=
  fold_left
    (fun e' policy =>
       if (3 <=? length policy)%nat && (idx policy 0 =? userKey)
       then casbin.DeleteRoleForUserInDomain e' (idx policy 0)
                                             (idx policy 1) (idx policy 2)
       else e')
    (casbin.GetGroupingPolicy e) e.

End EnforcerOps.

(** ** The security validator, continued *)

Module ValidatorOps.

Definition CanGrantPermission (sv : SecurityValidator)
    (operatorKey : string) (permission : Permission) : bool :=
  match Validator.GetPermissionType sv permission with
  | PermissionTypeSystem => false
  | PermissionTypeNormal => true
  end.

Definition GetSecurityConfig (sv : SecurityValidator) : SecurityConfig :=
  config sv.

Fixpoint ValidateSecurityConfig_loop (perms : list Permission)
    : option error :=
  match perms with
  | [] => None
  | perm :: rest =>
      if negb (Permission_IsValid perm)
      then Some (Errorf ("系统权限格式无效: " ++ Resource_of perm ++ ":"
                         ++ Action_of perm))
      else ValidateSecurityConfig_loop rest
  end.

Definition ValidateSecurityConfig (c : SecurityConfig) : option error :=
  ValidateSecurityConfig_loop (SystemPermissions c).

Definition UpdateSecurityConfig (sv : SecurityValidator)
    (c : SecurityConfig) : option error * SecurityValidator :=
  match ValidateSecurityConfig c with
  | Some err => (Some err, sv)
  | None => (None, mkSecurityValidator c (permissionChecker sv))
  end.

End ValidatorOps.

(* ================================================================== *)
(** * The rest of package role *)

Module roleOps.

(** INSERT INTO roles.  [role_key] is the primary key of the table, so
    the insertion of a key that is already there fails. *)
Definition createRoleMetadata (w : World)
    (roleKey name description tenantKey createdBy : string)
    : option error * World :=
  if existsb (fun r => md_RoleKey r =? roleKey) (roles w)
  then (Some (Errorf "pq: duplicate key value violates unique constraint"),
        w)
  else (None,
        mkWorld (enforcer w)
                (roles w ++ [mkRoleMetadata roleKey name (Some description)
                                            tenantKey])).

Definition CreateRole (w : World)
    (operatorKey roleKey roleName description tenantKey : string)
    (permissions : list Permission) : option error * World :=
  if (roleKey =? "") || (roleName =? "") then (Some ErrInvalidParameter, w)
  else if tenantKey =? "" then (Some (Errorf "租户键不能为空"), w)
  else
    match roleManager.isRoleExists w roleKey with
    | Err err => (Some err, w)
    | Ok exists_ =>
        if exists_
        then (Some (Errorf ("角色 '" ++ roleKey ++ "' 已存在")), w)
        else
          match createRoleMetadata w roleKey roleName description tenantKey
                                   operatorKey with
          | (Some err, _) =>
              (Some (Errorf ("创建角色元数据失败: " ++ errorString err)), w)
          | (None, w1) =>
              if (length permissions =? 0)%nat
              then (None,
                    setEnforcer w1
                      (Enforcer.AddPolicy (enforcer w1) roleKey tenantKey
                                          PlaceholderPermission))
              else
                match roleManager.setRolePermissionsInTenant
                        w1 roleKey tenantKey permissions with
                | (Some err, w2) =>
                    (Some err, roleManager.deleteRoleMetadata w2 roleKey)
                | (None, w2) => (None, w2)
                end
          end
    end.

(** [filter == nil] is [None]. *)
Record RoleFilter : Type := mkRoleFilter {
  KeyPattern : string;
  NamePattern : string;
  FTenantKey : string
}.

Definition matchRoleFilter (role : Role) (filter : option RoleFilter)
    : bool :=
  match filter with
  | None => true
  | Some f =>
      if neqb (KeyPattern f) "" && neqb (Key role) (KeyPattern f)
      then false
      else if neqb (NamePattern f) "" && neqb (Name role) (NamePattern f)
      then false
      else if neqb (FTenantKey f) "" && neqb (RTenantKey role) (FTenantKey f)
      then false
      else true
  end.

Definition GetAllGroupingPolicies (w : World) (tenantKey : string)
    : result (list GroupingPolicy) :=
  allGroupings <- Enforcer.GetGroupingPolicies (enforcer w) ;;
  Ok (filter
        (fun grouping =>
           (tenantKey =? "") || (TenantKey grouping =? tenantKey)
           || (TenantKey grouping =? "*"))
        allGroupings).

End roleOps.

(* ================================================================== *)
(** * The rest of package user *)

Module userOps.

Definition GetDirectPermissions (w : World) (userKey tenantKey : string)
    : result (list Permission) :=
  if userKey =? "" then Err ErrInvalidParameter
  else
    match userManager.validateNotRole w userKey with
    | Some _ => Ok []
    | None => Enforcer.GetDirectPermissions (enforcer w) userKey tenantKey
    end.

Definition GetEffectivePermissions (w : World) (userKey tenantKey : string)
    : result (list Permission) :=
  if userKey =? "" then Err ErrInvalidParameter
  else Enforcer.GetImplicitPermissions (enforcer w) userKey tenantKey.

(** The two merge loops share [roleSet] and [roles]: they run as one
    loop over the tenant roles followed by the global roles. *)
Definition GetUserRoles (w : World) (userKey tenantKey : string)
    : result (list string) :=
  if userKey =? "" then Err ErrInvalidParameter
  else
    match Enforcer.GetRolesForUser (enforcer w) userKey tenantKey with
    | Err err => Err err
    | Ok tenantRoles =>
        match Enforcer.GetRolesForUser (enforcer w) userKey "*" with
        | Err _ => Ok tenantRoles
        | Ok globalRoles =>
            Ok (Enforcer.uniqueRoles_loop (tenantRoles ++ globalRoles) [])
        end
    end.

Definition ClearUserPermissions (w : World) (operatorKey userKey : string)
    : option error * World :=
  if userKey =? "" then (Some ErrInvalidParameter, w)
  else
    match userManager.validateNotRole w userKey with
    | Some err => (Some err, w)
    | None =>
        match Enforcer.ClearPolicies (enforcer w) userKey with
        | (Some err, _) => (Some err, w)
        | (None, e1) => (None, setEnforcer w e1)
        end
    end.

Definition ClearUserRoles (w : World) (operatorKey userKey : string)
    : option error * World :=
  if userKey =? "" then (Some ErrInvalidParameter, w)
  else
    match userManager.validateNotRole w userKey with
    | Some err => (Some err, w)
    | None =>
        (None, setEnforcer w
                 (EnforcerOps.ClearUserRoles (enforcer w) userKey))
    end.

Definition GetUserPermissionsByResource (w : World)
    (userKey tenantKey resource : string) : result (list Permission) :=
  permissions <- GetEffectivePermissions w userKey tenantKey ;;
  Ok (PermissionOps.FilterPermissions permissions resource "").

End userOps.

(* ================================================================== *)
(** * The rest of package check *)

Module checkOps.

Definition HasDirectPermission (e : casbin.Enforcer)
    (userKey tenantKey : string) (permission : Permission) : result bool :=
  EnforcerOps.HasDirectPermission e userKey tenantKey permission.

Definition HasRole (e : casbin.Enforcer) (userKey roleKey tenantKey : string)
    : result bool :=
  roles <- Enforcer.GetRolesForUser e userKey tenantKey ;;
  Ok (existsb (fun role => role =? roleKey) roles).

Fixpoint CheckMultiplePermissions (e : casbin.Enforcer)
    (userKey tenantKey : string) (permissions : list Permission)
    : result (list bool) :=
  match permissions with
  | [] => Ok []
  | permission :: rest =>
      hasPermission <- checkManager.CheckPermission e userKey tenantKey
                         permission ;;
      results <- CheckMultiplePermissions e userKey tenantKey rest ;;
      Ok (hasPermission :: results)
  end.

Fixpoint HasAnyPermission (e : casbin.Enforcer)
    (userKey tenantKey : string) (permissions : list Permission)
    : result bool :=
  match permissions with
  | [] => Ok false
  | permission :: rest =>
      hasPermission <- checkManager.CheckPermission e userKey tenantKey
                         permission ;;
      if hasPermission then Ok true
      else HasAnyPermission e userKey tenantKey rest
  end.

Fixpoint HasAllPermissions (e : casbin.Enforcer)
    (userKey tenantKey : string) (permissions : list Permission)
    : result bool :=
  match permissions with
  | [] => Ok true
  | permission :: rest =>
      hasPermission <- checkManager.CheckPermission e userKey tenantKey
                         permission ;;
      if negb hasPermission then Ok false
      else HasAllPermissions e userKey tenantKey rest
  end.




(** [tenantSet[t] = struct{}{}] on a set kept as a list. *)
Definition setAdd (tenantSet : list string) (t : string) : list string :=
  if existsb (String.eqb t) tenantSet then tenantSet else tenantSet ++ [t].

(** The result lists the keys of [tenantSet]; Go fixes no order for
    them, the model lists them by first insertion. *)
Definition GetUserTenants (e : casbin.Enforcer) (userKey : string)
    : result (list string) :=
  policies <- Enforcer.GetPolicies e userKey "" ;;
  let tenantSet1 :=
    fold_left
      (fun tenantSet policy =>
         if neqb (Domain policy) "" && neqb (Domain policy) "*"
         then setAdd tenantSet (Domain policy)
         else tenantSet)
      policies [] in
  groupPolicies <- Enforcer.GetGroupingPolicies e ;;
  Ok (fold_left
        (fun tenantSet policy =>
           if (UserKey policy =? userKey) && neqb (TenantKey policy) ""
              && neqb (TenantKey policy) "*"
           then setAdd tenantSet (TenantKey policy)
           else tenantSet)
        groupPolicies tenantSet1).

End checkOps.

(* ================================================================== *)
(** * The rest of package engine *)

Module engineOps.

Definition validateQueryPermission (w : World)
    (operatorKey targetUserKey tenantKey : string) : option error :=
  if operatorKey =? targetUserKey then None
  else
    let permission := mkPermission ResourceUser ActionRead in
    match checkManager.CheckPermission (enforcer w) operatorKey tenantKey
            permission with
    | Err err => Some (Wrapf "检查操作者权限时出错: " err)
    | Ok hasPermission =>
        if negb hasPermission
        then Some (Errorf ("操作者 " ++ operatorKey ++ " 在租户 "
                           ++ tenantKey
                           ++ " 中没有用户查看权限，无法查询用户 "
                           ++ targetUserKey ++ " 的权限信息"))
        else None
    end.

Definition GetDirectPermissionsSecure (w : World)
    (operatorKey userKey tenantKey : string) : result (list Permission) :=
  match validateQueryPermission w operatorKey userKey tenantKey with
  | Some err => Err err
  | None => userOps.GetDirectPermissions w userKey tenantKey
  end.

Definition GetEffectivePermissionsSecure (w : World)
    (operatorKey userKey tenantKey : string) : result (list Permission) :=
  match validateQueryPermission w operatorKey userKey tenantKey with
  | Some err => Err err
  | None => userOps.GetEffectivePermissions w userKey tenantKey
  end.

Definition ClearUserPermissions (w : World)
    (operatorKey userKey tenantKey : string) : option error * World :=
  let globalCheckFunc := fun resource action =>
    checkManager.CheckPermission (enforcer w) operatorKey "*"
                                 (mkPermission resource action) in
  match HasManagePermission globalCheckFunc ResourceUser with
  | Err err => (Some (Wrapf "检查操作者全局权限时出错: " err), w)
  | Ok hasGlobalPermission =>
      let tenantCheckFunc := fun resource action =>
        checkManager.CheckPermission (enforcer w) operatorKey tenantKey
                                     (mkPermission resource action) in
      match (if negb hasGlobalPermission
             then HasManagePermission tenantCheckFunc ResourceUser
             else Ok false) with
      | Err err => (Some (Wrapf "检查操作者租户权限时出错: " err), w)
      | Ok hasTenantPermission =>
          if negb hasGlobalPermission && negb hasTenantPermission
          then (Some (Errorf ("操作者 " ++ operatorKey ++ " 没有在租户 "
                              ++ tenantKey
                              ++ " 中的用户管理权限，无法清除用户权限")),
                w)
          else userOps.ClearUserPermissions w operatorKey userKey
      end
  end.

Definition validateCreated (sv : SecurityValidator)
    (operatorKey roleKey tenantKey : string) (permission : Permission)
    : option error :=
  match Validator.ValidatePermissionGrantWithDomain sv operatorKey roleKey
          tenantKey permission with
  | Some err =>
      Some (Wrapf ("角色权限验证失败 " ++ Resource_of permission ++ ":"
                   ++ Action_of permission ++ " - ") err)
  | None => None
  end.

Definition CreateRole (cfg : SecurityConfig) (w : World)
    (operatorKey roleKey roleName description tenantKey : string)
    (permissions : list Permission) : option error * World :=
  match firstError
          (validateCreated (casbinxClient.securityValidator cfg w)
                           operatorKey roleKey tenantKey)
          permissions with
  | Some err => (Some err, w)
  | None =>
      roleOps.CreateRole w operatorKey roleKey roleName description tenantKey
                         permissions
  end.

(** The loop of [InitializeTenant] over the permissions of the role. *)
Fixpoint scanRolePermissions (permissions : list Permission)
    (hasTenantPermissions hasSystemBasePermissions : bool) : bool * bool :=
  match permissions with
  | [] => (hasTenantPermissions, hasSystemBasePermissions)
  | perm :: rest =>
      let hasTenantPermissions1 :=
        if (Resource_of perm =? ResourceTenant)
           || (Resource_of perm =? ResourceTagTenant)
        then true else hasTenantPermissions in
      let hasSystemBasePermissions1 :=
        if (Resource_of perm =? ResourceSystem)
           || (Resource_of perm =? ResourceUser)
           || (Resource_of perm =? ResourcePermission)
           || (Resource_of perm =? ResourceRole)
           || (Resource_of perm =? ResourceTagUser)
        then true else hasSystemBasePermissions in
      scanRolePermissions rest hasTenantPermissions1
                          hasSystemBasePermissions1
  end.

Definition InitializeTenant (w : World)
    (tenantKey adminUserKey adminRoleKey : string) : option error * World :=
  if (tenantKey =? "") || (adminUserKey =? "") || (adminRoleKey =? "")
  then (Some ErrInvalidParameter, w)
  else
    match roleManager.GetRole w adminRoleKey with
    | Err _ =>
        (Some (Errorf ("指定的管理员角色 '" ++ adminRoleKey ++ "' 不存在")),
         w)
    | Ok role =>
        let '(hasTenantPermissions, hasSystemBasePermissions) :=
          scanRolePermissions (Permissions role) false false in
        if hasTenantPermissions
        then (Some (Errorf ("角色 '" ++ adminRoleKey ++
                            "' 包含租户管理权限，租户内管理员不允许跨租户操作")),
              w)
        else if negb hasSystemBasePermissions
        then (Some (Errorf ("角色 '" ++ adminRoleKey ++
                            "' 缺少系统级权限，无法作为租户管理员角色")),
              w)
        else userManager.AssignRole w "system" adminUserKey adminRoleKey
                                    tenantKey
    end.

End engineOps.

(* ================================================================== *)
(** * Vocabulary of the further statements *)


(** The subject is a row of the role table. *)
Definition inRoleTable (w : World) (key : string) : Prop :=
  exists md, In md (roles w) /\ md_RoleKey md = key.

(** The subject is the role of some grouping rule. *)
Definition usedAsRole (e : casbin.Enforcer) (key : string) : Prop :=
  exists g, In g (casbin.grouping e) /\ (3 <= length g)%nat
            /\ idx g 1 = key.

(** An operator [root] that manages users in the global domain, a role
    [tenant_admin] that carries the user-write and role-write
    permissions, and a user [erin] with permissions in two tenants. *)
Definition world_admin : World :=
  {| enforcer :=
       {| casbin.policy :=
            [ ["root"; "*"; "user"; "read"];
              ["root"; "*"; "user"; "write"];
              ["root"; "*"; "user"; "delete"];
              ["tenant_admin"; "*"; "user"; "write"];
              ["tenant_admin"; "*"; "role"; "write"];
              ["erin"; "t1"; "document"; "read"];
              ["erin"; "t2"; "document"; "write"] ];
          casbin.grouping := [] |};
     roles := [ mkRoleMetadata "tenant_admin" "Tenant administrator" None
                               "*" ] |}.

(** The two tests of the loop of [InitializeTenant]: a permission on a
    tenant-management resource, and a permission on a base resource. *)
Definition isTenantResource (p : Permission) : bool :=
  (Resource_of p =? ResourceTenant) || (Resource_of p =? ResourceTagTenant).

Definition isBaseResource (p : Permission) : bool :=
  (Resource_of p =? ResourceSystem) || (Resource_of p =? ResourceUser)
  || (Resource_of p =? ResourcePermission) || (Resource_of p =? ResourceRole)
  || (Resource_of p =? ResourceTagUser).


(** The map of [MergePermissions] after the permissions of [l]: its keys
    are distinct, every entry is a permission of [l] under its own key,
    and every permission of [l] has its key in the map. *)
Definition mergeInvariant (l : list Permission)
    (m : list (string * Permission)) : Prop :=
  NoDup (map fst m)
  /\ (forall k v, In (k, v) m -> k = PermissionOps.String v /\ In v l)
  /\ (forall p, In p l -> In (PermissionOps.String p) (map fst m)).


Lemma isSystemPermission_loop_In (sys : list Permission) (p : Permission) :
  Validator.isSystemPermission_loop sys p = true <-> In p sys.
Proof.
  induction sys as [|q sys IH]; simpl.
  - split; [discriminate | tauto].
  - destruct ((Resource_of p =? Resource_of q) && (Action_of p =? Action_of q))
      eqn:E.
    + apply andb_true_iff in E. destruct E as [Er Ea].
      apply String.eqb_eq in Er. apply String.eqb_eq in Ea.
      split; [intros _ | reflexivity].
      left. destruct p, q; simpl in *; congruence.
    + rewrite IH. split; [tauto |].
      intros [-> | H]; [| exact H].
      rewrite !String.eqb_refl in E. discriminate.
Qed.

Lemma isSystemPermission_In (sv : SecurityValidator) (p : Permission) :
  Validator.isSystemPermission sv p = true
  <-> In p (SystemPermissions (config sv)).
Proof. apply isSystemPermission_loop_In. Qed.

Lemma isManagementPermission_system sv p :
  Validator.isSystemPermission sv p = true ->
  Validator.isManagementPermission sv p = true.
Proof.
  intros H. unfold Validator.isManagementPermission. rewrite H.
  repeat match goal with |- context [if ?b then _ else _] => destruct b end;
    reflexivity.
Qed.

Lemma isManagementPermission_manage sv p :
  In (Resource_of p) [ResourcePermission; ResourceUser; ResourceRole] ->
  In (Action_of p) [ActionWrite; ActionDelete] ->
  Validator.isManagementPermission sv p = true.
Proof.
  intros Hr Ha. unfold Validator.isManagementPermission.
  assert (Hact : (Action_of p =? ActionWrite) || (Action_of p =? ActionDelete)
                 = true).
  { simpl in Ha. destruct Ha as [<- | [<- | []]]; reflexivity. }
  rewrite Hact, !andb_true_r.
  simpl in Hr. destruct Hr as [<- | [<- | [<- | []]]]; reflexivity.
Qed.

Lemma PreventSelfElevation_check_self sv op p :
  PreventSelfElevation (config sv) = true ->
  Validator.isManagementPermission sv p = true ->
  Validator.PreventSelfElevation_check sv op op p
  = Some ErrSelfElevationPrevented.
Proof.
  intros Hc Hm. unfold Validator.PreventSelfElevation_check.
  rewrite Hc, Hm. simpl. unfold neqb. rewrite String.eqb_refl. reflexivity.
Qed.

Lemma PreventSelfElevation_check_other sv op tgt p :
  PreventSelfElevation (config sv) && (op =? tgt) = false ->
  Validator.PreventSelfElevation_check sv op tgt p = None.
Proof.
  intros H. unfold Validator.PreventSelfElevation_check, neqb.
  destruct (PreventSelfElevation (config sv)); simpl in *; [| reflexivity].
  rewrite H. reflexivity.
Qed.

Lemma validateOperatorPermission_not_Error sv op d p code msg :
  Validator.validateOperatorPermission sv op d p <> Some (Error code msg).
Proof.
  unfold Validator.validateOperatorPermission.
  destruct (permissionChecker sv) as [checker|]; [| discriminate].
  destruct (Validator.GetPermissionType sv p);
    destruct (CheckPermission checker op d _) as [[|]|]; simpl; discriminate.
Qed.

(** C1 (amended).  For every permission of the configured
    [SystemPermissions], every operator, target and tenant,
    [ValidatePermissionGrant] and [ValidatePermissionRevoke] return an
    error.  The error is [ErrSelfElevationPrevented] when
    [PreventSelfElevation] is enabled and the operator is the target (the
    self-elevation check runs first), and [ErrSystemPermissionImmutable]
    in every other case. *)
Theorem C1_system_permission_always_denied :
  forall (sv : SecurityValidator) (operatorKey targetUserKey tenantKey : string)
         (permission : Permission),
    In permission (SystemPermissions (config sv)) ->
    let denial :=
      if PreventSelfElevation (config sv) && (operatorKey =? targetUserKey)
      then ErrSelfElevationPrevented
      else ErrSystemPermissionImmutable in
    Validator.ValidatePermissionGrant sv operatorKey targetUserKey tenantKey
                                      permission = Some denial
    /\ Validator.ValidatePermissionRevoke sv operatorKey targetUserKey
                                          tenantKey permission = Some denial.
Proof.
  intros sv op tgt t p Hin denial. subst denial.
  apply isSystemPermission_In in Hin.
  unfold Validator.ValidatePermissionGrant, Validator.ValidatePermissionRevoke.
  destruct (PreventSelfElevation (config sv) && (op =? tgt)) eqn:E.
  - apply andb_true_iff in E. destruct E as [Hc Heq].
    apply String.eqb_eq in Heq. subst tgt.
    rewrite (PreventSelfElevation_check_self sv op p Hc
               (isManagementPermission_system sv p Hin)).
    split; reflexivity.
  - rewrite (PreventSelfElevation_check_other sv op tgt p E), Hin.
    split; reflexivity.
Qed.

(** C1, at an operator that is not the target. *)
Lemma C1_system_permission_always_denied_witness :
  In (mkPermission ResourceTenant ActionDelete)
     (SystemPermissions (config (NewSecurityValidator DefaultSecurityConfig)))
  /\ Validator.ValidatePermissionGrant
       (NewSecurityValidator DefaultSecurityConfig) "root" "bob" "t1"
       (mkPermission ResourceTenant ActionDelete)
     = Some ErrSystemPermissionImmutable
  /\ Validator.ValidatePermissionRevoke
       (NewSecurityValidator DefaultSecurityConfig) "root" "bob" "t1"
       (mkPermission ResourceTenant ActionDelete)
     = Some ErrSystemPermissionImmutable.
Proof.
  assert (H : In (mkPermission ResourceTenant ActionDelete)
                 (SystemPermissions
                    (config (NewSecurityValidator DefaultSecurityConfig)))).
  { simpl. right. left. reflexivity. }
  split; [exact H |].
  exact (C1_system_permission_always_denied
           (NewSecurityValidator DefaultSecurityConfig) "root" "bob" "t1"
           (mkPermission ResourceTenant ActionDelete) H).
Defined.

(** C1 as stated fails: under the default configuration an operator
    that grants or revokes a system permission on itself is answered
    with [ErrSelfElevationPrevented], not [ErrSystemPermissionImmutable]. *)
Lemma C1_counterexample :
  In (mkPermission ResourceTenant ActionDelete)
     (SystemPermissions (config (NewSecurityValidator DefaultSecurityConfig)))
  /\ Validator.ValidatePermissionGrant
       (NewSecurityValidator DefaultSecurityConfig) "alice" "alice" "t1"
       (mkPermission ResourceTenant ActionDelete)
     = Some ErrSelfElevationPrevented
  /\ Validator.ValidatePermissionGrant
       (NewSecurityValidator DefaultSecurityConfig) "alice" "alice" "t1"
       (mkPermission ResourceTenant ActionDelete)
     <> Some ErrSystemPermissionImmutable
  /\ Validator.ValidatePermissionRevoke
       (NewSecurityValidator DefaultSecurityConfig) "alice" "alice" "t1"
       (mkPermission ResourceTenant ActionDelete)
     <> Some ErrSystemPermissionImmutable.
Proof.
  split; [simpl; right; left; reflexivity |].
  split; [reflexivity |].
  split; vm_compute; discriminate.
Qed.

(** C2.  Let the operator be the target and let the permission be a
    system permission or have its resource in {permission, user, role}
    and its action in {write, delete}.  With [PreventSelfElevation]
    enabled, grant and revoke fail with [ErrSelfElevationPrevented].  With
    it disabled, the self-elevation check passes, the answer is the one
    of the remaining rules (immutability, then operator authorization),
    and it is never [ErrSelfElevationPrevented]. *)
Theorem C2_self_elevation_prevented :
  forall (sv : SecurityValidator) (operatorKey tenantKey : string)
         (permission : Permission),
    In permission (SystemPermissions (config sv))
    \/ (In (Resource_of permission)
           [ResourcePermission; ResourceUser; ResourceRole]
        /\ In (Action_of permission) [ActionWrite; ActionDelete]) ->
    (PreventSelfElevation (config sv) = true ->
     Validator.ValidatePermissionGrant sv operatorKey operatorKey tenantKey
                                       permission
     = Some ErrSelfElevationPrevented
     /\ Validator.ValidatePermissionRevoke sv operatorKey operatorKey
                                           tenantKey permission
        = Some ErrSelfElevationPrevented)
    /\
    (PreventSelfElevation (config sv) = false ->
     let others :=
       if Validator.isSystemPermission sv permission
       then Some ErrSystemPermissionImmutable
       else Validator.validateOperatorPermission sv operatorKey tenantKey
                                                 permission in
     Validator.PreventSelfElevation_check sv operatorKey operatorKey
                                          permission = None
     /\ Validator.ValidatePermissionGrant sv operatorKey operatorKey
                                          tenantKey permission = others
     /\ Validator.ValidatePermissionRevoke sv operatorKey operatorKey
                                           tenantKey permission = others
     /\ others <> Some ErrSelfElevationPrevented).
Proof.
  intros sv op t p Hp. split.
  - intros Hc.
    assert (Hm : Validator.isManagementPermission sv p = true).
    { destruct Hp as [Hs | [Hr Ha]].
      - apply isManagementPermission_system, isSystemPermission_In, Hs.
      - apply isManagementPermission_manage; assumption. }
    unfold Validator.ValidatePermissionGrant,
      Validator.ValidatePermissionRevoke.
    rewrite (PreventSelfElevation_check_self sv op p Hc Hm).
    split; reflexivity.
  - intros Hc others.
    assert (Hn : Validator.PreventSelfElevation_check sv op op p = None).
    { apply PreventSelfElevation_check_other. rewrite Hc. reflexivity. }
    unfold Validator.ValidatePermissionGrant,
      Validator.ValidatePermissionRevoke.
    rewrite Hn. subst others.
    destruct (Validator.isSystemPermission sv p).
    + repeat split; discriminate.
    + destruct (Validator.validateOperatorPermission sv op t p) eqn:E;
        repeat split; try discriminate.
      intros H. rewrite H in E.
      exact (validateOperatorPermission_not_Error _ _ _ _ _ _ E).
Qed.

(** C7 (amended).  The default security configuration enables
    [PreventSelfElevation]; its [SystemPermissions] are ten distinct
    permissions: read, write and delete on tenant and on system, write
    and delete on user and on permission.  No permission on the role
    resource is among them. *)
Theorem C7_default_security_config :
  PreventSelfElevation DefaultSecurityConfig = true
  /\ length (SystemPermissions DefaultSecurityConfig) = 10%nat
  /\ NoDup (SystemPermissions DefaultSecurityConfig)
  /\ forall p : Permission,
       In p (SystemPermissions DefaultSecurityConfig)
       <-> (In (Resource_of p) [ResourceTenant; ResourceSystem]
            /\ In (Action_of p) [ActionRead; ActionWrite; ActionDelete])
           \/ (In (Resource_of p) [ResourceUser; ResourcePermission]
               /\ In (Action_of p) [ActionWrite; ActionDelete]).
Proof.
  split; [reflexivity |]. split; [reflexivity |]. split.
  - unfold DefaultSecurityConfig; simpl.
    repeat (constructor; [simpl; intuition discriminate |]).
    constructor.
  - intros [r a]. unfold DefaultSecurityConfig. simpl. split.
    + intros H.
      repeat (destruct H as [H | H];
              [injection H as <- <-; intuition auto |]).
      contradiction.
    + intros [[Hr Ha] | [Hr Ha]];
        repeat (destruct Hr as [<- | Hr]; [| try contradiction]);
        repeat (destruct Ha as [<- | Ha]; [| try contradiction]);
        intuition auto.
Qed.

(** C7 as stated fails: write and delete on the role resource are not
    in the default [SystemPermissions]. *)
Lemma C7_counterexample :
  ~ In (mkPermission ResourceRole ActionWrite)
       (SystemPermissions DefaultSecurityConfig)
  /\ ~ In (mkPermission ResourceRole ActionDelete)
          (SystemPermissions DefaultSecurityConfig).
Proof.
  split; simpl; intuition discriminate.
Qed.

(** C10.  For the role key "admin", a tenant key that is neither empty
    nor "*", and a user key of length 6, 7 or 8 that neither starts with
    "admin" nor ends with "-admin", the slice
    [userKey[len(userKey)-9:len(userKey)-4]] has a negative start and
    [isTenantInitializationScenario] panics instead of returning a
    boolean. *)
Theorem C10_isTenantInitializationScenario_panics :
  forall userKey tenantKey : string,
    tenantKey <> "" ->
    tenantKey <> "*" ->
    (String.length userKey = 6 \/ String.length userKey = 7
     \/ String.length userKey = 8)%nat ->
    substring 0 5 userKey <> "admin" ->
    substring (String.length userKey - 6) 6 userKey <> "-admin" ->
    casbinxClient.slice userKey (Z.of_nat (String.length userKey) - 9)
                        (Z.of_nat (String.length userKey) - 4) = None
    /\ casbinxClient.isTenantInitializationScenario userKey "admin" tenantKey
       = None.
Proof.
  intros userKey tenantKey Ht1 Ht2 Hlen Hpre Hsuf.
  apply String.eqb_neq in Ht1. apply String.eqb_neq in Ht2.
  apply String.eqb_neq in Hpre. apply String.eqb_neq in Hsuf.
  unfold casbinxClient.isTenantInitializationScenario, casbinxClient.slice.
  rewrite Ht1, Ht2.
  destruct Hlen as [H | [H | H]]; rewrite H in *; simpl in *;
    unfold Pos.to_nat; simpl; rewrite Hpre, Hsuf; split; reflexivity.
Qed.

(** C10 at user keys of length 6, 7 and 8. *)
Lemma C10_isTenantInitializationScenario_panics_witness :
  casbinxClient.isTenantInitializationScenario "user-1" "admin" "tenant1"
  = None
  /\ casbinxClient.isTenantInitializationScenario "bob-007" "admin" "tenant1"
     = None
  /\ casbinxClient.isTenantInitializationScenario "operator" "admin" "t"
     = None.
Proof.
  split; [| split].
  - apply (C10_isTenantInitializationScenario_panics "user-1" "tenant1");
      simpl; try discriminate; auto.
  - apply (C10_isTenantInitializationScenario_panics "bob-007" "tenant1");
      simpl; try discriminate; auto.
  - apply (C10_isTenantInitializationScenario_panics "operator" "t");
      simpl; try discriminate; auto.
Defined.

Lemma ParseAction_spec (s : string) :
  ParseAction s =
  if validActionb s then Ok s
  else Err (Errorf ("invalid action: " ++ s ++
                    ", only 'read', 'write', 'delete', '_none' are supported")).
Proof.
  unfold ParseAction, validActionb.
  destruct (s =? "read") eqn:E1;
    [apply String.eqb_eq in E1; subst; reflexivity |].
  destruct (s =? "write") eqn:E2;
    [apply String.eqb_eq in E2; subst; reflexivity |].
  destruct (s =? "delete") eqn:E3;
    [apply String.eqb_eq in E3; subst; reflexivity |].
  destruct (s =? "_none") eqn:E4;
    [apply String.eqb_eq in E4; subst; reflexivity |].
  reflexivity.
Qed.


Lemma neqb_true_iff (a b : string) : neqb a b = true <-> a <> b.
Proof.
  unfold neqb. rewrite negb_true_iff. apply String.eqb_neq.
Qed.

Lemma neqb_false_iff (a b : string) : neqb a b = false <-> a = b.
Proof.
  unfold neqb. rewrite negb_false_iff. apply String.eqb_eq.
Qed.

Section Rows.

Lemma toPermissions_cons (row : list string) (rows : list (list string)) :
  Enforcer.toPermissions (row :: rows) =
  if isTuple row then
    action <- ParseAction (idx row 3) ;;
    permissions <- Enforcer.toPermissions rows ;;
    Ok (mkPermission (idx row 2) action :: permissions)
  else Enforcer.toPermissions rows.
Proof. reflexivity. Qed.

Lemma rowsPermissions_cons (row : list string) (rows : list (list string)) :
  rowsPermissions (row :: rows) =
  if isTuple row then rowPermission row :: rowsPermissions rows
  else rowsPermissions rows.
Proof.
  unfold rowsPermissions. cbn [filter]. destruct (isTuple row); reflexivity.
Qed.

Lemma tupleParses_cons_inv (row : list string) (rows : list (list string)) :
  Forall tupleParses (row :: rows)
  <-> tupleParses row /\ Forall tupleParses rows.
Proof.
  split.
  - intros H. inversion H; subst. split; assumption.
  - intros [H1 H2]. constructor; assumption.
Qed.

Lemma toPermissions_Ok (rows : list (list string)) (perms : list Permission) :
  Enforcer.toPermissions rows = Ok perms
  <-> Forall tupleParses rows /\ perms = rowsPermissions rows.
Proof.
  revert perms. induction rows as [|row rows IH]; intros perms.
  - cbn. split.
    + intros H. injection H as <-. split; [constructor | reflexivity].
    + intros [_ ->]. reflexivity.
  - rewrite toPermissions_cons, rowsPermissions_cons, tupleParses_cons_inv.
    unfold tupleParses at 1.
    destruct (isTuple row) eqn:Et.
    + rewrite ParseAction_spec.
      destruct (validActionb (idx row 3)) eqn:Ev; cbn [bind].
      * destruct (Enforcer.toPermissions rows) as [ps|err] eqn:Er;
          cbn [bind].
        -- destruct (IH ps) as [IH1 _]. destruct (IH1 eq_refl) as [Hf ->].
           split.
           ++ intros H. injection H as <-. auto.
           ++ intros [_ ->]. reflexivity.
        -- split; [discriminate |].
           intros [[_ Hf] _].
           destruct (IH (rowsPermissions rows)) as [_ IH2].
           discriminate IH2. split; [exact Hf | reflexivity].
      * split; [discriminate |].
        intros [[Hrow _] _]. discriminate (Hrow eq_refl).
    + rewrite IH. split.
      * intros [Hf ->]. repeat split; [discriminate | exact Hf].
      * intros [[_ Hf] ->]. split; [exact Hf | reflexivity].
Qed.

Lemma GetDirectPermissions_loop_cons (row : list string)
    (rows : list (list string)) (u d : string) :
  Enforcer.GetDirectPermissions_loop (row :: rows) u d =
  if isDirectRow u d row then
    action <- ParseAction (idx row 3) ;;
    permissions <- Enforcer.GetDirectPermissions_loop rows u d ;;
    Ok (mkPermission (idx row 2) action :: permissions)
  else Enforcer.GetDirectPermissions_loop rows u d.
Proof.
  unfold isDirectRow, isTuple. cbn [Enforcer.GetDirectPermissions_loop].
  destruct (4 <=? length row)%nat; [| reflexivity].
  rewrite andb_true_l. reflexivity.
Qed.

Lemma isDirectRow_isTuple (u d : string) (row : list string) :
  isDirectRow u d row = true -> isTuple row = true.
Proof.
  unfold isDirectRow. intros H.
  apply andb_true_iff in H. destruct H as [H _].
  apply andb_true_iff in H. tauto.
Qed.

Lemma GetDirectPermissions_loop_Ok (rows : list (list string))
    (u d : string) (perms : list Permission) :
  Enforcer.GetDirectPermissions_loop rows u d = Ok perms
  <-> Forall tupleParses (filter (isDirectRow u d) rows)
      /\ perms = map rowPermission (filter (isDirectRow u d) rows).
Proof.
  revert perms. induction rows as [|row rows IH]; intros perms.
  - cbn. split.
    + intros H. injection H as <-. split; [constructor | reflexivity].
    + intros [_ ->]. reflexivity.
  - rewrite GetDirectPermissions_loop_cons. cbn [filter].
    destruct (isDirectRow u d row) eqn:Em; [| apply IH].
    rewrite tupleParses_cons_inv. unfold tupleParses at 1.
    rewrite (isDirectRow_isTuple _ _ _ Em). cbn [map].
    rewrite ParseAction_spec.
    destruct (validActionb (idx row 3)) eqn:Ev; cbn [bind].
    + destruct (Enforcer.GetDirectPermissions_loop rows u d)
        as [ps|err] eqn:Er; cbn [bind].
      * destruct (IH ps) as [IH1 _]. destruct (IH1 eq_refl) as [Hf ->].
        split.
        -- intros H. injection H as <-. auto.
        -- intros [_ ->]. reflexivity.
      * split; [discriminate |].
        intros [[_ Hf] _].
        destruct (IH (map rowPermission (filter (isDirectRow u d) rows)))
          as [_ IH2].
        discriminate IH2. split; [exact Hf | reflexivity].
    + split; [discriminate |].
      intros [[Hrow _] _]. discriminate (Hrow eq_refl).
Qed.

End Rows.

Section Resolver.

Lemma rowsPermissions_app (a b : list (list string)) :
  rowsPermissions (a ++ b) = rowsPermissions a ++ rowsPermissions b.
Proof.
  unfold rowsPermissions. rewrite filter_app, map_app. reflexivity.
Qed.

Lemma In_rowsPermissions (p : Permission) (rows : list (list string)) :
  In p (rowsPermissions rows)
  <-> exists row, In row rows /\ isTuple row = true /\ p = rowPermission row.
Proof.
  unfold rowsPermissions. rewrite in_map_iff. split.
  - intros [row [Hp Hin]]. apply filter_In in Hin.
    exists row. intuition auto.
  - intros [row [Hin [Ht Hp]]]. exists row. split; [auto |].
    apply filter_In. auto.
Qed.

Lemma In_rowsPermissions_flat_map {A : Type} (p : Permission)
    (f : A -> list (list string)) (l : list A) :
  In p (rowsPermissions (flat_map f l))
  <-> exists x, In x l /\ In p (rowsPermissions (f x)).
Proof.
  rewrite In_rowsPermissions. split.
  - intros [row [Hin [Ht Hp]]]. apply in_flat_map in Hin.
    destruct Hin as [x [Hx Hrow]]. exists x. split; [exact Hx |].
    apply In_rowsPermissions. exists row. auto.
  - intros [x [Hx Hp]]. apply In_rowsPermissions in Hp.
    destruct Hp as [row [Hrow [Ht Hp]]]. exists row.
    split; [| auto]. apply in_flat_map. exists x. auto.
Qed.

Lemma existsb_eqb_In (r : string) (seen : list string) :
  existsb (String.eqb r) seen = true <-> In r seen.
Proof.
  rewrite existsb_exists. split.
  - intros [x [Hx He]]. apply String.eqb_eq in He. subst. exact Hx.
  - intros H. exists r. split; [exact H | apply String.eqb_refl].
Qed.

Lemma uniqueRoles_loop_In (r : string) (allRoles roleMap : list string) :
  In r (Enforcer.uniqueRoles_loop allRoles roleMap)
  <-> In r allRoles /\ ~ In r roleMap.
Proof.
  revert roleMap. induction allRoles as [|role rest IH]; intros roleMap.
  - simpl. tauto.
  - cbn [Enforcer.uniqueRoles_loop].
    destruct (existsb (String.eqb role) roleMap) eqn:E; cbn [negb].
    + apply existsb_eqb_In in E. rewrite IH. simpl. split.
      * tauto.
      * intros [[-> | H] Hn]; [contradiction | tauto].
    + assert (Hn : ~ In role roleMap).
      { intros H. apply existsb_eqb_In in H. congruence. }
      simpl. rewrite IH. simpl.
      destruct (string_dec role r) as [-> | Hne]; [tauto |].
      split.
      * intros [H | [H1 H2]]; [contradiction | tauto].
      * intros [[H | H] H2]; [contradiction |]. right. tauto.
Qed.

Lemma consultedRole_allRoles (e : casbin.Enforcer) (u d r : string) :
  In r (casbin.GetRolesForUserInDomain e u d ++
        (if neqb d "*" then casbin.GetRolesForUserInDomain e u "*" else []))
  <-> consultedRole e u d r.
Proof.
  unfold consultedRole, RolesOf. rewrite in_app_iff.
  destruct (neqb d "*") eqn:E.
  - apply neqb_true_iff in E. tauto.
  - simpl. split; [tauto |]. intros [H | [Hn _]]; [tauto |].
    apply neqb_true_iff in Hn. congruence.
Qed.

Lemma GetPermissionsForUser_incl (e : casbin.Enforcer) (u d : string) :
  incl (casbin.GetPermissionsForUser e u d) (casbin.policy e).
Proof.
  intros row H. apply filter_In in H. tauto.
Qed.

Lemma implicitPolicies_incl (e : casbin.Enforcer) (u d : string) :
  incl (Enforcer.implicitPolicies e u d) (casbin.policy e).
Proof.
  unfold Enforcer.implicitPolicies. intros row H.
  apply in_app_iff in H. destruct H as [H | H].
  - exact (GetPermissionsForUser_incl _ _ _ _ H).
  - apply in_flat_map in H. destruct H as [role [_ H]].
    apply in_flat_map in H. destruct H as [dom [_ H]].
    exact (GetPermissionsForUser_incl _ _ _ _ H).
Qed.

Lemma Forall_incl {A : Type} (P : A -> Prop) (l l' : list A) :
  incl l l' -> Forall P l' -> Forall P l.
Proof.
  intros Hi Hf. apply Forall_forall. intros x Hx.
  rewrite Forall_forall in Hf. auto.
Qed.

(** Membership in the rows gathered by [GetImplicitPermissions]. *)
Lemma In_implicitPolicies (e : casbin.Enforcer) (u d : string)
    (p : Permission) :
  In p (rowsPermissions (Enforcer.implicitPolicies e u d))
  <-> In p (PermissionsOf e u d)
      \/ exists r, consultedRole e u d r
                   /\ (In p (PermissionsOf e r d)
                       \/ In p (PermissionsOf e r "*")).
Proof.
  unfold Enforcer.implicitPolicies.
  rewrite rowsPermissions_app, in_app_iff, In_rowsPermissions_flat_map.
  fold (PermissionsOf e u d).
  apply or_iff_compat_l. split.
  - intros [r [Hr Hp]]. apply uniqueRoles_loop_In in Hr.
    destruct Hr as [Hr _]. apply consultedRole_allRoles in Hr.
    exists r. split; [exact Hr |].
    apply In_rowsPermissions_flat_map in Hp.
    destruct Hp as [dom [Hdom Hp]]. fold (PermissionsOf e r dom) in Hp.
    simpl in Hdom. destruct Hdom as [<- | Hdom]; [tauto |].
    destruct (neqb d "*"); simpl in Hdom; [| contradiction].
    destruct Hdom as [<- | []]. tauto.
  - intros [r [Hr Hp]]. exists r. split.
    + apply uniqueRoles_loop_In. split; [| tauto].
      apply consultedRole_allRoles. exact Hr.
    + apply In_rowsPermissions_flat_map.
      destruct (neqb d "*") eqn:E.
      * destruct Hp as [Hp | Hp].
        -- exists d. split; [simpl; tauto | exact Hp].
        -- exists "*". split; [simpl; tauto | exact Hp].
      * apply neqb_false_iff in E. subst d.
        exists "*". split; [simpl; tauto | tauto].
Qed.

Lemma directRows_permissions (e : casbin.Enforcer) (u d : string) :
  incl (map rowPermission (directRows e u d)) (PermissionsOf e u d).
Proof.
  intros p H. apply in_map_iff in H. destruct H as [row [Hp Hin]].
  apply filter_In in Hin. destruct Hin as [Hin Hm].
  unfold isDirectRow in Hm. apply andb_true_iff in Hm.
  destruct Hm as [Hm Hd]. apply andb_true_iff in Hm.
  destruct Hm as [Ht Hu].
  apply In_rowsPermissions. exists row. split; [| auto].
  apply filter_In. split; [exact Hin |].
  unfold casbin.fieldMatch. rewrite Hu, Hd, !orb_true_r. reflexivity.
Qed.

Lemma permissions_directRows (e : casbin.Enforcer) (u d : string) :
  u <> "" -> d <> "" ->
  incl (PermissionsOf e u d) (map rowPermission (directRows e u d)).
Proof.
  intros Hu Hd p H. apply In_rowsPermissions in H.
  destruct H as [row [Hin [Ht Hp]]]. apply filter_In in Hin.
  destruct Hin as [Hin Hm]. apply in_map_iff. exists row.
  split; [auto |]. apply filter_In. split; [exact Hin |].
  unfold casbin.fieldMatch in Hm.
  apply String.eqb_neq in Hu. apply String.eqb_neq in Hd.
  rewrite Hu, Hd in Hm. simpl in Hm.
  apply andb_true_iff in Hm. destruct Hm as [Hm1 Hm2].
  unfold isDirectRow. rewrite Ht, Hm1, Hm2. reflexivity.
Qed.

Lemma directRows_implicit (e : casbin.Enforcer) (u d : string) :
  incl (directRows e u d) (Enforcer.implicitPolicies e u d).
Proof.
  intros row H. apply filter_In in H. destruct H as [Hin Hm].
  unfold isDirectRow in Hm. apply andb_true_iff in Hm.
  destruct Hm as [Hm Hd]. apply andb_true_iff in Hm.
  destruct Hm as [Ht Hu].
  unfold Enforcer.implicitPolicies. apply in_app_iff. left.
  apply filter_In. split; [exact Hin |].
  unfold casbin.fieldMatch. rewrite Hu, Hd, !orb_true_r. reflexivity.
Qed.

End Resolver.

(** C3.  [GetImplicitPermissions] succeeds when every stored tuple
    parses, and whenever it succeeds a permission is in its result
    exactly when it is a permission of the subject in the domain, or a
    permission, in the domain or in the global domain, of a role the
    subject holds in the domain or, when the domain is not the global
    one, in the global domain.  In particular the result contains the
    direct permissions of the subject (which, for a non-empty subject and
    domain, are exactly the permissions the store reports for it) and
    the permissions in the domain and in the global domain of every role
    held in either. *)
Theorem C3_effective_permissions_union :
  forall (e : casbin.Enforcer) (subject domain : string),
    (storeParses e ->
     exists perms, Enforcer.GetImplicitPermissions e subject domain = Ok perms)
    /\
    forall perms : list Permission,
      Enforcer.GetImplicitPermissions e subject domain = Ok perms ->
      (forall p : Permission,
         In p perms
         <-> In p (PermissionsOf e subject domain)
             \/ exists role,
                  consultedRole e subject domain role
                  /\ (In p (PermissionsOf e role domain)
                      \/ In p (PermissionsOf e role "*")))
      /\ (exists direct,
            Enforcer.GetDirectPermissions e subject domain = Ok direct
            /\ incl direct perms
            /\ (subject <> "" -> domain <> "" ->
                forall p, In p direct <-> In p (PermissionsOf e subject domain)))
      /\ (forall role,
            In role (RolesOf e subject domain)
            \/ In role (RolesOf e subject "*") ->
            incl (PermissionsOf e role domain) perms
            /\ incl (PermissionsOf e role "*") perms).
Proof.
  intros e u d. split.
  - intros Hs. exists (rowsPermissions (Enforcer.implicitPolicies e u d)).
    apply toPermissions_Ok. split; [| reflexivity].
    exact (Forall_incl _ _ _ (implicitPolicies_incl e u d) Hs).
  - intros perms H. apply toPermissions_Ok in H. destruct H as [Hf ->].
    split; [| split].
    + intros p. apply In_implicitPolicies.
    + exists (map rowPermission (directRows e u d)). split; [| split].
      * apply GetDirectPermissions_loop_Ok. split; [| reflexivity].
        exact (Forall_incl _ _ _ (directRows_implicit e u d) Hf).
      * intros p Hp. apply In_implicitPolicies. left.
        exact (directRows_permissions e u d p Hp).
      * intros Hu Hd p. split.
        -- apply directRows_permissions.
        -- apply permissions_directRows; assumption.
    + intros r Hr.
      assert (Hc : consultedRole e u d r).
      { unfold consultedRole. destruct Hr as [Hr | Hr]; [tauto |].
        destruct (string_dec d "*") as [-> | Hn]; tauto. }
      split; intros p Hp; apply In_implicitPolicies; right; exists r; tauto.
Qed.

(** C8 (amended).  [GetDirectPermissions] returns, in the order of the
    store, the resource and action of exactly the tuples whose subject
    and domain are the given ones; it succeeds exactly when the action
    of each of these tuples parses.  The placeholder permission is not
    excluded: when its tuple is stored for the subject in the domain it
    is part of the result. *)
Theorem C8_direct_permissions_exact :
  forall (e : casbin.Enforcer) (subject domain : string),
    (forall row,
       In row (directRows e subject domain)
       <-> In row (casbin.policy e)
           /\ (4 <= length row)%nat
           /\ idx row 0 = subject /\ idx row 1 = domain)
    /\ (forall perms,
          Enforcer.GetDirectPermissions e subject domain = Ok perms
          <-> Forall tupleParses (directRows e subject domain)
              /\ perms = map rowPermission (directRows e subject domain))
    /\ (forall perms,
          In [subject; domain; ResourcePlaceholder; ActionNone]
             (casbin.policy e) ->
          Enforcer.GetDirectPermissions e subject domain = Ok perms ->
          In PlaceholderPermission perms).
Proof.
  intros e u d.
  assert (Hrows : forall row,
             In row (directRows e u d)
             <-> In row (casbin.policy e)
                 /\ (4 <= length row)%nat /\ idx row 0 = u /\ idx row 1 = d).
  { intros row. unfold directRows, isDirectRow, isTuple, casbin.GetPolicy.
    rewrite filter_In, !andb_true_iff, Nat.leb_le, !String.eqb_eq. tauto. }
  split; [exact Hrows |]. split.
  - intros perms. apply GetDirectPermissions_loop_Ok.
  - intros perms Hin H. apply GetDirectPermissions_loop_Ok in H.
    destruct H as [_ ->]. apply in_map_iff.
    exists [u; d; ResourcePlaceholder; ActionNone]. split; [reflexivity |].
    apply Hrows. simpl. auto.
Qed.

Section Store.

Lemma row_eqb_eq (a b : list string) : casbin.row_eqb a b = true <-> a = b.
Proof.
  revert b. induction a as [|x a IH]; intros [|y b]; simpl;
    try (split; [discriminate | discriminate]); [tauto |].
  rewrite andb_true_iff, String.eqb_eq, IH. split.
  - intros [-> ->]. reflexivity.
  - intros H. injection H as -> ->. auto.
Qed.

Lemma In_addRule (rules : list (list string)) (rule row : list string) :
  In row (casbin.addRule rules rule) <-> In row rules \/ row = rule.
Proof.
  unfold casbin.addRule.
  destruct (existsb (casbin.row_eqb rule) rules) eqn:E.
  - split; [tauto |]. intros [H | ->]; [exact H |].
    apply existsb_exists in E. destruct E as [r [Hr He]].
    apply row_eqb_eq in He. subst. exact Hr.
  - rewrite in_app_iff. simpl. intuition auto.
Qed.

Lemma In_removeRule (rules : list (list string)) (rule row : list string) :
  In row (casbin.removeRule rules rule) <-> In row rules /\ row <> rule.
Proof.
  unfold casbin.removeRule. rewrite filter_In, negb_true_iff.
  split; intros [H1 H2]; split; auto.
  - intros ->. rewrite (proj2 (row_eqb_eq rule rule) eq_refl) in H2.
    discriminate.
  - destruct (casbin.row_eqb row rule) eqn:E; [| reflexivity].
    apply row_eqb_eq in E. contradiction.
Qed.

Lemma GetPolicies_loop_cons (row : list string) (rows : list (list string))
    (s d : string) :
  Enforcer.GetPolicies_loop (row :: rows) s d =
  if isTuple row then
    action <- ParseAction (idx row 3) ;;
    if matchesFilter s d row then
      policies <- Enforcer.GetPolicies_loop rows s d ;;
      Ok (mkPolicy PolicyTypePermission (idx row 0) (idx row 1)
                   (idx row 2) action :: policies)
    else Enforcer.GetPolicies_loop rows s d
  else Enforcer.GetPolicies_loop rows s d.
Proof.
  unfold matchesFilter, isTuple. cbn [Enforcer.GetPolicies_loop].
  destruct (4 <=? length row)%nat; reflexivity.
Qed.

Lemma GetPolicies_loop_Ok (rows : list (list string)) (s d : string)
    (policies : list Policy) :
  Enforcer.GetPolicies_loop rows s d = Ok policies
  <-> Forall tupleParses rows
      /\ policies = map rowPolicy (filter (matchesFilter s d) rows).
Proof.
  revert policies. induction rows as [|row rows IH]; intros policies.
  - cbn. split.
    + intros H. injection H as <-. split; [constructor | reflexivity].
    + intros [_ ->]. reflexivity.
  - rewrite GetPolicies_loop_cons, tupleParses_cons_inv. cbn [filter].
    unfold tupleParses at 1.
    destruct (isTuple row) eqn:Et.
    + rewrite ParseAction_spec.
      destruct (validActionb (idx row 3)) eqn:Ev; cbn [bind].
      * destruct (matchesFilter s d row) eqn:Em.
        -- destruct (Enforcer.GetPolicies_loop rows s d) as [ps|err] eqn:Er;
             cbn [bind map].
           ++ destruct (IH ps) as [IH1 _].
              destruct (IH1 eq_refl) as [Hf ->]. split.
              ** intros H. injection H as <-. auto.
              ** intros [_ ->]. reflexivity.
           ++ split; [discriminate |]. intros [[_ Hf] _].
              destruct (IH (map rowPolicy (filter (matchesFilter s d) rows)))
                as [_ IH2].
              discriminate IH2. split; [exact Hf | reflexivity].
        -- rewrite IH. split.
           ++ intros [Hf ->]. auto.
           ++ intros [[_ Hf] ->]. auto.
      * split; [discriminate |].
        intros [[Hrow _] _]. discriminate (Hrow eq_refl).
    + assert (Hm : matchesFilter s d row = false).
      { unfold matchesFilter. rewrite Et. reflexivity. }
      rewrite Hm, IH. split.
      * intros [Hf ->]. repeat split; [discriminate | exact Hf].
      * intros [[_ Hf] ->]. auto.
Qed.

(** An error of [GetPolicies] is the error of [ParseAction]. *)
Lemma GetPolicies_loop_Err (rows : list (list string)) (s d : string)
    (err : error) :
  Enforcer.GetPolicies_loop rows s d = Err err -> exists msg, err = Errorf msg.
Proof.
  induction rows as [|row rows IH]; [discriminate |].
  rewrite GetPolicies_loop_cons.
  destruct (isTuple row); [| exact IH].
  rewrite ParseAction_spec.
  destruct (validActionb (idx row 3)); cbn [bind].
  - destruct (matchesFilter s d row); [| exact IH].
    destruct (Enforcer.GetPolicies_loop rows s d); cbn [bind];
      [discriminate |].
    intros H. injection H as <-. apply IH. reflexivity.
  - intros H. injection H as <-. eexists. reflexivity.
Qed.

Lemma removeAll_policy (policies : list Policy) (e : casbin.Enforcer)
    (row : list string) :
  In row (casbin.policy (removeAll policies e))
  <-> In row (casbin.policy e)
      /\ ~ exists p, In p policies /\ row = policyRule p.
Proof.
  revert e. induction policies as [|q policies IH]; intros e.
  - simpl. split; [intros H; split; [exact H | intros [p [[] _]]] | tauto].
  - unfold removeAll in *. cbn [fold_left]. rewrite IH.
    unfold casbin.RemovePolicy at 1. cbn [casbin.policy].
    rewrite In_removeRule. fold (policyRule q). split.
    + intros [[H1 H2] H3]. split; [exact H1 |].
      intros [p [[<- | Hp] Hr]]; [contradiction |].
      apply H3. exists p. auto.
    + intros [H1 H2]. split; [split; [exact H1 |] |].
      * intros Hr. apply H2. exists q. simpl. auto.
      * intros [p [Hp Hr]]. apply H2. exists p. simpl. auto.
Qed.

Lemma removeAll_grouping (policies : list Policy) (e : casbin.Enforcer) :
  casbin.grouping (removeAll policies e) = casbin.grouping e.
Proof.
  revert e. induction policies as [|q policies IH]; intros e;
    [reflexivity |].
  unfold removeAll in *. cbn [fold_left]. rewrite IH. reflexivity.
Qed.

Lemma row_of_arity4 (row : list string) :
  length row = 4%nat -> policyRule (rowPolicy row) = row.
Proof.
  destruct row as [|a [|b [|c [|d [|x row]]]]]; try discriminate.
  reflexivity.
Qed.

Lemma ClearPolicies_Ok (e e1 : casbin.Enforcer) (subject : string) :
  Enforcer.ClearPolicies e subject = (None, e1) ->
  Forall tupleParses (casbin.policy e)
  /\ e1 = removeAll (map rowPolicy
                         (filter (matchesFilter subject "")
                                 (casbin.policy e))) e.
Proof.
  unfold Enforcer.ClearPolicies, Enforcer.GetPolicies, casbin.GetPolicy.
  destruct (Enforcer.GetPolicies_loop (casbin.policy e) subject "")
    as [ps|err] eqn:E; [| discriminate].
  apply GetPolicies_loop_Ok in E. destruct E as [Hf ->].
  intros H. injection H as <-. auto.
Qed.

Lemma ClearPolicies_succeeds (e : casbin.Enforcer) (subject : string) :
  storeParses e -> exists e1, Enforcer.ClearPolicies e subject = (None, e1).
Proof.
  intros Hs. unfold Enforcer.ClearPolicies, Enforcer.GetPolicies.
  rewrite (proj2 (GetPolicies_loop_Ok (casbin.GetPolicy e) subject "" _)
                 (conj Hs eq_refl)).
  eexists. reflexivity.
Qed.

(** After [ClearPolicies], on a store of four-field rules, exactly the
    rules of other subjects remain. *)
Lemma ClearPolicies_policy (e e1 : casbin.Enforcer) (subject : string)
    (row : list string) :
  storeArity e -> subject <> "" ->
  Enforcer.ClearPolicies e subject = (None, e1) ->
  (In row (casbin.policy e1)
   <-> In row (casbin.policy e) /\ idx row 0 <> subject)
  /\ casbin.grouping e1 = casbin.grouping e.
Proof.
  intros Ha Hs H. apply ClearPolicies_Ok in H. destruct H as [_ ->].
  split; [| apply removeAll_grouping].
  rewrite removeAll_policy. unfold storeArity in Ha.
  rewrite Forall_forall in Ha.
  assert (Hmatch : forall r, In r (casbin.policy e) ->
            (matchesFilter subject "" r = true <-> idx r 0 = subject)).
  { intros r Hr. unfold matchesFilter, isTuple. rewrite (Ha r Hr).
    apply String.eqb_neq in Hs. rewrite Hs. simpl.
    rewrite andb_true_r. apply String.eqb_eq. }
  split.
  - intros [Hin Hn]. split; [exact Hin |]. intros Heq. apply Hn.
    exists (rowPolicy row). split.
    + apply in_map, filter_In. split; [exact Hin |].
      apply Hmatch; assumption.
    + symmetry. apply row_of_arity4. auto.
  - intros [Hin Hne]. split; [exact Hin |].
    intros [p [Hp Hr]]. apply in_map_iff in Hp.
    destruct Hp as [r [<- Hr']]. apply filter_In in Hr'.
    destruct Hr' as [Hr1 Hr2]. rewrite row_of_arity4 in Hr by auto.
    subst r. apply Hne. apply Hmatch; assumption.
Qed.

Lemma addPermissions_policy (permissions : list Permission)
    (e : casbin.Enforcer) (roleKey domain : string) (row : list string) :
  In row (casbin.policy (roleManager.addPermissions e roleKey domain
                                                    permissions))
  <-> In row (casbin.policy e)
      \/ exists p, In p permissions /\ Permission_IsValid p = true
                   /\ row = permissionRule roleKey domain p.
Proof.
  revert e. induction permissions as [|q permissions IH]; intros e.
  - simpl. split; [tauto | intros [H | [p [[] _]]]; exact H].
  - unfold roleManager.addPermissions in *. cbn [fold_left]. rewrite IH.
    destruct (Permission_IsValid q) eqn:Ev; cbn [negb].
    + unfold Enforcer.AddPolicy, casbin.AddPolicy. cbn [casbin.policy].
      rewrite In_addRule. fold (permissionRule roleKey domain q). split.
      * intros [[H | H] | [p [Hp [Hv Hr]]]]; [tauto | |].
        -- right. exists q. simpl. auto.
        -- right. exists p. simpl. auto.
      * intros [H | [p [[<- | Hp] [Hv Hr]]]]; [tauto | tauto |].
        right. exists p. auto.
    + split.
      * intros [H | [p [Hp [Hv Hr]]]]; [tauto |].
        right. exists p. simpl. auto.
      * intros [H | [p [[<- | Hp] [Hv Hr]]]]; [tauto | congruence |].
        right. exists p. auto.
Qed.

Lemma addPermissions_grouping (permissions : list Permission)
    (e : casbin.Enforcer) (roleKey domain : string) :
  casbin.grouping (roleManager.addPermissions e roleKey domain permissions)
  = casbin.grouping e.
Proof.
  revert e. induction permissions as [|q permissions IH]; intros e;
    [reflexivity |].
  unfold roleManager.addPermissions in *. cbn [fold_left]. rewrite IH.
  destruct (Permission_IsValid q); reflexivity.
Qed.

End Store.

Section Holds.

Lemma Permission_eqb_eq (p q : Permission) :
  (Resource_of p =? Resource_of q) && (Action_of p =? Action_of q) = true
  <-> p = q.
Proof.
  rewrite andb_true_iff, !String.eqb_eq. destruct p, q; simpl. split.
  - intros [-> ->]. reflexivity.
  - intros H. injection H as -> ->. auto.
Qed.

Lemma existsb_Permission_In (p : Permission) (perms : list Permission) :
  existsb (fun userPerm =>
             (Resource_of userPerm =? Resource_of p)
             && (Action_of userPerm =? Action_of p)) perms = true
  <-> In p perms.
Proof.
  rewrite existsb_exists. split.
  - intros [x [Hx He]]. apply Permission_eqb_eq in He. subst. exact Hx.
  - intros H. exists p. split; [exact H | apply Permission_eqb_eq; auto].
Qed.

Lemma GetImplicitPermissions_Ok (e : casbin.Enforcer) (u d : string) :
  storeParses e ->
  Enforcer.GetImplicitPermissions e u d
  = Ok (rowsPermissions (Enforcer.implicitPolicies e u d)).
Proof.
  intros Hs. apply toPermissions_Ok. split; [| reflexivity].
  exact (Forall_incl _ _ _ (implicitPolicies_incl e u d) Hs).
Qed.

Lemma holds_iff (e : casbin.Enforcer) (u d : string) (p : Permission) :
  holds e u d p
  <-> exists perms, Enforcer.GetImplicitPermissions e u d = Ok perms
                    /\ In p perms.
Proof.
  unfold holds, Enforcer.CheckPermission.
  destruct (Enforcer.GetImplicitPermissions e u d) as [perms|err];
    cbn [bind].
  - split.
    + intros H. injection H as H. apply existsb_Permission_In in H.
      exists perms. auto.
    + intros [ps [H Hin]]. injection H as <-.
      apply existsb_Permission_In in Hin. rewrite Hin. reflexivity.
  - split; [discriminate | intros [ps [H _]]; discriminate].
Qed.

Lemma CheckPermission_parses (e : casbin.Enforcer) (u d : string)
    (p : Permission) :
  storeParses e ->
  exists b, Enforcer.CheckPermission e u d p = Ok b
            /\ (b = true <->
                In p (rowsPermissions (Enforcer.implicitPolicies e u d))).
Proof.
  intros Hs. unfold Enforcer.CheckPermission.
  rewrite (GetImplicitPermissions_Ok e u d Hs). cbn [bind].
  eexists. split; [reflexivity |]. apply existsb_Permission_In.
Qed.

(** A permission written for a role in the global domain is held by
    every subject that has the role in some domain. *)
Lemma holds_global_role_permission (e : casbin.Enforcer)
    (user tenant roleKey : string) (p : Permission) :
  storeParses e ->
  In roleKey (RolesOf e user tenant) ->
  In (permissionRule roleKey "*" p) (casbin.policy e) ->
  holds e user tenant p.
Proof.
  intros Hs Hr Hin. apply holds_iff.
  exists (rowsPermissions (Enforcer.implicitPolicies e user tenant)).
  split; [apply GetImplicitPermissions_Ok, Hs |].
  apply In_implicitPolicies. right. exists roleKey.
  split; [left; exact Hr |]. right.
  apply In_rowsPermissions. exists (permissionRule roleKey "*" p).
  split; [| split].
  - apply filter_In. split; [exact Hin |].
    unfold casbin.fieldMatch, permissionRule, idx. simpl.
    rewrite String.eqb_refl, orb_true_r. reflexivity.
  - reflexivity.
  - destruct p; reflexivity.
Qed.

End Holds.

Section SetRolePermissions.

Lemma setRolePermissions_effect (w w' : World) (roleKey : string)
    (permissions : list Permission) :
  storeArity (enforcer w) -> roleKey <> "" ->
  roleManager.setRolePermissions w roleKey permissions = (None, w') ->
  (forall row,
     In row (casbin.policy (enforcer w'))
     <-> (In row (casbin.policy (enforcer w)) /\ idx row 0 <> roleKey)
         \/ (exists p, In p permissions /\ Permission_IsValid p = true
                       /\ row = permissionRule roleKey "*" p)
         \/ (permissions = []
             /\ row = permissionRule roleKey "*" PlaceholderPermission))
  /\ casbin.grouping (enforcer w') = casbin.grouping (enforcer w)
  /\ roles w' = roles w.
Proof.
  intros Ha Hk. unfold roleManager.setRolePermissions.
  destruct (Enforcer.ClearPolicies (enforcer w) roleKey) as [[err|] e1]
    eqn:Ec; [discriminate |].
  assert (Hc := fun row => ClearPolicies_policy _ _ _ row Ha Hk Ec).
  assert (Hadd := fun row =>
            addPermissions_policy permissions e1 roleKey "*" row).
  assert (Hgr := addPermissions_grouping permissions e1 roleKey "*").
  set (e2 := roleManager.addPermissions e1 roleKey "*" permissions) in *.
  clearbody e2. cbv zeta.
  destruct (length permissions =? 0)%nat eqn:El.
  - apply Nat.eqb_eq, length_zero_iff_nil in El. subst permissions.
    intros H. injection H as <-. cbn [setEnforcer enforcer roles].
    split; [| split; [| reflexivity]].
    + intros row. unfold Enforcer.AddPolicy, casbin.AddPolicy.
      cbn [casbin.policy].
      destruct (Hc row) as [Hc1 _]. rewrite In_addRule, (Hadd row), Hc1.
      fold (permissionRule roleKey "*" PlaceholderPermission). split.
      * intros [[H | [p [[] _]]] | H]; [tauto | right; right; auto].
      * intros [H | [[p [[] _]] | [_ H]]]; tauto.
    + cbn. rewrite Hgr. apply (proj2 (Hc [])).
  - assert (Hne : permissions <> []).
    { intros ->. discriminate El. }
    intros H. injection H as <-. cbn [setEnforcer enforcer roles].
    split; [| split; [| reflexivity]].
    + intros row. destruct (Hc row) as [Hc1 _].
      rewrite (Hadd row), Hc1. tauto.
    + rewrite Hgr. apply (proj2 (Hc [])).
Qed.

Lemma roleManager_SetRolePermissions_inv (sv : SecurityValidator)
    (w w' : World) (roleKey : string) (permissions : list Permission) :
  roleManager.SetRolePermissions sv w roleKey permissions = (None, w') ->
  roleKey <> ""
  /\ roleManager.setRolePermissions w roleKey permissions = (None, w').
Proof.
  unfold roleManager.SetRolePermissions.
  destruct (roleKey =? "") eqn:Ek; [discriminate |].
  apply String.eqb_neq in Ek.
  destruct (roleManager.isRoleExistsInDB w roleKey) as [isRole|];
    [| discriminate].
  destruct (negb isRole); [discriminate |].
  destruct (valueOf _); [discriminate |]. auto.
Qed.

Lemma firstError_None_or (check : Permission -> option error)
    (l : list Permission) :
  firstError check l = None \/ exists err, firstError check l = Some err.
Proof.
  destruct (firstError check l); eauto.
Qed.

Lemma casbinxClient_SetRolePermissions_inv (cfg : SecurityConfig)
    (w w' : World) (operatorKey roleKey : string)
    (permissions : list Permission) :
  casbinxClient.SetRolePermissions cfg w operatorKey roleKey permissions
  = (None, w') ->
  roleManager.SetRolePermissions (casbinxClient.securityValidator cfg w) w
                                 roleKey permissions = (None, w').
Proof.
  unfold casbinxClient.SetRolePermissions.
  destruct (casbinxClient.validateGlobalRoleOperation w operatorKey roleKey);
    [discriminate |].
  destruct (roleManager.GetRole w roleKey) as [role|]; [| discriminate].
  cbv zeta.
  destruct (firstError _ _); [discriminate |].
  destruct (firstError _ _); [discriminate |]. auto.
Qed.

End SetRolePermissions.

(** C9.  After a successful [SetRolePermissions], of the role manager
    or of the engine, on a store of four-field rules: the tuples of
    other subjects are untouched, every former tuple of the role is
    gone, in whichever domain it was, and the role has exactly one tuple
    in the global domain "*" per valid new permission, or the
    placeholder tuple when the list is empty.  So every tuple of the
    role is in the global domain, whatever tenant owns the role, and
    every user that holds the role in some tenant holds each new
    permission there.  Role assignments and role metadata are unchanged. *)
Theorem C9_SetRolePermissions_writes_global_domain :
  forall (sv : SecurityValidator) (cfg : SecurityConfig) (w w' : World)
         (operatorKey roleKey : string) (permissions : list Permission),
    storeArity (enforcer w) ->
    roleManager.SetRolePermissions sv w roleKey permissions = (None, w')
    \/ casbinxClient.SetRolePermissions cfg w operatorKey roleKey permissions
       = (None, w') ->
    (forall row,
       In row (casbin.policy (enforcer w'))
       <-> (In row (casbin.policy (enforcer w)) /\ idx row 0 <> roleKey)
           \/ (exists p, In p permissions /\ Permission_IsValid p = true
                         /\ row = permissionRule roleKey "*" p)
           \/ (permissions = []
               /\ row = permissionRule roleKey "*" PlaceholderPermission))
    /\ (forall row,
          In row (casbin.policy (enforcer w')) ->
          idx row 0 = roleKey -> idx row 1 = "*")
    /\ casbin.grouping (enforcer w') = casbin.grouping (enforcer w)
    /\ roles w' = roles w
    /\ (forall user tenant p,
          storeParses (enforcer w') ->
          In roleKey (RolesOf (enforcer w') user tenant) ->
          In p permissions -> Permission_IsValid p = true ->
          holds (enforcer w') user tenant p).
Proof.
  intros sv cfg w w' op roleKey permissions Ha H.
  assert (H' : exists sv', roleManager.SetRolePermissions sv' w roleKey
                             permissions = (None, w')).
  { destruct H as [H | H]; [eauto |].
    apply casbinxClient_SetRolePermissions_inv in H. eauto. }
  destruct H' as [sv' H'].
  apply roleManager_SetRolePermissions_inv in H'. destruct H' as [Hk Hset].
  destruct (setRolePermissions_effect w w' roleKey permissions Ha Hk Hset)
    as [Hrows [Hg Hr]].
  split; [exact Hrows |]. split; [| split; [exact Hg | split; [exact Hr |]]].
  - intros row Hin Hsub. apply Hrows in Hin.
    destruct Hin as [[_ Hn] | [[p [_ [_ ->]]] | [_ ->]]];
      [contradiction | reflexivity | reflexivity].
  - intros user tenant p Hs Hrole Hp Hv.
    apply (holds_global_role_permission _ user tenant roleKey p Hs Hrole).
    apply Hrows. right. left. exists p. auto.
Qed.

Section TenantAccess.

Lemma CheckPermission_of_perms (e : casbin.Enforcer) (u t : string)
    (perms : list Permission) (p : Permission) :
  Enforcer.GetImplicitPermissions e u t = Ok perms ->
  exists b, checkManager.CheckPermission e u t p = Ok b
            /\ (b = true <-> In p perms).
Proof.
  intros H. unfold checkManager.CheckPermission, Enforcer.CheckPermission.
  rewrite H. cbn [bind]. eexists. split; [reflexivity |].
  apply existsb_Permission_In.
Qed.

Lemma anyAction_Ok (e : casbin.Enforcer) (u t : string) (res : Resource)
    (perms : list Permission) (actions : list Action) :
  Enforcer.GetImplicitPermissions e u t = Ok perms ->
  exists b, checkManager.anyAction e u t res actions = Ok b
            /\ (b = true <->
                exists a, In a actions /\ In (mkPermission res a) perms).
Proof.
  intros H. induction actions as [|a actions IH].
  - exists false. split; [reflexivity |].
    split; [discriminate | intros [a [[] _]]].
  - cbn [checkManager.anyAction].
    destruct (CheckPermission_of_perms e u t perms (mkPermission res a) H)
      as [b1 [E1 Hb1]].
    rewrite E1. cbn [bind]. destruct b1.
    + exists true. split; [reflexivity |]. split; [| reflexivity].
      intros _. exists a. split; [left; reflexivity | tauto].
    + destruct IH as [b [E Hb]]. exists b. split; [exact E |].
      rewrite Hb. split.
      * intros [a' [Ha' Hp]]. exists a'. simpl. auto.
      * intros [a' [[<- | Ha'] Hp]]; [| eauto].
        apply Hb1 in Hp. discriminate.
Qed.

Lemma anyResource_Ok (e : casbin.Enforcer) (u t : string)
    (perms : list Permission) (resources : list Resource) :
  Enforcer.GetImplicitPermissions e u t = Ok perms ->
  exists b, checkManager.anyResource e u t resources = Ok b
            /\ (b = true <->
                exists res a, In res resources /\ In a AllActions
                              /\ In (mkPermission res a) perms).
Proof.
  intros H. induction resources as [|res resources IH].
  - exists false. split; [reflexivity |].
    split; [discriminate | intros [res [a [[] _]]]].
  - cbn [checkManager.anyResource].
    destruct (anyAction_Ok e u t res perms AllActions H) as [b1 [E1 Hb1]].
    rewrite E1. cbn [bind]. destruct b1.
    + exists true. split; [reflexivity |]. split; [| reflexivity].
      intros _. destruct (proj1 Hb1 eq_refl) as [a [Ha Hp]].
      exists res, a. simpl. auto.
    + destruct IH as [b [E Hb]]. exists b. split; [exact E |].
      rewrite Hb. split.
      * intros [res' [a [Hr [Ha Hp]]]]. exists res', a. simpl. auto.
      * intros [res' [a [[<- | Hr] [Ha Hp]]]]; [| eauto].
        assert (Hc : false = true) by (apply Hb1; eauto).
        discriminate.
Qed.

Lemma anyResource_Err (e : casbin.Enforcer) (u t : string) (err : error) :
  Enforcer.GetImplicitPermissions e u t = Err err ->
  checkManager.anyResource e u t checkManager.coreResources = Err err.
Proof.
  intros H. unfold checkManager.coreResources.
  cbn [checkManager.anyResource AllActions checkManager.anyAction].
  unfold checkManager.CheckPermission, Enforcer.CheckPermission.
  rewrite H. reflexivity.
Qed.

Lemma length_pos_nonempty {A : Type} (l : list A) :
  (0 <? length l)%nat = true <-> l <> [].
Proof.
  destruct l; simpl; split; try discriminate; try reflexivity.
  intros H. contradiction.
Qed.

Lemma CanAccessTenant_total (e : casbin.Enforcer) (u t : string) :
  storeParses e -> exists b, checkManager.CanAccessTenant e u t = Ok b.
Proof.
  intros Hs. unfold checkManager.CanAccessTenant.
  destruct (CheckPermission_of_perms e u "*" _
              (mkPermission ResourceTenant ActionRead)
              (GetImplicitPermissions_Ok e u "*" Hs)) as [b1 [E1 _]].
  rewrite E1. cbn [bind]. destruct b1; [eauto |].
  unfold Enforcer.GetRolesForUser. cbn [bind].
  destruct (0 <? length _)%nat; [eauto |].
  destruct (anyResource_Ok e u t _ checkManager.coreResources
              (GetImplicitPermissions_Ok e u t Hs)) as [b [E _]].
  eauto.
Qed.

Lemma CanAccessTenant_iff (e : casbin.Enforcer) (u t : string) (b : bool) :
  checkManager.CanAccessTenant e u t = Ok b ->
  (b = true
   <-> holds e u "*" (mkPermission ResourceTenant ActionRead)
       \/ RolesOf e u t <> []
       \/ exists res a, In res checkManager.coreResources
                        /\ In a AllActions
                        /\ holds e u t (mkPermission res a)).
Proof.
  unfold checkManager.CanAccessTenant, checkManager.CheckPermission at 1.
  destruct (Enforcer.CheckPermission e u "*"
              (mkPermission ResourceTenant ActionRead)) as [b1|] eqn:E1;
    cbn [bind]; [| discriminate].
  destruct b1.
  - intros H. injection H as <-. split; [intros _; left; exact E1 | auto].
  - unfold Enforcer.GetRolesForUser. cbn [bind]. fold (RolesOf e u t).
    destruct (0 <? length (RolesOf e u t))%nat eqn:El.
    + intros H. injection H as <-. apply length_pos_nonempty in El.
      split; auto.
    + assert (Hnil : ~ RolesOf e u t <> []).
      { intros Hn. apply length_pos_nonempty in Hn. congruence. }
      destruct (Enforcer.GetImplicitPermissions e u t) as [perms|err]
        eqn:Eg.
      * destruct (anyResource_Ok e u t perms checkManager.coreResources Eg)
          as [b' [E Hb']].
        rewrite E. intros H. injection H as <-. rewrite Hb'. split.
        -- intros [res [a [Hr [Ha Hp]]]]. right. right. exists res, a.
           split; [exact Hr |]. split; [exact Ha |].
           apply holds_iff. eauto.
        -- intros [H | [H | [res [a [Hr [Ha Hp]]]]]].
           ++ unfold holds in H. congruence.
           ++ contradiction.
           ++ apply holds_iff in Hp. destruct Hp as [ps [Hps Hin]].
              rewrite Eg in Hps. injection Hps as <-. eauto.
      * rewrite (anyResource_Err e u t err Eg). discriminate.
Qed.

Lemma AssignRole_inv (cfg : SecurityConfig) (w w' : World)
    (operatorKey userKey roleKey tenantKey : string) :
  casbinxClient.AssignRole cfg w operatorKey userKey roleKey tenantKey
  = (None, w') ->
  w' = setEnforcer w (Enforcer.AddGroupingPolicy (enforcer w) userKey
                                                 roleKey tenantKey).
Proof.
  unfold casbinxClient.AssignRole. cbv zeta.
  destruct (checkManager.CheckPermission _ _ _ _) as [[|]|];
    cbn [negb]; try discriminate.
  destruct (checkManager.CheckPermission _ _ _ _) as [[|]|];
    cbn [negb]; try discriminate.
  destruct (roleManager.HasSystemPermissions _ _ _) as [[|]|];
    try discriminate.
  unfold userManager.AssignRole.
  destruct (_ || _); [discriminate |].
  destruct (userManager.validateNotRole w userKey); [discriminate |].
  destruct (userManager.validateRoleExists w roleKey); [discriminate |].
  intros H. injection H as <-. reflexivity.
Qed.

Lemma GrantPermission_inv (cfg : SecurityConfig) (w w' : World)
    (operatorKey userKey tenantKey : string) (p : Permission) :
  casbinxClient.GrantPermission cfg w operatorKey userKey tenantKey p
  = (None, w') ->
  w' = setEnforcer w (Enforcer.AddPolicy (enforcer w) userKey tenantKey p).
Proof.
  unfold casbinxClient.GrantPermission.
  destruct (Validator.ValidatePermissionGrant _ _ _ _ _); [discriminate |].
  unfold userManager.GrantPermission.
  destruct (userManager.validateParams userKey p); [discriminate |].
  destruct (userManager.validateNotRole w userKey); [discriminate |].
  intros H. injection H as <-. reflexivity.
Qed.

Lemma RolesOf_AddGroupingPolicy (e : casbin.Enforcer) (u r t : string) :
  In r (RolesOf (Enforcer.AddGroupingPolicy e u r t) u t).
Proof.
  unfold RolesOf, casbin.GetRolesForUserInDomain, Enforcer.AddGroupingPolicy,
    casbin.AddRoleForUserInDomain. cbn [casbin.grouping].
  apply in_map_iff. exists [u; r; t]. split; [reflexivity |].
  apply filter_In. split.
  - apply In_addRule. auto.
  - unfold idx. simpl. rewrite !String.eqb_refl. reflexivity.
Qed.

Lemma storeParses_AddPolicy (e : casbin.Enforcer) (u t : string)
    (p : Permission) :
  storeParses e -> validActionb (Action_of p) = true ->
  storeParses (Enforcer.AddPolicy e u t p).
Proof.
  unfold storeParses. rewrite !Forall_forall. intros Hs Hv row Hin.
  unfold Enforcer.AddPolicy, casbin.AddPolicy in Hin.
  cbn [casbin.policy] in Hin. apply In_addRule in Hin.
  destruct Hin as [Hin | ->]; [auto |]. intros _. exact Hv.
Qed.

Lemma holds_AddPolicy (e : casbin.Enforcer) (u t : string)
    (p : Permission) :
  storeParses (Enforcer.AddPolicy e u t p) ->
  holds (Enforcer.AddPolicy e u t p) u t p.
Proof.
  intros Hs. apply holds_iff. eexists.
  split; [apply GetImplicitPermissions_Ok, Hs |].
  apply In_implicitPolicies. left. apply In_rowsPermissions.
  exists (permissionRule u t p). split; [| split].
  - apply filter_In. split.
    + unfold Enforcer.AddPolicy, casbin.AddPolicy. cbn [casbin.policy].
      apply In_addRule. auto.
    + unfold casbin.fieldMatch, permissionRule, idx. simpl.
      rewrite !String.eqb_refl, !orb_true_r. reflexivity.
  - reflexivity.
  - destruct p; reflexivity.
Qed.

End TenantAccess.

(** C6 (amended).  [CanAccessTenant] answers when every stored tuple
    parses, and its answer is [true] exactly when the user holds
    tenant-read in the global domain, or has a role in the tenant, or
    holds read, write or delete on one of the core resources (user, role,
    permission, system, tenant) in the tenant, where holding includes
    what the user inherits from roles, also from roles held in the
    global domain.  It is [true] right after a successful [AssignRole] in
    the tenant and right after a successful [GrantPermission] in the
    tenant of read, write or delete on a core resource. *)
Theorem C6_CanAccessTenant_characterisation :
  forall (cfg : SecurityConfig) (w : World) (userKey tenantKey : string),
    (storeParses (enforcer w) ->
     exists b, casbinxClient.CanAccessTenant w userKey tenantKey = Ok b)
    /\ (forall b,
          casbinxClient.CanAccessTenant w userKey tenantKey = Ok b ->
          (b = true
           <-> holds (enforcer w) userKey "*"
                     (mkPermission ResourceTenant ActionRead)
               \/ RolesOf (enforcer w) userKey tenantKey <> []
               \/ exists res a,
                    In res checkManager.coreResources /\ In a AllActions
                    /\ holds (enforcer w) userKey tenantKey
                             (mkPermission res a)))
    /\ (forall w' operatorKey roleKey,
          storeParses (enforcer w) ->
          casbinxClient.AssignRole cfg w operatorKey userKey roleKey tenantKey
          = (None, w') ->
          casbinxClient.CanAccessTenant w' userKey tenantKey = Ok true)
    /\ (forall w' operatorKey p,
          storeParses (enforcer w) ->
          casbinxClient.GrantPermission cfg w operatorKey userKey tenantKey p
          = (None, w') ->
          In (Resource_of p) checkManager.coreResources ->
          In (Action_of p) AllActions ->
          casbinxClient.CanAccessTenant w' userKey tenantKey = Ok true).
Proof.
  intros cfg w u t. unfold casbinxClient.CanAccessTenant.
  split; [apply CanAccessTenant_total |].
  split; [apply CanAccessTenant_iff |]. split.
  - intros w' op r Hs H. apply AssignRole_inv in H. subst w'.
    cbn [setEnforcer enforcer].
    assert (Hs' : storeParses (Enforcer.AddGroupingPolicy (enforcer w) u r t))
      by exact Hs.
    destruct (CanAccessTenant_total _ u t Hs') as [b Hb].
    rewrite Hb. f_equal. apply (CanAccessTenant_iff _ _ _ _ Hb).
    right. left. intros Hnil.
    pose proof (RolesOf_AddGroupingPolicy (enforcer w) u r t) as Hin.
    rewrite Hnil in Hin. contradiction.
  - intros w' op p Hs H Hr Ha. apply GrantPermission_inv in H. subst w'.
    cbn [setEnforcer enforcer].
    assert (Hv : validActionb (Action_of p) = true).
    { simpl in Ha. destruct Ha as [<- | [<- | [<- | []]]]; reflexivity. }
    assert (Hs' := storeParses_AddPolicy _ u t p Hs Hv).
    destruct (CanAccessTenant_total _ u t Hs') as [b Hb].
    rewrite Hb. f_equal. apply (CanAccessTenant_iff _ _ _ _ Hb).
    right. right. exists (Resource_of p), (Action_of p).
    split; [exact Hr |]. split; [exact Ha |].
    replace (mkPermission (Resource_of p) (Action_of p)) with p
      by (destruct p; reflexivity).
    apply holds_AddPolicy, Hs'.
Qed.

(** C6 as stated fails twice.  [dave] has no tuple and no role in
    tenant [t9] and no tenant-read in the global domain, yet reaches [t9]
    through a core permission of a role held in the global domain.  And
    after [erin] is granted document-read in [t1], a permission on a
    resource that is not a core resource, [CanAccessTenant] is still
    [false]. *)
Lemma C6_counterexample :
  (* no tuple and no grouping of dave in t9, no global tenant-read *)
  directRows (enforcer world_tenants) "dave" "t9" = []
  /\ RolesOf (enforcer world_tenants) "dave" "t9" = []
  /\ Enforcer.CheckPermission (enforcer world_tenants) "dave" "*"
       (mkPermission ResourceTenant ActionRead) = Ok false
  /\ casbinxClient.CanAccessTenant world_tenants "dave" "t9" = Ok true
  (* a grant that places erin in t1 leaves the tenant out of reach *)
  /\ fst (casbinxClient.GrantPermission DefaultSecurityConfig world_tenants
            "admin1" "erin" "t1" (mkPermission "document" ActionRead)) = None
  /\ casbinxClient.CanAccessTenant
       (snd (casbinxClient.GrantPermission DefaultSecurityConfig world_tenants
               "admin1" "erin" "t1" (mkPermission "document" ActionRead)))
       "erin" "t1" = Ok false.
Proof.
  repeat split; vm_compute; reflexivity.
Qed.

Lemma world_sys_parses : storeParses (enforcer world_sys).
Proof.
  unfold storeParses. simpl. repeat constructor.
Qed.

(** C6 after a role assignment and after a grant of role-read. *)
Lemma C6_CanAccessTenant_characterisation_witness :
  (exists b, casbinxClient.CanAccessTenant world_sys "carol" "t1" = Ok b)
  /\ casbinxClient.CanAccessTenant
       (snd (casbinxClient.AssignRole DefaultSecurityConfig world_sys
               "boss" "erin" "viewer" "t1")) "erin" "t1" = Ok true
  /\ casbinxClient.CanAccessTenant
       (snd (casbinxClient.GrantPermission DefaultSecurityConfig world_sys
               "boss" "erin" "t1" (mkPermission ResourceRole ActionRead)))
       "erin" "t1" = Ok true.
Proof.
  split; [| split].
  - exact (proj1 (C6_CanAccessTenant_characterisation DefaultSecurityConfig
                    world_sys "carol" "t1") world_sys_parses).
  - refine (proj1 (proj2 (proj2 (C6_CanAccessTenant_characterisation
                                   DefaultSecurityConfig world_sys "erin"
                                   "t1")))
              _ "boss" "viewer" world_sys_parses _).
    vm_compute. reflexivity.
  - refine (proj2 (proj2 (proj2 (C6_CanAccessTenant_characterisation
                                   DefaultSecurityConfig world_sys "erin"
                                   "t1")))
              _ "boss" (mkPermission ResourceRole ActionRead)
              world_sys_parses _ _ _).
    + vm_compute. reflexivity.
    + simpl. auto.
    + simpl. auto.
Defined.

Section SystemRoles.

Lemma roleManager_isSystemPermission (sv : SecurityValidator)
    (p : Permission) :
  roleManager.isSystemPermission sv p = Validator.isSystemPermission sv p.
Proof.
  unfold roleManager.isSystemPermission, Validator.GetPermissionType.
  destruct (Validator.isSystemPermission sv p); reflexivity.
Qed.

Lemma systemTagged_inv (cfg : SecurityConfig) (w : World)
    (roleKey : string) :
  systemTagged cfg w roleKey ->
  (roleKey =? "") = false
  /\ roleManager.isRoleExistsInDB w roleKey = Ok true.
Proof.
  intros [perms [H _]]. unfold roleManager.GetRolePermissions in H.
  destruct (roleKey =? ""); [discriminate |]. split; [reflexivity |].
  unfold roleManager.isRoleExistsInDB in *. cbn [bind] in H.
  destruct (0 <? _)%nat; [reflexivity | discriminate].
Qed.

Lemma systemTagged_HasSystemPermissions (sv : SecurityValidator)
    (w : World) (roleKey : string) :
  systemTagged (config sv) w roleKey ->
  roleManager.HasSystemPermissions sv w roleKey = Ok true.
Proof.
  intros Ht. destruct (systemTagged_inv _ _ _ Ht) as [Hk Hdb].
  destruct Ht as [perms [Hp [p [Hin Hsys]]]].
  unfold roleManager.HasSystemPermissions.
  rewrite Hk, Hdb. cbn [bind negb]. rewrite Hp. cbn [bind]. f_equal.
  apply existsb_exists. exists p. split; [exact Hin |].
  rewrite roleManager_isSystemPermission. apply isSystemPermission_In, Hsys.
Qed.



End SystemRoles.





(** C2 with the rule enabled and with the rule disabled. *)
Lemma C2_self_elevation_prevented_witness :
  (Validator.ValidatePermissionGrant
     (NewSecurityValidator DefaultSecurityConfig) "user1" "user1" "t1"
     (mkPermission ResourcePermission ActionWrite)
   = Some ErrSelfElevationPrevented
   /\ Validator.ValidatePermissionRevoke
        (NewSecurityValidator DefaultSecurityConfig) "user1" "user1" "t1"
        (mkPermission ResourcePermission ActionWrite)
      = Some ErrSelfElevationPrevented)
  /\ Validator.PreventSelfElevation_check
       (NewSecurityValidator relaxedConfig) "user1" "user1"
       (mkPermission ResourceRole ActionDelete) = None.
Proof.
  split.
  - apply (proj1 (C2_self_elevation_prevented
                    (NewSecurityValidator DefaultSecurityConfig)
                    "user1" "t1"
                    (mkPermission ResourcePermission ActionWrite)
                    (or_intror (conj (or_introl eq_refl)
                                     (or_introl eq_refl))))).
    reflexivity.
  - apply (proj2 (C2_self_elevation_prevented
                    (NewSecurityValidator relaxedConfig)
                    "user1" "t1"
                    (mkPermission ResourceRole ActionDelete)
                    (or_intror (conj (or_intror (or_intror (or_introl eq_refl)))
                                     (or_intror (or_introl eq_refl)))))).
    reflexivity.
Defined.

(** C3 for [carol], who holds the role [sysadmin] in tenant [t1]. *)
Lemma C3_effective_permissions_union_witness :
  storeParses (enforcer world_sys)
  /\ (exists perms,
        Enforcer.GetImplicitPermissions (enforcer world_sys) "carol" "t1"
        = Ok perms)
  /\ incl (PermissionsOf (enforcer world_sys) "sysadmin" "*")
          [mkPermission ResourceTenant ActionWrite].
Proof.
  split; [exact world_sys_parses |]. split.
  - exact (proj1 (C3_effective_permissions_union (enforcer world_sys)
                    "carol" "t1") world_sys_parses).
  - assert (E : Enforcer.GetImplicitPermissions (enforcer world_sys)
                  "carol" "t1"
                = Ok [mkPermission ResourceTenant ActionWrite])
      by (vm_compute; reflexivity).
    destruct (proj2 (C3_effective_permissions_union (enforcer world_sys)
                       "carol" "t1") _ E) as [_ [_ H]].
    apply (H "sysadmin"). left. simpl. auto.
Defined.

(** C8 as stated fails: the placeholder tuple of [empty_role] is
    returned by [GetDirectPermissions]. *)
Lemma C8_counterexample :
  In ["empty_role"; "*"; ResourcePlaceholder; ActionNone]
     (casbin.policy (enforcer world_tenants))
  /\ Enforcer.GetDirectPermissions (enforcer world_tenants) "empty_role" "*"
     = Ok [PlaceholderPermission]
  /\ In PlaceholderPermission [PlaceholderPermission].
Proof.
  split; [simpl; auto 10 |]. split; [reflexivity | simpl; auto].
Qed.

(** C8 on the tuples of [empty_role] and of [admin1]. *)
Lemma C8_direct_permissions_exact_witness :
  In PlaceholderPermission [PlaceholderPermission]
  /\ In ["admin1"; "t1"; "permission"; "write"]
        (directRows (enforcer world_tenants) "admin1" "t1").
Proof.
  split.
  - apply (proj2 (proj2 (C8_direct_permissions_exact (enforcer world_tenants)
                           "empty_role" "*")) [PlaceholderPermission]).
    + simpl. auto 10.
    + reflexivity.
  - apply (proj1 (C8_direct_permissions_exact (enforcer world_tenants)
                    "admin1" "t1")).
    simpl. repeat split; auto 10.
Defined.

Lemma world_tenants_arity : storeArity (enforcer world_tenants).
Proof.
  unfold storeArity. simpl. repeat constructor.
Qed.

(** C9 on the role [ops], which tenant [t1] owns. *)
Lemma C9_SetRolePermissions_writes_global_domain_witness :
  md_TenantKey (mkRoleMetadata "ops" "Operations" (Some "tenant operations")
                               "t1") = "t1"
  /\ fst (roleManager.SetRolePermissions
            (NewSecurityValidator DefaultSecurityConfig) world_tenants "ops"
            [mkPermission "document" ActionRead;
             mkPermission "document" ActionWrite]) = None
  /\ forall row,
       In row (casbin.policy
                 (enforcer
                    (snd (roleManager.SetRolePermissions
                            (NewSecurityValidator DefaultSecurityConfig)
                            world_tenants "ops"
                            [mkPermission "document" ActionRead;
                             mkPermission "document" ActionWrite])))) ->
       idx row 0 = "ops" -> idx row 1 = "*".
Proof.
  split; [reflexivity |]. split; [reflexivity |].
  assert (E : roleManager.SetRolePermissions
                (NewSecurityValidator DefaultSecurityConfig) world_tenants
                "ops"
                [mkPermission "document" ActionRead;
                 mkPermission "document" ActionWrite]
              = (None,
                 snd (roleManager.SetRolePermissions
                        (NewSecurityValidator DefaultSecurityConfig)
                        world_tenants "ops"
                        [mkPermission "document" ActionRead;
                         mkPermission "document" ActionWrite])))
    by (vm_compute; reflexivity).
  exact (proj1 (proj2 (C9_SetRolePermissions_writes_global_domain
                         (NewSecurityValidator DefaultSecurityConfig)
                         DefaultSecurityConfig world_tenants _ "admin1" "ops"
                         _ world_tenants_arity (or_introl E)))).
Defined.

Section GlobalRoleGuard.

Lemma hasGlobalRoleAssignments_true (w : World) (roleKey user : string) :
  roleKey <> "" ->
  In [user; roleKey; "*"] (casbin.grouping (enforcer w)) ->
  casbinxClient.hasGlobalRoleAssignments w roleKey = Ok true.
Proof.
  intros Hk Hin. unfold casbinxClient.hasGlobalRoleAssignments,
    roleManager.GetUsersWithRole.
  apply String.eqb_neq in Hk. rewrite Hk.
  unfold Enforcer.GetUsersWithRole, Enforcer.GetGroupingPolicies.
  cbn [bind]. f_equal. apply length_pos_nonempty.
  intros Hnil. apply map_eq_nil in Hnil.
  assert (Hg : In (mkGroupingPolicy user roleKey "*")
                  (filter
                     (fun policy =>
                        (RoleKey policy =? roleKey)
                        && (("*" =? "") || (TenantKey policy =? "*")))
                     (flat_map
                        (fun policy =>
                           if (3 <=? length policy)%nat
                           then [mkGroupingPolicy (idx policy 0)
                                   (idx policy 1) (idx policy 2)]
                           else [])
                        (casbin.GetGroupingPolicy (enforcer w))))).
  { apply filter_In. split.
    - apply in_flat_map. exists [user; roleKey; "*"].
      split; [exact Hin | simpl; auto].
    - simpl. rewrite String.eqb_refl. reflexivity. }
  rewrite Hnil in Hg. contradiction.
Qed.

(** The guard of the operations that call
    [validateGlobalRoleOperation]. *)
Lemma validateGlobalRoleOperation_denied (w : World)
    (operatorKey roleKey user : string) :
  roleKey <> "" ->
  In [user; roleKey; "*"] (casbin.grouping (enforcer w)) ->
  Enforcer.CheckPermission (enforcer w) operatorKey "*"
    (mkPermission ResourceRole ActionWrite) = Ok false ->
  casbinxClient.validateGlobalRoleOperation w operatorKey roleKey
  = Some ErrGlobalRoleAccessDenied.
Proof.
  intros Hk Hin Hc. unfold casbinxClient.validateGlobalRoleOperation.
  rewrite (hasGlobalRoleAssignments_true w roleKey user Hk Hin).
  cbn [negb]. unfold casbinxClient.hasGlobalPermission,
    checkManager.CheckPermission.
  rewrite Hc. reflexivity.
Qed.

Lemma guarded_role_operations (cfg : SecurityConfig) (w : World)
    (operatorKey roleKey user : string) :
  roleKey <> "" ->
  In [user; roleKey; "*"] (casbin.grouping (enforcer w)) ->
  Enforcer.CheckPermission (enforcer w) operatorKey "*"
    (mkPermission ResourceRole ActionWrite) = Ok false ->
  (forall roleName description tenantKey permissions,
     casbinxClient.UpdateRole cfg w operatorKey roleKey roleName
                              description tenantKey permissions
     = (Some ErrGlobalRoleAccessDenied, w))
  /\ (forall permission,
        casbinxClient.GrantRolePermission cfg w operatorKey roleKey
                                          permission
        = (Some ErrGlobalRoleAccessDenied, w)
        /\ casbinxClient.RevokeRolePermission cfg w operatorKey roleKey
                                              permission
           = (Some ErrGlobalRoleAccessDenied, w))
  /\ (forall permissions,
        casbinxClient.SetRolePermissions cfg w operatorKey roleKey
                                         permissions
        = (Some ErrGlobalRoleAccessDenied, w)).
Proof.
  intros Hk Hin Hc.
  pose proof (validateGlobalRoleOperation_denied w operatorKey roleKey user
                Hk Hin Hc) as Hv.
  unfold casbinxClient.UpdateRole, casbinxClient.GrantRolePermission,
    casbinxClient.RevokeRolePermission, casbinxClient.SetRolePermissions.
  rewrite Hv. repeat split.
Qed.

Lemma isRoleExists_Err (w : World) (roleKey : string) (err : error) :
  roleManager.isRoleExists w roleKey = Err err ->
  exists msg, err = Errorf msg.
Proof.
  unfold roleManager.isRoleExists, roleManager.isRoleExistsInDB.
  cbn [bind]. destruct (0 <? _)%nat; [discriminate |].
  unfold Enforcer.GetPolicies.
  destruct (Enforcer.GetPolicies_loop _ _ _) as [ps|e] eqn:E; cbn [bind].
  - destruct (0 <? length ps)%nat; discriminate.
  - intros H. injection H as <-. exact (GetPolicies_loop_Err _ _ _ _ E).
Qed.

(** [DeleteRole] takes no operator and never answers with the denial
    of the global-role guard. *)
Lemma DeleteRole_never_GlobalRoleAccessDenied (cfg : SecurityConfig)
    (w : World) (roleKey : string) :
  fst (casbinxClient.DeleteRole cfg w roleKey)
  <> Some ErrGlobalRoleAccessDenied.
Proof.
  unfold casbinxClient.DeleteRole, roleManager.DeleteRole.
  destruct (roleKey =? ""); [discriminate |].
  destruct (roleManager.isRoleExists w roleKey) as [[|]|err] eqn:E;
    cbn [negb fst].
  - destruct (valueOf _); [discriminate |].
    unfold Enforcer.ClearPolicies, Enforcer.GetPolicies.
    destruct (Enforcer.GetPolicies_loop _ _ _) as [ps|e] eqn:Eg;
      cbn [fst]; [discriminate |].
    destruct (GetPolicies_loop_Err _ _ _ _ Eg) as [msg ->]. discriminate.
  - discriminate.
  - destruct (isRoleExists_Err _ _ _ E) as [msg ->]. discriminate.
Qed.

End GlobalRoleGuard.

(** C5, at the input where the code departs from it.  The role [ops]
    is assigned in the global domain and [admin1] does not hold
    role-write there: [UpdateRole] and [SetRolePermissions] by [admin1]
    are refused with [ErrGlobalRoleAccessDenied], but [DeleteRole], which
    takes no operator and does not run the guard, succeeds and removes
    the role, leaving its global assignment behind. *)
Theorem C5_DeleteRole_skips_global_role_guard :
  In ["dave"; "ops"; "*"] (casbin.grouping (enforcer world_tenants))
  /\ casbinxClient.hasGlobalRoleAssignments world_tenants "ops" = Ok true
  /\ casbinxClient.hasGlobalPermission world_tenants "admin1"
       (mkPermission ResourceRole ActionWrite) = Ok false
  /\ fst (casbinxClient.DeleteRole DefaultSecurityConfig world_tenants "ops")
     = None
  /\ In ["dave"; "ops"; "*"]
        (casbin.grouping
           (enforcer (snd (casbinxClient.DeleteRole DefaultSecurityConfig
                             world_tenants "ops"))))
  /\ roleManager.GetRolePermissions
       (snd (casbinxClient.DeleteRole DefaultSecurityConfig world_tenants
                                      "ops")) "ops"
     = Err (Errorf "'ops' 不是一个有效的角色")
  /\ casbinxClient.UpdateRole DefaultSecurityConfig world_tenants
       "admin1" "ops" "Operations" "" "t1" []
     = (Some ErrGlobalRoleAccessDenied, world_tenants)
  /\ casbinxClient.SetRolePermissions DefaultSecurityConfig world_tenants
       "admin1" "ops" []
     = (Some ErrGlobalRoleAccessDenied, world_tenants).
Proof.
  repeat split; vm_compute; auto.
Qed.

(* ================================================================== *)
(** * Further properties of the security validator *)

Section ValidatorMore.

Lemma validateOperatorPermission_nil_iff (sv : SecurityValidator)
    (op d : string) (p : Permission) :
  Validator.validateOperatorPermission sv op d p = None
  <-> permissionChecker sv = None
      \/ exists checker,
           permissionChecker sv = Some checker
           /\ CheckPermission checker op d
                (mkPermission ResourcePermission ActionWrite) = Ok true.
Proof.
  unfold Validator.validateOperatorPermission.
  destruct (permissionChecker sv) as [checker|].
  - destruct (Validator.GetPermissionType sv p);
      destruct (CheckPermission checker op d _) as [[|]|] eqn:E; cbn [negb];
      (split;
       [ try discriminate; intros _; right; exists checker; auto
       | intros [H | [c [Hc He]]];
         [discriminate | injection Hc as <-; congruence] ]).
  - split; auto.
Qed.

Lemma PreventSelfElevation_check_nil_iff (sv : SecurityValidator)
    (op tgt : string) (p : Permission) :
  Validator.PreventSelfElevation_check sv op tgt p = None
  <-> PreventSelfElevation (config sv) = false
      \/ op <> tgt
      \/ Validator.isManagementPermission sv p = false.
Proof.
  unfold Validator.PreventSelfElevation_check, neqb.
  destruct (PreventSelfElevation (config sv)); cbn [negb]; [| tauto].
  destruct (op =? tgt) eqn:E; cbn [negb].
  - apply String.eqb_eq in E.
    destruct (Validator.isManagementPermission sv p).
    + split; [discriminate |].
      intros [H | [H | H]]; [discriminate | contradiction | discriminate].
    + tauto.
  - apply String.eqb_neq in E. tauto.
Qed.

End ValidatorMore.

(** X1.  A grant, a revoke or a grant with domain passes validation
    exactly when all three guardrails pass: the self-elevation rule is
    off, or the operator is not the target, or the permission is not a
    management permission; the permission is not a system permission;
    and no permission checker is attached or the operator holds
    permission-write in the domain. *)
Theorem validation_passes_iff :
  forall (sv : SecurityValidator) (operatorKey targetKey domain : string)
         (permission : Permission),
    let passes :=
      (PreventSelfElevation (config sv) = false
       \/ operatorKey <> targetKey
       \/ Validator.isManagementPermission sv permission = false)
      /\ Validator.isSystemPermission sv permission = false
      /\ (permissionChecker sv = None
          \/ exists checker,
               permissionChecker sv = Some checker
               /\ CheckPermission checker operatorKey domain
                    (mkPermission ResourcePermission ActionWrite)
                  = Ok true) in
    (Validator.ValidatePermissionGrant sv operatorKey targetKey domain
                                       permission = None <-> passes)
    /\ (Validator.ValidatePermissionRevoke sv operatorKey targetKey domain
                                           permission = None <-> passes)
    /\ (Validator.ValidatePermissionGrantWithDomain sv operatorKey targetKey
                                                    domain permission = None
        <-> passes).
Proof.
  intros sv op tgt d p passes.
  assert (H : Validator.ValidatePermissionGrant sv op tgt d p = None
              <-> passes).
  { subst passes. unfold Validator.ValidatePermissionGrant.
    rewrite <- PreventSelfElevation_check_nil_iff,
            <- (validateOperatorPermission_nil_iff sv op d p).
    destruct (Validator.PreventSelfElevation_check sv op tgt p).
    - split; [discriminate | intros [H _]; discriminate H].
    - destruct (Validator.isSystemPermission sv p).
      + split; [discriminate | intros [_ [H _]]; discriminate H].
      + destruct (Validator.validateOperatorPermission sv op d p).
        * split; [discriminate | intros [_ [_ H]]; discriminate H].
        * tauto. }
  split; [exact H |]. split; exact H.
Qed.

(** X2.  [CanGrantPermission] does not look at the operator: it answers
    [false] exactly for the configured system permissions, and whenever
    it answers [false] no grant of the permission passes validation,
    for any operator, target and domain. *)
Theorem CanGrantPermission_false_iff :
  forall (sv : SecurityValidator) (operatorKey : string)
         (permission : Permission),
    (ValidatorOps.CanGrantPermission sv operatorKey permission = false
     <-> In permission (SystemPermissions (config sv)))
    /\ (ValidatorOps.CanGrantPermission sv operatorKey permission = false ->
        forall op target domain,
          Validator.ValidatePermissionGrant sv op target domain permission
          <> None).
Proof.
  intros sv op p.
  assert (H : ValidatorOps.CanGrantPermission sv op p = false
              <-> In p (SystemPermissions (config sv))).
  { rewrite <- isSystemPermission_In.
    unfold ValidatorOps.CanGrantPermission, Validator.GetPermissionType.
    destruct (Validator.isSystemPermission sv p);
      split; congruence. }
  split; [exact H |].
  intros Hc op' tgt d. apply H, isSystemPermission_In in Hc.
  unfold Validator.ValidatePermissionGrant.
  destruct (Validator.PreventSelfElevation_check sv op' tgt p);
    [discriminate |].
  rewrite Hc. discriminate.
Qed.

Lemma CanGrantPermission_false_iff_witness :
  ValidatorOps.CanGrantPermission (NewSecurityValidator DefaultSecurityConfig)
    "root" (mkPermission ResourceTenant ActionDelete) = false
  /\ Validator.ValidatePermissionGrant
       (NewSecurityValidator DefaultSecurityConfig) "root" "bob" "t1"
       (mkPermission ResourceTenant ActionDelete) <> None.
Proof.
  split; [reflexivity |].
  apply (proj2 (CanGrantPermission_false_iff
                  (NewSecurityValidator DefaultSecurityConfig) "root"
                  (mkPermission ResourceTenant ActionDelete))).
  reflexivity.
Defined.

Section ConfigMore.

Lemma Permission_IsValid_iff (p : Permission) :
  Permission_IsValid p = true <-> Resource_of p <> "" /\ Action_of p <> "".
Proof.
  unfold Permission_IsValid. rewrite andb_true_iff, !neqb_true_iff. tauto.
Qed.

Lemma ValidateSecurityConfig_loop_nil_iff (perms : list Permission) :
  ValidatorOps.ValidateSecurityConfig_loop perms = None
  <-> forall p, In p perms -> Permission_IsValid p = true.
Proof.
  induction perms as [|q perms IH]; simpl.
  - split; [intros _ p [] | reflexivity].
  - destruct (Permission_IsValid q) eqn:E; cbn [negb].
    + rewrite IH. split.
      * intros H p [<- | Hp]; auto.
      * intros H p Hp. apply H. auto.
    + split; [discriminate |]. intros H.
      rewrite (H q (or_introl eq_refl)) in E. discriminate.
Qed.

End ConfigMore.

(** X3.  [UpdateSecurityConfig] installs the new configuration exactly
    when every system permission in it has a non-empty resource and a
    non-empty action; the permission checker stays attached.  When one
    of them is malformed it returns an error and leaves the validator as
    it was. *)
Theorem UpdateSecurityConfig_validates :
  forall (sv : SecurityValidator) (c : SecurityConfig),
    (fst (ValidatorOps.UpdateSecurityConfig sv c) = None
     <-> forall p, In p (SystemPermissions c) ->
                   Resource_of p <> "" /\ Action_of p <> "")
    /\ (fst (ValidatorOps.UpdateSecurityConfig sv c) = None ->
        config (snd (ValidatorOps.UpdateSecurityConfig sv c)) = c
        /\ permissionChecker (snd (ValidatorOps.UpdateSecurityConfig sv c))
           = permissionChecker sv)
    /\ (fst (ValidatorOps.UpdateSecurityConfig sv c) <> None ->
        snd (ValidatorOps.UpdateSecurityConfig sv c) = sv).
Proof.
  intros sv c. unfold ValidatorOps.UpdateSecurityConfig,
    ValidatorOps.ValidateSecurityConfig.
  destruct (ValidatorOps.ValidateSecurityConfig_loop (SystemPermissions c))
    eqn:E; cbn [fst snd config permissionChecker].
  - split; [| split; [discriminate | reflexivity]].
    split; [discriminate |]. intros H.
    assert (Hn : ValidatorOps.ValidateSecurityConfig_loop
                   (SystemPermissions c) = None).
    { apply ValidateSecurityConfig_loop_nil_iff. intros p Hp.
      apply Permission_IsValid_iff. auto. }
    congruence.
  - split; [| split; [auto | congruence]].
    split; [| reflexivity]. intros _ p Hp.
    apply Permission_IsValid_iff.
    exact (proj1 (ValidateSecurityConfig_loop_nil_iff _) E p Hp).
Qed.

Lemma UpdateSecurityConfig_validates_witness :
  config (snd (ValidatorOps.UpdateSecurityConfig
                 (NewSecurityValidator DefaultSecurityConfig) relaxedConfig))
  = relaxedConfig
  /\ snd (ValidatorOps.UpdateSecurityConfig
            (NewSecurityValidator DefaultSecurityConfig)
            (mkSecurityConfig true [mkPermission "tenant" ""]))
     = NewSecurityValidator DefaultSecurityConfig.
Proof.
  split.
  - apply (proj1 (proj2 (UpdateSecurityConfig_validates
                           (NewSecurityValidator DefaultSecurityConfig)
                           relaxedConfig))).
    reflexivity.
  - apply (proj2 (proj2 (UpdateSecurityConfig_validates
                           (NewSecurityValidator DefaultSecurityConfig)
                           (mkSecurityConfig true
                              [mkPermission "tenant" ""])))).
    discriminate.
Defined.

(* ================================================================== *)
(** * Further properties of the constants *)



(** X5.  [HasManagePermission] answers [true] exactly when the check
    function answers [true] for read, write and delete on the resource.
    It stops at the first action that is refused: the answer is then
    [false], whatever the later checks would return, an error
    included. *)
Theorem HasManagePermission_all_three :
  forall (checkFunc : Resource -> Action -> result bool)
         (resource : Resource),
    (HasManagePermission checkFunc resource = Ok true
     <-> checkFunc resource ActionRead = Ok true
         /\ checkFunc resource ActionWrite = Ok true
         /\ checkFunc resource ActionDelete = Ok true)
    /\ (checkFunc resource ActionRead = Ok false ->
        HasManagePermission checkFunc resource = Ok false)
    /\ (checkFunc resource ActionRead = Ok true ->
        checkFunc resource ActionWrite = Ok false ->
        HasManagePermission checkFunc resource = Ok false)
    /\ (forall err, checkFunc resource ActionRead = Err err ->
                    HasManagePermission checkFunc resource = Err err).
Proof.
  intros f r. unfold HasManagePermission, AllActions.
  cbn [HasManagePermission_loop].
  destruct (f r ActionRead) as [[|]|e1]; cbn [bind negb].
  - destruct (f r ActionWrite) as [[|]|e2]; cbn [bind negb].
    + destruct (f r ActionDelete) as [[|]|e3]; cbn [bind negb].
      * repeat split; auto; try discriminate.
      * repeat split; try discriminate; intros [_ [_ H]]; discriminate H.
      * repeat split; try discriminate; intros [_ [_ H]]; discriminate H.
    + repeat split; try discriminate; intros [_ [H _]]; discriminate H.
    + repeat split; try discriminate; intros [_ [H _]]; discriminate H.
  - repeat split; try discriminate; intros [H _]; discriminate H.
  - repeat split; try discriminate.
    + intros [H _]; discriminate H.
    + intros err H. exact H.
Qed.

Lemma HasManagePermission_all_three_witness :
  HasManagePermission
    (fun _ action => if action =? "read" then Ok false
                     else Err (Errorf "store unreachable"))
    ResourceUser = Ok false.
Proof.
  apply (proj1 (proj2 (HasManagePermission_all_three
                         (fun _ action => if action =? "read" then Ok false
                                          else Err (Errorf "store unreachable"))
                         ResourceUser))).
  reflexivity.
Defined.

(* ================================================================== *)
(** * The permission list of a role entity *)

Section RoleEntityFacts.

Lemma hasPermission_loop_In (perms : list Permission) (res : Resource)
    (act : Action) :
  RoleEntity.hasPermission_loop perms res act = true
  <-> In (mkPermission res act) perms.
Proof.
  induction perms as [|q perms IH]; simpl.
  - split; [discriminate | tauto].
  - destruct ((Resource_of q =? res) && (Action_of q =? act)) eqn:E.
    + apply andb_true_iff in E. rewrite !String.eqb_eq in E.
      destruct E as [<- <-]. split; [intros _ | reflexivity].
      left. destruct q; reflexivity.
    + rewrite IH. split; [tauto |]. intros [-> | H]; [| exact H].
      simpl in E. rewrite !String.eqb_refl in E. discriminate.
Qed.

Lemma removeFirst_absent (perms : list Permission) (res : Resource)
    (act : Action) :
  ~ In (mkPermission res act) perms ->
  RoleEntity.removeFirst perms res act = perms.
Proof.
  induction perms as [|q perms IH]; simpl; [reflexivity |].
  intros Hn.
  destruct ((Resource_of q =? res) && (Action_of q =? act)) eqn:E.
  - apply andb_true_iff in E. rewrite !String.eqb_eq in E.
    destruct E as [<- <-]. exfalso. apply Hn. left.
    destruct q; reflexivity.
  - rewrite IH; [reflexivity | tauto].
Qed.

Lemma removeFirst_app_last (perms : list Permission) (p : Permission) :
  ~ In p perms ->
  RoleEntity.removeFirst (perms ++ [p]) (Resource_of p) (Action_of p) = perms.
Proof.
  induction perms as [|q perms IH]; simpl.
  - intros _. rewrite !String.eqb_refl. reflexivity.
  - intros Hn.
    destruct ((Resource_of q =? Resource_of p)
              && (Action_of q =? Action_of p)) eqn:E.
    + apply andb_true_iff in E. rewrite !String.eqb_eq in E.
      exfalso. apply Hn. left. destruct p, q; simpl in *.
      destruct E as [-> ->]. reflexivity.
    + rewrite IH; [reflexivity | tauto].
Qed.

Lemma In_removeFirst (perms : list Permission) (res : Resource)
    (act : Action) (q : Permission) :
  In q (RoleEntity.removeFirst perms res act) -> In q perms.
Proof.
  induction perms as [|x perms IH]; simpl; [tauto |].
  destruct ((Resource_of x =? res) && (Action_of x =? act)); simpl; tauto.
Qed.

Lemma removeFirst_NoDup (perms : list Permission) (res : Resource)
    (act : Action) :
  NoDup perms ->
  NoDup (RoleEntity.removeFirst perms res act)
  /\ ~ In (mkPermission res act) (RoleEntity.removeFirst perms res act).
Proof.
  induction perms as [|q perms IH]; simpl.
  - intros _. split; [constructor | tauto].
  - intros Hnd. inversion Hnd as [|? ? Hq Hnd']; subst.
    destruct ((Resource_of q =? res) && (Action_of q =? act)) eqn:E.
    + apply andb_true_iff in E. rewrite !String.eqb_eq in E.
      destruct E as [<- <-]. split; [exact Hnd' |].
      replace (mkPermission (Resource_of q) (Action_of q)) with q
        by (destruct q; reflexivity).
      exact Hq.
    + destruct (IH Hnd') as [IH1 IH2]. split.
      * constructor; [| exact IH1].
        intros H. apply Hq. exact (In_removeFirst _ _ _ _ H).
      * simpl. intros [-> | H]; [| tauto].
        simpl in E. rewrite !String.eqb_refl in E. discriminate.
Qed.

End RoleEntityFacts.

(** X6.  On the permission list of a role, [AddPermission] makes
    [HasPermission] true, adds nothing when the permission is already
    there (so adding twice is adding once) and keeps a list without
    duplicates free of duplicates; [RemovePermission] undoes an
    [AddPermission] of a permission the role did not have, and on a list
    without duplicates it leaves [HasPermission] false. *)
Theorem Role_AddPermission_RemovePermission :
  forall (r : Role) (p : Permission),
    RoleEntity.HasPermission (RoleEntity.AddPermission r p)
                             (Resource_of p) (Action_of p) = true
    /\ RoleEntity.AddPermission (RoleEntity.AddPermission r p) p
       = RoleEntity.AddPermission r p
    /\ (NoDup (Permissions r) ->
        NoDup (Permissions (RoleEntity.AddPermission r p)))
    /\ (RoleEntity.HasPermission r (Resource_of p) (Action_of p) = false ->
        RoleEntity.RemovePermission (RoleEntity.AddPermission r p)
                                    (Resource_of p) (Action_of p) = r)
    /\ (NoDup (Permissions r) ->
        RoleEntity.HasPermission
          (RoleEntity.RemovePermission r (Resource_of p) (Action_of p))
          (Resource_of p) (Action_of p) = false).
Proof.
  intros r p.
  assert (Hp : mkPermission (Resource_of p) (Action_of p) = p)
    by (destruct p; reflexivity).
  assert (Hhas : RoleEntity.HasPermission (RoleEntity.AddPermission r p)
                   (Resource_of p) (Action_of p) = true).
  { unfold RoleEntity.AddPermission, RoleEntity.HasPermission.
    destruct (RoleEntity.hasPermission_loop (Permissions r) _ _) eqn:E;
      cbn [negb]; [exact E |].
    cbn [RoleEntity.setPermissions Permissions].
    apply hasPermission_loop_In. rewrite Hp, in_app_iff. simpl. auto. }
  split; [exact Hhas |]. split; [| split; [| split]].
  - unfold RoleEntity.AddPermission at 1. rewrite Hhas. reflexivity.
  - intros Hnd. unfold RoleEntity.AddPermission, RoleEntity.HasPermission.
    destruct (RoleEntity.hasPermission_loop (Permissions r) _ _) eqn:E;
      cbn [negb]; [exact Hnd |].
    cbn [RoleEntity.setPermissions Permissions].
    assert (Hn : ~ In p (Permissions r)).
    { intros H. rewrite <- Hp in H. apply hasPermission_loop_In in H.
      congruence. }
    apply NoDup_app; [exact Hnd | repeat constructor; simpl; tauto |].
    intros x Hx [<- | []]. contradiction.
  - intros E. unfold RoleEntity.AddPermission. rewrite E. cbn [negb].
    unfold RoleEntity.RemovePermission.
    cbn [RoleEntity.setPermissions Permissions Key Name Description
         RTenantKey].
    unfold RoleEntity.HasPermission in E.
    assert (Hn : ~ In p (Permissions r)).
    { intros H. rewrite <- Hp in H. apply hasPermission_loop_In in H.
      congruence. }
    rewrite (removeFirst_app_last _ _ Hn). destruct r; reflexivity.
  - intros Hnd. unfold RoleEntity.RemovePermission, RoleEntity.HasPermission.
    cbn [RoleEntity.setPermissions Permissions].
    destruct (RoleEntity.hasPermission_loop _ _ _) eqn:E; [| reflexivity].
    apply hasPermission_loop_In in E.
    destruct (removeFirst_NoDup _ (Resource_of p) (Action_of p) Hnd)
      as [_ Hn].
    contradiction.
Qed.

Lemma Role_AddPermission_RemovePermission_witness :
  RoleEntity.RemovePermission
    (RoleEntity.AddPermission
       (mkRole "editor" "Editor" "" [mkPermission "document" "read"] "t1")
       (mkPermission "document" "write"))
    "document" "write"
  = mkRole "editor" "Editor" "" [mkPermission "document" "read"] "t1".
Proof.
  apply (proj1 (proj2 (proj2 (proj2
           (Role_AddPermission_RemovePermission
              (mkRole "editor" "Editor" "" [mkPermission "document" "read"]
                      "t1")
              (mkPermission "document" "write")))))).
  reflexivity.
Defined.

(* ================================================================== *)
(** * Further properties of the resolver *)

Section ResolverMore.

Lemma GetPolicies_Ok_iff (e : casbin.Enforcer) (s d : string) :
  (exists policies, Enforcer.GetPolicies e s d = Ok policies)
  <-> storeParses e.
Proof.
  unfold Enforcer.GetPolicies, casbin.GetPolicy, storeParses. split.
  - intros [ps H]. apply GetPolicies_loop_Ok in H. tauto.
  - intros H. eexists. apply GetPolicies_loop_Ok. split; [exact H |].
    reflexivity.
Qed.

Lemma matchesFilter_fieldMatch (s d : string) (row : list string) :
  matchesFilter s d row
  = isTuple row
    && (casbin.fieldMatch s (idx row 0) && casbin.fieldMatch d (idx row 1)).
Proof. reflexivity. Qed.

End ResolverMore.

(** X7.  [GetPolicies] reads every tuple of the store before it filters:
    it succeeds exactly when the action of every stored tuple parses,
    whatever the subject and domain asked for.  One malformed tuple of
    any subject therefore fails [GetPolicies], [HasDirectPermission] and
    [ClearPolicies] for every subject, while [GetDirectPermissions]
    still answers for a subject whose own tuples parse. *)
Theorem GetPolicies_needs_whole_store :
  forall (e : casbin.Enforcer),
    (forall s d,
       (exists policies, Enforcer.GetPolicies e s d = Ok policies)
       <-> storeParses e)
    /\ (~ storeParses e ->
        forall s d p,
          (exists err, Enforcer.GetPolicies e s d = Err err)
          /\ (exists err, EnforcerOps.HasDirectPermission e s d p = Err err)
          /\ (exists err, Enforcer.ClearPolicies e s = (Some err, e)))
    /\ (forall u d,
          Forall tupleParses (directRows e u d) ->
          exists perms, Enforcer.GetDirectPermissions e u d = Ok perms).
Proof.
  intros e. split; [intros s d; apply GetPolicies_Ok_iff |]. split.
  - intros Hn s d p.
    assert (H : forall s' d', exists err,
                  Enforcer.GetPolicies e s' d' = Err err).
    { intros s' d'. destruct (Enforcer.GetPolicies e s' d') as [ps|err] eqn:E;
        [| eauto].
      exfalso. apply Hn. apply (GetPolicies_Ok_iff e s' d'). eauto. }
    split; [apply H |]. split.
    + unfold EnforcerOps.HasDirectPermission.
      destruct (H s d) as [err ->]. eexists. reflexivity.
    + unfold Enforcer.ClearPolicies.
      destruct (H s "") as [err ->]. eexists. reflexivity.
  - intros u d Hf. eexists. apply GetDirectPermissions_loop_Ok.
    split; [exact Hf | reflexivity].
Qed.

(** A store where a tuple of [mallory] carries an action that does not
    parse. *)
Lemma GetPolicies_needs_whole_store_witness :
  (exists err,
     Enforcer.GetPolicies
       (casbin.mkEnforcer [ ["alice"; "t1"; "document"; "read"];
                            ["mallory"; "t2"; "document"; "execute"] ] [])
       "alice" "t1" = Err err)
  /\ (exists perms,
        Enforcer.GetDirectPermissions
          (casbin.mkEnforcer [ ["alice"; "t1"; "document"; "read"];
                               ["mallory"; "t2"; "document"; "execute"] ] [])
          "alice" "t1" = Ok perms).
Proof.
  split.
  - apply (proj1 (proj2 (GetPolicies_needs_whole_store
                           (casbin.mkEnforcer
                              [ ["alice"; "t1"; "document"; "read"];
                                ["mallory"; "t2"; "document"; "execute"] ]
                              []))));
      [| exact PlaceholderPermission].
    intros H. unfold storeParses in H. simpl in H.
    inversion H as [|? ? _ H1]; subst.
    inversion H1 as [|? ? H2 _]; subst.
    discriminate (H2 eq_refl).
  - apply (proj2 (proj2 (GetPolicies_needs_whole_store
                           (casbin.mkEnforcer
                              [ ["alice"; "t1"; "document"; "read"];
                                ["mallory"; "t2"; "document"; "execute"] ]
                              [])))).
    repeat constructor.
Defined.

(** X8.  The effective permissions of a subject in a tenant come only
    from tuples of that tenant and of the global domain: every
    permission that [GetImplicitPermissions] returns for a non-empty
    tenant is carried by a stored tuple whose domain is the tenant or
    "*".  When the store has no such tuple the result is empty and
    [CheckPermission] answers [false], whatever roles the subject
    holds. *)
Theorem effective_permissions_tenant_isolation :
  forall (e : casbin.Enforcer) (subject tenant : string),
    tenant <> "" ->
    (forall perms p,
       Enforcer.GetImplicitPermissions e subject tenant = Ok perms ->
       In p perms ->
       exists row,
         In row (casbin.policy e) /\ (4 <= length row)%nat
         /\ (idx row 1 = tenant \/ idx row 1 = "*")
         /\ p = rowPermission row)
    /\ ((forall row, In row (casbin.policy e) ->
                     idx row 1 <> tenant /\ idx row 1 <> "*") ->
        Enforcer.GetImplicitPermissions e subject tenant = Ok []
        /\ forall p, Enforcer.CheckPermission e subject tenant p = Ok false).
Proof.
  intros e u t Ht.
  assert (Hrows : forall row,
            In row (Enforcer.implicitPolicies e u t) ->
            In row (casbin.policy e)
            /\ (idx row 1 = t \/ idx row 1 = "*")).
  { intros row H. split; [exact (implicitPolicies_incl e u t row H) |].
    unfold Enforcer.implicitPolicies in H. apply in_app_iff in H.
    assert (Hm : forall s dom r,
              dom <> "" -> In r (casbin.GetPermissionsForUser e s dom) ->
              idx r 1 = dom).
    { intros s dom r Hd Hr. apply filter_In in Hr. destruct Hr as [_ Hr].
      apply andb_true_iff in Hr. destruct Hr as [_ Hr].
      unfold casbin.fieldMatch in Hr. apply String.eqb_neq in Hd.
      rewrite Hd in Hr. simpl in Hr. apply String.eqb_eq. exact Hr. }
    destruct H as [H | H].
    - left. exact (Hm _ _ _ Ht H).
    - apply in_flat_map in H. destruct H as [role [_ H]].
      apply in_flat_map in H. destruct H as [dom [Hdom H]].
      simpl in Hdom. destruct Hdom as [<- | Hdom].
      + right. apply (Hm role "*" row); [discriminate | exact H].
      + destruct (neqb t "*"); simpl in Hdom; [| contradiction].
        destruct Hdom as [<- | []]. left. exact (Hm _ _ _ Ht H). }
  split.
  - intros perms p H Hp. apply toPermissions_Ok in H. destruct H as [_ ->].
    apply In_rowsPermissions in Hp. destruct Hp as [row [Hin [Htu Hp]]].
    destruct (Hrows row Hin) as [H1 H2]. exists row.
    split; [exact H1 |]. split; [| split; [exact H2 | exact Hp]].
    unfold isTuple in Htu. apply Nat.leb_le. exact Htu.
  - intros Hnone.
    assert (Hnil : Enforcer.implicitPolicies e u t = []).
    { destruct (Enforcer.implicitPolicies e u t) as [|row rest] eqn:E;
        [reflexivity |].
      exfalso. destruct (Hrows row) as [H1 H2];
        [try rewrite E; left; reflexivity |].
      destruct (Hnone row H1) as [Ha Hb]. destruct H2; contradiction. }
    assert (Hg : Enforcer.GetImplicitPermissions e u t = Ok []).
    { unfold Enforcer.GetImplicitPermissions. rewrite Hnil. reflexivity. }
    split; [exact Hg |]. intros p. unfold Enforcer.CheckPermission.
    rewrite Hg. reflexivity.
Qed.

Lemma effective_permissions_tenant_isolation_witness :
  Enforcer.GetImplicitPermissions
    (casbin.mkEnforcer [ ["carol"; "t1"; "document"; "read"];
                         ["editor"; "t1"; "document"; "write"] ]
                       [ ["carol"; "editor"; "t1"];
                         ["carol"; "editor"; "t2"] ])
    "carol" "t2" = Ok [].
Proof.
  apply (proj2 (effective_permissions_tenant_isolation
                  (casbin.mkEnforcer
                     [ ["carol"; "t1"; "document"; "read"];
                       ["editor"; "t1"; "document"; "write"] ]
                     [ ["carol"; "editor"; "t1"];
                       ["carol"; "editor"; "t2"] ])
                  "carol" "t2" ltac:(discriminate))).
  intros row H. simpl in H.
  destruct H as [<- | [<- | []]]; split; discriminate.
Defined.

(** X9.  A direct permission is an effective permission: whenever
    [HasDirectPermission] answers [true], [CheckPermission] answers
    [true] for the same subject, domain and permission. *)
Theorem HasDirectPermission_implies_CheckPermission :
  forall (e : casbin.Enforcer) (subject domain : string) (p : Permission),
    EnforcerOps.HasDirectPermission e subject domain p = Ok true ->
    Enforcer.CheckPermission e subject domain p = Ok true.
Proof.
  intros e s d p H. unfold EnforcerOps.HasDirectPermission in H.
  destruct (Enforcer.GetPolicies e s d) as [ps|err] eqn:E; [| discriminate].
  cbn [bind] in H. injection H as H.
  unfold Enforcer.GetPolicies, casbin.GetPolicy in E.
  apply GetPolicies_loop_Ok in E. destruct E as [Hs ->].
  apply existsb_exists in H. destruct H as [pol [Hin Hm]].
  apply in_map_iff in Hin. destruct Hin as [row [<- Hrow]].
  apply filter_In in Hrow. destruct Hrow as [Hrow Hf].
  rewrite matchesFilter_fieldMatch in Hf. apply andb_true_iff in Hf.
  destruct Hf as [Ht Hf]. cbn [rowPolicy PResource PAction] in Hm.
  apply andb_true_iff in Hm. rewrite !String.eqb_eq in Hm.
  apply holds_iff. eexists.
  split; [apply GetImplicitPermissions_Ok; exact Hs |].
  apply In_implicitPolicies. left. apply In_rowsPermissions.
  exists row. split; [| split; [exact Ht |]].
  - apply filter_In. auto.
  - destruct p; simpl in *. destruct Hm as [<- <-]. reflexivity.
Qed.

Lemma HasDirectPermission_implies_CheckPermission_witness :
  Enforcer.CheckPermission (enforcer world_sys) "boss" "t1"
    (mkPermission ResourceUser ActionWrite) = Ok true.
Proof.
  apply HasDirectPermission_implies_CheckPermission. reflexivity.
Defined.

(** X10.  A role held in the global domain gives its global permissions
    in every tenant: when every stored tuple parses, a subject that
    holds a role in "*" holds, in each domain, every permission the role
    has in "*". *)
Theorem global_role_reaches_every_tenant :
  forall (e : casbin.Enforcer) (subject role : string) (p : Permission),
    storeParses e ->
    In role (RolesOf e subject "*") ->
    In p (PermissionsOf e role "*") ->
    forall tenant, Enforcer.CheckPermission e subject tenant p = Ok true.
Proof.
  intros e u r p Hs Hr Hp t. apply holds_iff. eexists.
  split; [apply GetImplicitPermissions_Ok; exact Hs |].
  apply In_implicitPolicies. right. exists r. split; [| tauto].
  unfold consultedRole. destruct (string_dec t "*") as [-> | Hn]; tauto.
Qed.

Lemma global_role_reaches_every_tenant_witness :
  Enforcer.CheckPermission (enforcer world_tenants) "dave" "t2"
    (mkPermission ResourceUser ActionRead) = Ok true.
Proof.
  apply (global_role_reaches_every_tenant (enforcer world_tenants)
           "dave" "ops" (mkPermission ResourceUser ActionRead)).
  - unfold storeParses. simpl. repeat constructor.
  - simpl. auto.
  - simpl. auto.
Defined.

(* ================================================================== *)
(** * Further properties of the user manager *)

Section UserFacts.

Lemma uniqueRoles_loop_NoDup (allRoles roleMap : list string) :
  NoDup (Enforcer.uniqueRoles_loop allRoles roleMap).
Proof.
  revert roleMap. induction allRoles as [|role rest IH]; intros roleMap.
  - constructor.
  - cbn [Enforcer.uniqueRoles_loop].
    destruct (existsb (String.eqb role) roleMap); cbn [negb]; [apply IH |].
    constructor; [| apply IH].
    intros H. apply uniqueRoles_loop_In in H. destruct H as [_ H].
    apply H. left. reflexivity.
Qed.

Lemma count_pos_iff {A : Type} (f : A -> bool) (l : list A) :
  (0 <? length (filter f l))%nat = true <-> exists x, In x l /\ f x = true.
Proof.
  rewrite length_pos_nonempty. split.
  - intros H. destruct (filter f l) as [|x rest] eqn:E; [contradiction |].
    exists x. apply filter_In. rewrite E. left. reflexivity.
  - intros [x Hx] Hnil. apply filter_In in Hx. rewrite Hnil in Hx.
    contradiction.
Qed.

Lemma isRoleExistsInDB_iff (w : World) (key : string) :
  userManager.isRoleExistsInDB w key = Ok true <-> inRoleTable w key.
Proof.
  unfold userManager.isRoleExistsInDB, inRoleTable. split.
  - intros H. injection H as H. apply count_pos_iff in H.
    destruct H as [md [H1 H2]]. apply String.eqb_eq in H2. eauto.
  - intros [md [H1 H2]]. f_equal. apply count_pos_iff. exists md.
    split; [exact H1 | apply String.eqb_eq; exact H2].
Qed.

Lemma In_GetGroupingPolicies (e : casbin.Enforcer) (gp : GroupingPolicy) :
  In gp (flat_map
           (fun policy =>
              if (3 <=? length policy)%nat
              then [mkGroupingPolicy (idx policy 0) (idx policy 1)
                                     (idx policy 2)]
              else [])
           (casbin.GetGroupingPolicy e))
  <-> exists g, In g (casbin.grouping e) /\ (3 <= length g)%nat
                /\ gp = mkGroupingPolicy (idx g 0) (idx g 1) (idx g 2).
Proof.
  rewrite in_flat_map. unfold casbin.GetGroupingPolicy. split.
  - intros [g [Hg H]]. destruct (3 <=? length g)%nat eqn:E; [| contradiction].
    destruct H as [<- | []]. apply Nat.leb_le in E. eauto.
  - intros [g [Hg [Hl ->]]]. exists g. split; [exact Hg |].
    apply Nat.leb_le in Hl. rewrite Hl. left. reflexivity.
Qed.

Lemma IsRoleInUse_iff (e : casbin.Enforcer) (key : string) :
  Enforcer.IsRoleInUse e key = Ok true <-> usedAsRole e key.
Proof.
  unfold Enforcer.IsRoleInUse, Enforcer.GetGroupingPolicies, usedAsRole.
  cbn [bind]. split.
  - intros H. injection H as H. apply existsb_exists in H.
    destruct H as [gp [Hgp Hk]]. apply In_GetGroupingPolicies in Hgp.
    destruct Hgp as [g [Hg [Hl ->]]]. apply String.eqb_eq in Hk. eauto.
  - intros [g [Hg [Hl Hk]]]. f_equal. apply existsb_exists.
    exists (mkGroupingPolicy (idx g 0) (idx g 1) (idx g 2)). split.
    + apply In_GetGroupingPolicies. eauto.
    + apply String.eqb_eq. exact Hk.
Qed.

Lemma validateNotRole_nil_iff (w : World) (subject : string) :
  userManager.validateNotRole w subject = None
  <-> ~ inRoleTable w subject /\ ~ usedAsRole (enforcer w) subject.
Proof.
  rewrite <- isRoleExistsInDB_iff, <- IsRoleInUse_iff.
  unfold userManager.validateNotRole.
  destruct (userManager.isRoleExistsInDB w subject) as [[|]|] eqn:E1.
  - split; [discriminate | intros [H _]; exfalso; apply H; reflexivity].
  - destruct (Enforcer.IsRoleInUse (enforcer w) subject) as [[|]|] eqn:E2.
    + split; [discriminate | intros [_ H]; exfalso; apply H; reflexivity].
    + split; [intros _; split; discriminate | reflexivity].
    + unfold Enforcer.IsRoleInUse, Enforcer.GetGroupingPolicies in E2.
      discriminate.
  - unfold userManager.isRoleExistsInDB in E1. discriminate.
Qed.

Lemma validateNotRole_same (w w' : World) (subject : string) :
  roles w' = roles w ->
  casbin.grouping (enforcer w') = casbin.grouping (enforcer w) ->
  userManager.validateNotRole w' subject
  = userManager.validateNotRole w subject.
Proof.
  intros Hr Hg. unfold userManager.validateNotRole,
    userManager.isRoleExistsInDB, Enforcer.IsRoleInUse,
    Enforcer.GetGroupingPolicies, casbin.GetGroupingPolicy.
  rewrite Hr, Hg. reflexivity.
Qed.

Lemma removeRule_addRule (rules : list (list string)) (rule : list string) :
  ~ In rule rules ->
  casbin.removeRule (casbin.addRule rules rule) rule = rules.
Proof.
  intros Hn. unfold casbin.addRule.
  destruct (existsb (casbin.row_eqb rule) rules) eqn:E.
  - apply existsb_exists in E. destruct E as [r [Hr He]].
    apply row_eqb_eq in He. subst. contradiction.
  - unfold casbin.removeRule. rewrite filter_app. simpl.
    rewrite (proj2 (row_eqb_eq rule rule) eq_refl). simpl.
    rewrite app_nil_r. apply forallb_filter_id.
    apply forallb_forall. intros r Hr. apply negb_true_iff.
    destruct (casbin.row_eqb r rule) eqn:Er; [| reflexivity].
    apply row_eqb_eq in Er. subst. contradiction.
Qed.

Lemma addRule_present (rules : list (list string)) (rule : list string) :
  In rule rules -> casbin.addRule rules rule = rules.
Proof.
  intros H. unfold casbin.addRule.
  assert (E : existsb (casbin.row_eqb rule) rules = true).
  { apply existsb_exists. exists rule. split; [exact H |].
    apply row_eqb_eq. reflexivity. }
  rewrite E. reflexivity.
Qed.

Lemma user_GetDirectPermissions_hides_roles_aux (w : World)
    (s t : string) :
  s <> "" -> userManager.validateNotRole w s <> None ->
  userOps.GetDirectPermissions w s t = Ok [].
Proof.
  intros Hs Hn. apply String.eqb_neq in Hs.
  unfold userOps.GetDirectPermissions. rewrite Hs.
  destruct (userManager.validateNotRole w s); [reflexivity | contradiction].
Qed.

End UserFacts.

(** X11.  [GetUserRoles] refuses an empty user key.  Otherwise it
    returns, without duplicates, exactly the roles the user holds in the
    tenant or in the global domain. *)
Theorem GetUserRoles_merges_tenant_and_global :
  forall (w : World) (userKey tenantKey : string),
    (userKey = "" ->
     userOps.GetUserRoles w userKey tenantKey = Err ErrInvalidParameter)
    /\ (userKey <> "" ->
        exists roles,
          userOps.GetUserRoles w userKey tenantKey = Ok roles
          /\ NoDup roles
          /\ forall r, In r roles
                       <-> In r (RolesOf (enforcer w) userKey tenantKey)
                           \/ In r (RolesOf (enforcer w) userKey "*")).
Proof.
  intros w u t. unfold userOps.GetUserRoles. split.
  - intros ->. reflexivity.
  - intros Hu. apply String.eqb_neq in Hu. rewrite Hu.
    unfold Enforcer.GetRolesForUser. eexists. split; [reflexivity |].
    split; [apply uniqueRoles_loop_NoDup |].
    intros r. rewrite uniqueRoles_loop_In, in_app_iff. unfold RolesOf.
    simpl. tauto.
Qed.

Lemma GetUserRoles_merges_tenant_and_global_witness :
  exists roles,
    userOps.GetUserRoles world_sys "carol" "t1" = Ok roles /\ NoDup roles.
Proof.
  destruct (proj2 (GetUserRoles_merges_tenant_and_global world_sys "carol"
                     "t1") ltac:(discriminate)) as [roles [H1 [H2 _]]].
  exists roles. auto.
Defined.

(** X12.  Through the user manager a role has no direct permissions:
    for a subject that is a row of the role table, or the role of some
    grouping rule, [GetDirectPermissions] returns the empty list and no
    error, whatever tuples the subject has; for any other non-empty
    subject it returns what the enforcer returns. *)
Theorem user_GetDirectPermissions_hides_roles :
  forall (w : World) (subject tenantKey : string),
    subject <> "" ->
    (inRoleTable w subject \/ usedAsRole (enforcer w) subject ->
     userOps.GetDirectPermissions w subject tenantKey = Ok [])
    /\ (~ inRoleTable w subject -> ~ usedAsRole (enforcer w) subject ->
        userOps.GetDirectPermissions w subject tenantKey
        = Enforcer.GetDirectPermissions (enforcer w) subject tenantKey).
Proof.
  intros w s t Hs. apply String.eqb_neq in Hs.
  unfold userOps.GetDirectPermissions. rewrite Hs. split.
  - intros H.
    destruct (userManager.validateNotRole w s) eqn:E; [reflexivity |].
    apply validateNotRole_nil_iff in E. tauto.
  - intros H1 H2.
    rewrite (proj2 (validateNotRole_nil_iff w s) (conj H1 H2)). reflexivity.
Qed.

Lemma user_GetDirectPermissions_hides_roles_witness :
  userOps.GetDirectPermissions world_sys "viewer" "t1" = Ok []
  /\ Enforcer.GetDirectPermissions (enforcer world_sys) "viewer" "t1"
     = Ok [mkPermission "document" "read"].
Proof.
  split; [| reflexivity].
  apply (proj1 (user_GetDirectPermissions_hides_roles world_sys "viewer" "t1"
                  ltac:(discriminate))).
  left. exists (mkRoleMetadata "viewer" "Viewer" None "t1"). simpl. auto.
Defined.

(** X13.  In the user manager a successful [GrantPermission] stores the
    tuple, granting it again changes nothing, and when the tuple was not
    stored before, [RevokePermission] of the same permission succeeds
    and gives back the state before the grant. *)
Theorem user_Grant_Revoke_round_trip :
  forall (w w1 : World) (operatorKey userKey tenantKey : string)
         (p : Permission),
    userManager.GrantPermission w operatorKey userKey tenantKey p
    = (None, w1) ->
    In (permissionRule userKey tenantKey p) (casbin.policy (enforcer w1))
    /\ userManager.GrantPermission w1 operatorKey userKey tenantKey p
       = (None, w1)
    /\ (~ In (permissionRule userKey tenantKey p)
             (casbin.policy (enforcer w)) ->
        userManager.RevokePermission w1 operatorKey userKey tenantKey p
        = (None, w)).
Proof.
  intros w w1 op u t p H. unfold userManager.GrantPermission in H.
  destruct (userManager.validateParams u p) eqn:Ep; [discriminate |].
  destruct (userManager.validateNotRole w u) eqn:En; [discriminate |].
  injection H as <-.
  assert (Hn1 : userManager.validateNotRole
                  (setEnforcer w (Enforcer.AddPolicy (enforcer w) u t p)) u
                = None).
  { rewrite (validateNotRole_same w); [exact En | reflexivity | reflexivity]. }
  assert (Hin : In (permissionRule u t p)
                   (casbin.policy
                      (enforcer (setEnforcer w
                                   (Enforcer.AddPolicy (enforcer w) u t p))))).
  { cbn. apply In_addRule. right. reflexivity. }
  split; [exact Hin |]. split.
  - unfold userManager.GrantPermission. rewrite Ep, Hn1.
    unfold setEnforcer, Enforcer.AddPolicy, casbin.AddPolicy.
    cbn [enforcer roles casbin.policy casbin.grouping].
    fold (permissionRule u t p).
    rewrite (addRule_present (casbin.addRule _ _));
      [reflexivity | apply In_addRule; right; reflexivity].
  - intros Hnew. unfold userManager.RevokePermission. rewrite Ep, Hn1.
    destruct w as [[pol grp] rs].
    unfold setEnforcer, Enforcer.RemovePolicy, Enforcer.AddPolicy,
      casbin.RemovePolicy, casbin.AddPolicy.
    cbn [enforcer roles casbin.policy casbin.grouping].
    fold (permissionRule u t p).
    rewrite removeRule_addRule by exact Hnew. reflexivity.
Qed.

Lemma user_Grant_Revoke_round_trip_witness :
  userManager.RevokePermission
    (snd (userManager.GrantPermission world_sys "boss" "erin" "t1"
            (mkPermission "document" "read")))
    "boss" "erin" "t1" (mkPermission "document" "read")
  = (None, world_sys).
Proof.
  apply (proj2 (proj2 (user_Grant_Revoke_round_trip world_sys _ "boss" "erin"
                         "t1" (mkPermission "document" "read")
                         ltac:(vm_compute; reflexivity)))).
  simpl. intros H. repeat destruct H as [H | H]; try discriminate H.
  contradiction.
Defined.

Section AssignFacts.

Lemma AssignRole_user_inv (w w1 : World) (op u r t : string) :
  userManager.AssignRole w op u r t = (None, w1) ->
  u <> "" /\ r <> ""
  /\ userManager.validateNotRole w u = None
  /\ userManager.validateRoleExists w r = None
  /\ w1 = setEnforcer w (Enforcer.AddGroupingPolicy (enforcer w) u r t).
Proof.
  unfold userManager.AssignRole.
  destruct (u =? "") eqn:Eu; [discriminate |].
  destruct (r =? "") eqn:Er; [discriminate |]. cbn [orb].
  apply String.eqb_neq in Eu. apply String.eqb_neq in Er.
  destruct (userManager.validateNotRole w u); [discriminate |].
  destruct (userManager.validateRoleExists w r); [discriminate |].
  intros H. injection H as <-. auto.
Qed.

Lemma HasRole_iff (e : casbin.Enforcer) (u r t : string) :
  checkOps.HasRole e u r t = Ok true <-> In r (RolesOf e u t).
Proof.
  unfold checkOps.HasRole, Enforcer.GetRolesForUser, RolesOf. cbn [bind].
  split.
  - intros H. injection H as H. apply existsb_exists in H.
    destruct H as [x [Hx He]]. apply String.eqb_eq in He. subst. exact Hx.
  - intros H. f_equal. apply existsb_exists. exists r.
    split; [exact H | apply String.eqb_refl].
Qed.

Lemma usedAsRole_AddGroupingPolicy (e : casbin.Enforcer)
    (u r t key : string) :
  usedAsRole (Enforcer.AddGroupingPolicy e u r t) key
  <-> usedAsRole e key \/ key = r.
Proof.
  unfold usedAsRole, Enforcer.AddGroupingPolicy,
    casbin.AddRoleForUserInDomain. cbn [casbin.grouping]. split.
  - intros [g [Hg [Hl Hk]]]. apply In_addRule in Hg.
    destruct Hg as [Hg | ->]; [left; eauto | right].
    symmetry. exact Hk.
  - intros [[g [Hg [Hl Hk]]] | ->].
    + exists g. split; [apply In_addRule; auto | auto].
    + exists [u; r; t]. split; [apply In_addRule; auto |].
      split; [simpl; lia | reflexivity].
Qed.

Lemma validateRoleExists_has_tuple (w : World) (s : string)
    (row : list string) :
  storeParses (enforcer w) ->
  In row (casbin.policy (enforcer w)) -> isTuple row = true ->
  idx row 0 = s ->
  userManager.validateRoleExists w s = None.
Proof.
  intros Hs Hin Ht Hk. unfold userManager.validateRoleExists,
    userManager.isRoleExistsInDB.
  destruct (0 <? _)%nat; [reflexivity |].
  unfold Enforcer.GetPolicies, casbin.GetPolicy.
  rewrite (proj2 (GetPolicies_loop_Ok _ s "" _) (conj Hs eq_refl)).
  assert (Hpos : (0 <? length (map rowPolicy
                                   (filter (matchesFilter s "")
                                      (casbin.policy (enforcer w)))))%nat
                 = true).
  { rewrite length_map. apply count_pos_iff. exists row.
    split; [exact Hin |]. unfold matchesFilter.
    rewrite Ht, Hk, String.eqb_refl, orb_true_r. reflexivity. }
  rewrite Hpos. reflexivity.
Qed.

End AssignFacts.

(** X14.  In the user manager a successful [AssignRole] makes [HasRole]
    true for the user, the role and the tenant; and when the grouping
    was not stored before and the role key is not the user key,
    [RemoveRole] succeeds and gives back the state before the
    assignment. *)
Theorem user_AssignRole_RemoveRole_round_trip :
  forall (w w1 : World) (operatorKey userKey roleKey tenantKey : string),
    userManager.AssignRole w operatorKey userKey roleKey tenantKey
    = (None, w1) ->
    checkOps.HasRole (enforcer w1) userKey roleKey tenantKey = Ok true
    /\ (roleKey <> userKey ->
        ~ In [userKey; roleKey; tenantKey] (casbin.grouping (enforcer w)) ->
        userManager.RemoveRole w1 operatorKey userKey roleKey tenantKey
        = (None, w)).
Proof.
  intros w w1 op u r t H. apply AssignRole_user_inv in H.
  destruct H as [Hu [Hr [Hn [_ ->]]]]. split.
  - apply HasRole_iff. cbn [setEnforcer enforcer].
    apply RolesOf_AddGroupingPolicy.
  - intros Hne Hnew. unfold userManager.RemoveRole.
    apply String.eqb_neq in Hu. apply String.eqb_neq in Hr.
    rewrite Hu, Hr. cbn [orb].
    apply validateNotRole_nil_iff in Hn. destruct Hn as [Hn1 Hn2].
    assert (Hn' : userManager.validateNotRole
                    (setEnforcer w
                       (Enforcer.AddGroupingPolicy (enforcer w) u r t)) u
                  = None).
    { apply validateNotRole_nil_iff. split; [exact Hn1 |].
      cbn [setEnforcer enforcer]. rewrite usedAsRole_AddGroupingPolicy.
      intros [H | H]; [contradiction | congruence]. }
    rewrite Hn'. destruct w as [[pol grp] rs].
    unfold setEnforcer, Enforcer.RemoveGroupingPolicy,
      Enforcer.AddGroupingPolicy, casbin.DeleteRoleForUserInDomain,
      casbin.AddRoleForUserInDomain.
    cbn [enforcer roles casbin.policy casbin.grouping].
    rewrite removeRule_addRule by exact Hnew. reflexivity.
Qed.

Lemma user_AssignRole_RemoveRole_round_trip_witness :
  userManager.RemoveRole
    (snd (userManager.AssignRole world_sys "boss" "erin" "viewer" "t1"))
    "boss" "erin" "viewer" "t1"
  = (None, world_sys).
Proof.
  apply (proj2 (user_AssignRole_RemoveRole_round_trip world_sys _ "boss"
                  "erin" "viewer" "t1" ltac:(vm_compute; reflexivity))).
  - discriminate.
  - simpl. intros [H | H]; [discriminate H | contradiction].
Defined.

(** X15.  Role detection falls back on the tuples: a subject that is not
    in the role table but has at least one permission tuple is accepted
    by [AssignRole] as a role.  Once it is assigned, the user manager
    treats the subject as a role: it refuses to grant it a permission
    and reports no direct permission for it. *)
Theorem AssignRole_accepts_any_subject_with_tuples :
  forall (w : World) (operatorKey userKey subject tenantKey : string)
         (row : list string),
    storeParses (enforcer w) ->
    userKey <> "" -> subject <> "" ->
    ~ inRoleTable w userKey -> ~ usedAsRole (enforcer w) userKey ->
    In row (casbin.policy (enforcer w)) -> (4 <= length row)%nat ->
    idx row 0 = subject ->
    let w1 := setEnforcer w (Enforcer.AddGroupingPolicy (enforcer w) userKey
                                                        subject tenantKey) in
    userManager.AssignRole w operatorKey userKey subject tenantKey
    = (None, w1)
    /\ (forall op t p,
          fst (userManager.GrantPermission w1 op subject t p) <> None)
    /\ (forall t, userOps.GetDirectPermissions w1 subject t = Ok []).
Proof.
  intros w op u s t row Hs Hu Hsub Hn1 Hn2 Hin Hlen Hk w1.
  assert (Ht : isTuple row = true) by (apply Nat.leb_le; exact Hlen).
  assert (Hused : usedAsRole (enforcer w1) s).
  { subst w1. cbn [setEnforcer enforcer].
    apply usedAsRole_AddGroupingPolicy. auto. }
  assert (Hnot : userManager.validateNotRole w1 s <> None).
  { intros H. apply validateNotRole_nil_iff in H. tauto. }
  split; [| split].
  - unfold userManager.AssignRole.
    apply String.eqb_neq in Hu. apply String.eqb_neq in Hsub.
    rewrite Hu, Hsub. cbn [orb].
    rewrite (proj2 (validateNotRole_nil_iff w u) (conj Hn1 Hn2)).
    rewrite (validateRoleExists_has_tuple w s row Hs Hin Ht Hk).
    reflexivity.
  - intros op' t' p. unfold userManager.GrantPermission.
    destruct (userManager.validateParams s p); [discriminate |].
    destruct (userManager.validateNotRole w1 s); [discriminate |].
    contradiction.
  - intros t'. apply user_GetDirectPermissions_hides_roles_aux.
    + exact Hsub.
    + exact Hnot.
Qed.

Lemma AssignRole_accepts_any_subject_with_tuples_witness :
  userManager.AssignRole world_sys "boss" "erin" "boss" "t1"
  = (None,
     setEnforcer world_sys
       (Enforcer.AddGroupingPolicy (enforcer world_sys) "erin" "boss" "t1"))
  /\ userOps.GetDirectPermissions
       (setEnforcer world_sys
          (Enforcer.AddGroupingPolicy (enforcer world_sys) "erin" "boss"
                                      "t1"))
       "boss" "t1" = Ok [].
Proof.
  assert (H := AssignRole_accepts_any_subject_with_tuples world_sys "boss"
                 "erin" "boss" "t1" ["boss"; "t1"; "user"; "write"]
                 world_sys_parses).
  cbv zeta in H.
  destruct H as [H1 [_ H3]].
  - discriminate.
  - discriminate.
  - intros [md [Hmd Hk]]. simpl in Hmd.
    destruct Hmd as [<- | [<- | []]]; discriminate Hk.
  - intros [g [Hg [_ Hk]]]. simpl in Hg.
    destruct Hg as [<- | []]. discriminate Hk.
  - simpl. auto 10.
  - simpl. lia.
  - reflexivity.
  - split; [exact H1 | apply H3].
Defined.

Section ClearRolesFacts.






End ClearRolesFacts.



(* ================================================================== *)
(** * Further properties of the check manager *)

Section BatchFacts.

Lemma batch_checks_of_perms (e : casbin.Enforcer) (u t : string)
    (perms : list Permission) (ps : list Permission) :
  Enforcer.GetImplicitPermissions e u t = Ok perms ->
  let answers :=
    map (fun p =>
           existsb (fun userPerm =>
                      (Resource_of userPerm =? Resource_of p)
                      && (Action_of userPerm =? Action_of p)) perms) ps in
  checkOps.CheckMultiplePermissions e u t ps = Ok answers
  /\ checkOps.HasAnyPermission e u t ps = Ok (existsb (fun b => b) answers)
  /\ checkOps.HasAllPermissions e u t ps = Ok (forallb (fun b => b) answers).
Proof.
  intros H. induction ps as [|p ps IH]; cbn zeta.
  - repeat split.
  - cbn zeta in IH. destruct IH as [IH1 [IH2 IH3]].
    cbn [checkOps.CheckMultiplePermissions checkOps.HasAnyPermission
         checkOps.HasAllPermissions map existsb forallb].
    unfold checkManager.CheckPermission, Enforcer.CheckPermission.
    rewrite H. cbn [bind]. rewrite IH1, IH2, IH3. cbn [bind].
    destruct (existsb _ perms); repeat split.
Qed.

Lemma batch_checks_Err (e : casbin.Enforcer) (u t : string) (err : error)
    (p : Permission) (ps : list Permission) :
  Enforcer.GetImplicitPermissions e u t = Err err ->
  checkOps.CheckMultiplePermissions e u t (p :: ps) = Err err
  /\ checkOps.HasAnyPermission e u t (p :: ps) = Err err
  /\ checkOps.HasAllPermissions e u t (p :: ps) = Err err.
Proof.
  intros H.
  cbn [checkOps.CheckMultiplePermissions checkOps.HasAnyPermission
       checkOps.HasAllPermissions].
  unfold checkManager.CheckPermission, Enforcer.CheckPermission.
  rewrite H. repeat split.
Qed.

End BatchFacts.

(** X17.  The three batch checks agree.  Whenever
    [CheckMultiplePermissions] answers, it gives one boolean per
    permission, in order, each the answer of [CheckPermission];
    [HasAnyPermission] is their disjunction and [HasAllPermissions]
    their conjunction.  On the empty list they answer [[]], [false] and
    [true] without reading the store; on a non-empty list all three fail
    together. *)
Theorem batch_checks_agree :
  forall (e : casbin.Enforcer) (userKey tenantKey : string)
         (permissions : list Permission),
    (forall results,
       checkOps.CheckMultiplePermissions e userKey tenantKey permissions
       = Ok results ->
       length results = length permissions
       /\ (forall i p b,
             nth_error permissions i = Some p ->
             nth_error results i = Some b ->
             checkManager.CheckPermission e userKey tenantKey p = Ok b)
       /\ checkOps.HasAnyPermission e userKey tenantKey permissions
          = Ok (existsb (fun b => b) results)
       /\ checkOps.HasAllPermissions e userKey tenantKey permissions
          = Ok (forallb (fun b => b) results))
    /\ (forall err,
          checkOps.CheckMultiplePermissions e userKey tenantKey permissions
          = Err err ->
          checkOps.HasAnyPermission e userKey tenantKey permissions = Err err
          /\ checkOps.HasAllPermissions e userKey tenantKey permissions
             = Err err)
    /\ checkOps.CheckMultiplePermissions e userKey tenantKey [] = Ok []
    /\ checkOps.HasAnyPermission e userKey tenantKey [] = Ok false
    /\ checkOps.HasAllPermissions e userKey tenantKey [] = Ok true.
Proof.
  intros e u t ps.
  split; [| split; [| repeat split]].
  - destruct ps as [|p ps].
    + intros results H. injection H as <-. repeat split.
      intros i q b Hq. destruct i; discriminate Hq.
    + destruct (Enforcer.GetImplicitPermissions e u t) as [perms|err] eqn:E.
      * destruct (batch_checks_of_perms e u t perms (p :: ps) E)
          as [H1 [H2 H3]].
        set (answers := map _ (p :: ps)) in *.
        intros results H. rewrite H1 in H. injection H as <-.
        split; [apply length_map |]. split; [| split; assumption].
        intros i q b Hq Hb. unfold answers in Hb.
        rewrite nth_error_map, Hq in Hb. cbn in Hb. injection Hb as <-.
        unfold checkManager.CheckPermission, Enforcer.CheckPermission.
        rewrite E. reflexivity.
      * destruct (batch_checks_Err e u t err p ps E) as [H1 _].
        intros results H. rewrite H1 in H. discriminate.
  - destruct ps as [|p ps]; [discriminate |].
    destruct (Enforcer.GetImplicitPermissions e u t) as [perms|err0] eqn:E.
    + destruct (batch_checks_of_perms e u t perms (p :: ps) E) as [H1 _].
      intros err H. rewrite H1 in H. discriminate.
    + destruct (batch_checks_Err e u t err0 p ps E) as [H1 [H2 H3]].
      intros err H. rewrite H1 in H. injection H as <-. auto.
Qed.

Lemma batch_checks_agree_witness :
  checkOps.HasAllPermissions (enforcer world_sys) "boss" "t1"
    [mkPermission ResourceUser ActionWrite;
     mkPermission ResourceTenant ActionRead]
  = Ok false.
Proof.
  destruct (proj1 (batch_checks_agree (enforcer world_sys) "boss" "t1"
                     [mkPermission ResourceUser ActionWrite;
                      mkPermission ResourceTenant ActionRead])
              [true; false] ltac:(vm_compute; reflexivity))
    as [_ [_ [_ H]]].
  exact H.
Defined.

Section ActionsFacts.





End ActionsFacts.



Section TenantSetFacts.

Lemma In_setAdd (s : list string) (x t : string) :
  In t (checkOps.setAdd s x) <-> In t s \/ t = x.
Proof.
  unfold checkOps.setAdd.
  destruct (existsb (String.eqb x) s) eqn:E.
  - apply existsb_eqb_In in E. split; [tauto |].
    intros [H | ->]; assumption.
  - rewrite in_app_iff. simpl. intuition auto.
Qed.

Lemma NoDup_setAdd (s : list string) (x : string) :
  NoDup s -> NoDup (checkOps.setAdd s x).
Proof.
  intros H. unfold checkOps.setAdd.
  destruct (existsb (String.eqb x) s) eqn:E; [exact H |].
  apply NoDup_app; [exact H | repeat constructor; simpl; tauto |].
  intros y Hy [<- | []]. apply existsb_eqb_In in Hy. congruence.
Qed.

Lemma fold_setAdd {A : Type} (c : A -> bool) (k : A -> string)
    (l : list A) (init : list string) :
  (forall t,
     In t (fold_left (fun set x => if c x then checkOps.setAdd set (k x)
                                   else set) l init)
     <-> In t init \/ exists x, In x l /\ c x = true /\ k x = t)
  /\ (NoDup init ->
      NoDup (fold_left (fun set x => if c x then checkOps.setAdd set (k x)
                                     else set) l init)).
Proof.
  revert init. induction l as [|x l IH]; intros init.
  - simpl. split; [| auto]. intros t. split; [auto |].
    intros [H | [x [[] _]]]. exact H.
  - cbn [fold_left]. destruct (IH (if c x then checkOps.setAdd init (k x)
                                   else init)) as [IH1 IH2].
    split.
    + intros t. rewrite IH1. destruct (c x) eqn:Ec.
      * rewrite In_setAdd. split.
        -- intros [[H | ->] | [y [Hy [Hc Hk]]]]; [auto | |].
           ++ right. exists x. simpl. auto.
           ++ right. exists y. simpl. auto.
        -- intros [H | [y [[<- | Hy] [Hc Hk]]]]; [auto | auto |].
           right. exists y. auto.
      * split.
        -- intros [H | [y [Hy [Hc Hk]]]]; [auto |].
           right. exists y. simpl. auto.
        -- intros [H | [y [[<- | Hy] [Hc Hk]]]]; [auto | congruence |].
           right. exists y. auto.
    + intros Hnd. apply IH2. destruct (c x); [| exact Hnd].
      apply NoDup_setAdd. exact Hnd.
Qed.

End TenantSetFacts.

(** X19.  Whenever [GetUserTenants] answers, its result has no
    duplicates and holds exactly the domains, other than "" and "*", of
    the permission tuples of the user (of every subject when the user
    key is empty) and of the role assignments of the user.  Only the
    user's own tuples and assignments count, not what roles give. *)
Theorem GetUserTenants_membership :
  forall (e : casbin.Enforcer) (userKey : string) (tenants : list string),
    checkOps.GetUserTenants e userKey = Ok tenants ->
    NoDup tenants
    /\ forall t,
         In t tenants
         <-> t <> "" /\ t <> "*"
             /\ ((exists row,
                    In row (casbin.policy e) /\ (4 <= length row)%nat
                    /\ (userKey = "" \/ idx row 0 = userKey)
                    /\ idx row 1 = t)
                 \/ (exists g,
                       In g (casbin.grouping e) /\ (3 <= length g)%nat
                       /\ idx g 0 = userKey /\ idx g 2 = t)).
Proof.
  intros e u tenants H. unfold checkOps.GetUserTenants in H.
  destruct (Enforcer.GetPolicies e u "") as [policies|] eqn:Ep;
    [| discriminate].
  cbn [bind] in H. unfold Enforcer.GetGroupingPolicies in H.
  cbn [bind] in H. injection H as <-.
  unfold Enforcer.GetPolicies, casbin.GetPolicy in Ep.
  apply GetPolicies_loop_Ok in Ep. destruct Ep as [_ ->].
  match goal with
  | |- context [fold_left ?f2 ?l2 (fold_left ?f1 ?l1 [])] =>
      pose proof (fold_setAdd
                    (fun policy => neqb (Domain policy) ""
                                   && neqb (Domain policy) "*")
                    Domain l1 []) as [H1 H1'];
      pose proof (fold_setAdd
                    (fun policy => (UserKey policy =? u)
                                   && neqb (TenantKey policy) ""
                                   && neqb (TenantKey policy) "*")
                    TenantKey l2 (fold_left f1 l1 [])) as [H2 H2']
  end.
  split; [apply H2', H1'; constructor |].
  intros t. rewrite H2, H1. split.
  - intros [[[] | [pol [Hpol [Hc Hk]]]] | [gp [Hgp [Hc Hk]]]].
    + apply andb_true_iff in Hc. rewrite !neqb_true_iff in Hc.
      apply in_map_iff in Hpol. destruct Hpol as [row [<- Hrow]].
      apply filter_In in Hrow. destruct Hrow as [Hin Hm].
      unfold matchesFilter in Hm. apply andb_true_iff in Hm.
      destruct Hm as [Ht Hm]. apply andb_true_iff in Hm.
      destruct Hm as [Hs _]. cbn [rowPolicy Domain] in *. subst t.
      split; [tauto |]. split; [tauto |]. left. exists row.
      split; [exact Hin |]. split; [apply Nat.leb_le; exact Ht |].
      split; [| reflexivity].
      apply orb_true_iff in Hs. rewrite !String.eqb_eq in Hs. exact Hs.
    + apply andb_true_iff in Hc. destruct Hc as [Hc Hc3].
      apply andb_true_iff in Hc. destruct Hc as [Hc1 Hc2].
      rewrite neqb_true_iff in Hc2, Hc3. apply String.eqb_eq in Hc1.
      apply In_GetGroupingPolicies in Hgp.
      destruct Hgp as [g [Hg [Hl ->]]]. cbn [UserKey TenantKey] in *.
      subst t. split; [tauto |]. split; [tauto |]. right. exists g. auto.
  - intros [Ht1 [Ht2 [[row [Hin [Hl [Hs Hd]]]] | [g [Hg [Hl [Hu Hd]]]]]]].
    + left. right. exists (rowPolicy row). split; [| split].
      * apply in_map, filter_In. split; [exact Hin |].
        unfold matchesFilter, isTuple.
        apply Nat.leb_le in Hl. rewrite Hl. cbn [andb orb].
        rewrite andb_true_r. apply orb_true_iff. rewrite !String.eqb_eq.
        exact Hs.
      * cbn [rowPolicy Domain]. rewrite Hd.
        apply andb_true_iff. rewrite !neqb_true_iff. auto.
      * exact Hd.
    + right. exists (mkGroupingPolicy (idx g 0) (idx g 1) (idx g 2)).
      split; [apply In_GetGroupingPolicies; eauto |].
      cbn [UserKey TenantKey]. rewrite Hu, Hd, String.eqb_refl.
      split; [| reflexivity]. cbn [andb].
      apply andb_true_iff. rewrite !neqb_true_iff. auto.
Qed.

Lemma GetUserTenants_membership_witness :
  checkOps.GetUserTenants (enforcer world_sys) "carol" = Ok ["t1"]
  /\ NoDup ["t1"].
Proof.
  split; [reflexivity |].
  exact (proj1 (GetUserTenants_membership (enforcer world_sys) "carol" ["t1"]
                  ltac:(vm_compute; reflexivity))).
Defined.

(* ================================================================== *)
(** * Further properties of the engine *)

Section DiffFacts.

Lemma permissionExists_In (p : Permission) (perms : list Permission) :
  casbinxClient.permissionExists p perms = true <-> In p perms.
Proof.
  induction perms as [|q perms IH]; simpl.
  - split; [discriminate | tauto].
  - destruct ((Resource_of q =? Resource_of p)
              && (Action_of q =? Action_of p)) eqn:E.
    + apply Permission_eqb_eq in E. subst. tauto.
    + rewrite IH. split; [tauto |]. intros [-> | H]; [| exact H].
      rewrite (proj2 (Permission_eqb_eq p p) eq_refl) in E. discriminate.
Qed.

Lemma findAdded_In (old new : list Permission) (p : Permission) :
  In p (casbinxClient.findAddedPermissions old new)
  <-> In p new /\ ~ In p old.
Proof.
  unfold casbinxClient.findAddedPermissions.
  rewrite filter_In, negb_true_iff.
  pose proof (permissionExists_In p old) as Hx.
  destruct (casbinxClient.permissionExists p old).
  - split; [intros [_ H]; discriminate H |].
    intros [_ H]. exfalso. apply H, Hx. reflexivity.
  - split; intros [H _]; (split; [exact H |]); [| reflexivity].
    intros Hn. apply Hx in Hn. discriminate Hn.
Qed.

Lemma findRemoved_In (old new : list Permission) (p : Permission) :
  In p (casbinxClient.findRemovedPermissions old new)
  <-> In p old /\ ~ In p new.
Proof.
  unfold casbinxClient.findRemovedPermissions.
  rewrite filter_In, negb_true_iff.
  pose proof (permissionExists_In p new) as Hx.
  destruct (casbinxClient.permissionExists p new).
  - split; [intros [_ H]; discriminate H |].
    intros [_ H]. exfalso. apply H, Hx. reflexivity.
  - split; intros [H _]; (split; [exact H |]); [| reflexivity].
    intros Hn. apply Hx in Hn. discriminate Hn.
Qed.

Lemma nil_of_no_member {A : Type} (l : list A) :
  (forall x, ~ In x l) -> l = [].
Proof.
  destruct l as [|x l]; [reflexivity |].
  intros H. exfalso. apply (H x). left. reflexivity.
Qed.

Lemma findAdded_same (old new : list Permission) :
  incl new old -> casbinxClient.findAddedPermissions old new = [].
Proof.
  intros H. apply nil_of_no_member. intros p Hp.
  apply findAdded_In in Hp. destruct Hp as [H1 H2]. auto.
Qed.

Lemma findRemoved_same (old new : list Permission) :
  incl old new -> casbinxClient.findRemovedPermissions old new = [].
Proof.
  intros H. apply nil_of_no_member. intros p Hp.
  apply findRemoved_In in Hp. destruct Hp as [H1 H2]. auto.
Qed.

End DiffFacts.

(** X20.  [findAddedPermissions] and [findRemovedPermissions] are the
    two set differences of the old and the new permission list, in the
    order of the list they are taken from: a permission is added when it
    is new and not old, removed when it is old and not new.  Two lists
    with the same members, in any order and with any repetitions, give
    no added and no removed permission. *)
Theorem permission_diff_is_set_difference :
  forall (oldPermissions newPermissions : list Permission),
    (forall p, In p (casbinxClient.findAddedPermissions oldPermissions
                                                        newPermissions)
               <-> In p newPermissions /\ ~ In p oldPermissions)
    /\ (forall p, In p (casbinxClient.findRemovedPermissions oldPermissions
                                                             newPermissions)
                  <-> In p oldPermissions /\ ~ In p newPermissions)
    /\ ((forall p, In p oldPermissions <-> In p newPermissions) ->
        casbinxClient.findAddedPermissions oldPermissions newPermissions = []
        /\ casbinxClient.findRemovedPermissions oldPermissions newPermissions
           = []).
Proof.
  intros old new. split; [intros p; apply findAdded_In |].
  split; [intros p; apply findRemoved_In |].
  intros H. split.
  - apply findAdded_same. intros p Hp. apply H. exact Hp.
  - apply findRemoved_same. intros p Hp. apply H. exact Hp.
Qed.

Lemma permission_diff_is_set_difference_witness :
  casbinxClient.findAddedPermissions
    [mkPermission "document" "read"; mkPermission "document" "write"]
    [mkPermission "document" "write"; mkPermission "document" "read";
     mkPermission "document" "write"] = [].
Proof.
  apply (proj2 (proj2 (permission_diff_is_set_difference
                         [mkPermission "document" "read";
                          mkPermission "document" "write"]
                         [mkPermission "document" "write";
                          mkPermission "document" "read";
                          mkPermission "document" "write"]))).
  intros p. simpl. tauto.
Defined.

(** X21.  A user may always query its own permissions: when the
    operator is the target, the secure queries skip the authorization
    check and answer as the user manager does, even when the store
    cannot be read for the check.  For another operator they answer as
    the user manager does exactly when the operator holds user-read in
    the tenant, and fail otherwise. *)
Theorem secure_queries_authorization :
  forall (w : World) (operatorKey userKey tenantKey : string),
    (operatorKey = userKey ->
     engineOps.GetDirectPermissionsSecure w operatorKey userKey tenantKey
     = userOps.GetDirectPermissions w userKey tenantKey
     /\ engineOps.GetEffectivePermissionsSecure w operatorKey userKey
                                                tenantKey
        = userOps.GetEffectivePermissions w userKey tenantKey)
    /\ (operatorKey <> userKey ->
        (checkManager.CheckPermission (enforcer w) operatorKey tenantKey
           (mkPermission ResourceUser ActionRead) = Ok true ->
         engineOps.GetDirectPermissionsSecure w operatorKey userKey tenantKey
         = userOps.GetDirectPermissions w userKey tenantKey
         /\ engineOps.GetEffectivePermissionsSecure w operatorKey userKey
                                                    tenantKey
            = userOps.GetEffectivePermissions w userKey tenantKey)
        /\ (checkManager.CheckPermission (enforcer w) operatorKey tenantKey
              (mkPermission ResourceUser ActionRead) <> Ok true ->
            (exists err,
               engineOps.GetDirectPermissionsSecure w operatorKey userKey
                                                    tenantKey = Err err)
            /\ (exists err,
                  engineOps.GetEffectivePermissionsSecure w operatorKey
                                                          userKey tenantKey
                  = Err err))).
Proof.
  intros w op u t. unfold engineOps.GetDirectPermissionsSecure,
    engineOps.GetEffectivePermissionsSecure,
    engineOps.validateQueryPermission.
  split.
  - intros ->. rewrite String.eqb_refl. split; reflexivity.
  - intros Hne. apply String.eqb_neq in Hne. rewrite Hne. cbv zeta. split.
    + intros ->. split; reflexivity.
    + intros Hc.
      destruct (checkManager.CheckPermission (enforcer w) op t _)
        as [[|]|err]; [contradiction | |];
        split; eexists; reflexivity.
Qed.

Lemma secure_queries_authorization_witness :
  engineOps.GetEffectivePermissionsSecure world_sys "erin" "erin" "t1"
  = userOps.GetEffectivePermissions world_sys "erin" "t1"
  /\ (exists err,
        engineOps.GetEffectivePermissionsSecure world_sys "erin" "carol" "t1"
        = Err err).
Proof.
  split.
  - apply (proj1 (secure_queries_authorization world_sys "erin" "erin" "t1")).
    reflexivity.
  - apply (proj2 (proj2 (secure_queries_authorization world_sys "erin"
                           "carol" "t1") ltac:(discriminate))).
    vm_compute. discriminate.
Defined.

Section ClearPermissionsFacts.

Lemma user_ClearUserPermissions_inv (w w' : World) (op u : string) :
  userOps.ClearUserPermissions w op u = (None, w') ->
  u <> ""
  /\ exists e1, Enforcer.ClearPolicies (enforcer w) u = (None, e1)
                /\ w' = setEnforcer w e1.
Proof.
  unfold userOps.ClearUserPermissions.
  destruct (u =? "") eqn:Eu; [discriminate |]. apply String.eqb_neq in Eu.
  destruct (userManager.validateNotRole w u); [discriminate |].
  destruct (Enforcer.ClearPolicies (enforcer w) u) as [[err|] e1] eqn:Ec;
    [discriminate |].
  intros H. injection H as <-. eauto.
Qed.

Lemma HasManagePermission_true_iff
    (f : Resource -> Action -> result bool) (r : Resource) :
  HasManagePermission f r = Ok true
  <-> f r ActionRead = Ok true /\ f r ActionWrite = Ok true
      /\ f r ActionDelete = Ok true.
Proof.
  unfold HasManagePermission, AllActions. cbn [HasManagePermission_loop].
  destruct (f r ActionRead) as [[|]|]; cbn [bind negb];
    [| split; [discriminate | intros [H _]; discriminate H]
     | split; [discriminate | intros [H _]; discriminate H]].
  destruct (f r ActionWrite) as [[|]|]; cbn [bind negb];
    [| split; [discriminate | intros [_ [H _]]; discriminate H]
     | split; [discriminate | intros [_ [H _]]; discriminate H]].
  destruct (f r ActionDelete) as [[|]|]; cbn [bind negb];
    [tauto
    | split; [discriminate | intros [_ [_ H]]; discriminate H]
    | split; [discriminate | intros [_ [_ H]]; discriminate H]].
Qed.

End ClearPermissionsFacts.

(** X22.  [ClearUserPermissions] of the engine is authorized for one
    tenant but clears every domain.  A successful call means that the
    operator holds read, write and delete on the user resource, all
    three in the global domain or all three in the given tenant; and,
    on a store of four-field rules, that every permission tuple of the
    user is gone, whatever its domain, while the tuples of the other
    subjects, the role assignments and the role table are untouched. *)
Theorem engine_ClearUserPermissions_clears_every_domain :
  forall (w w' : World) (operatorKey userKey tenantKey : string),
    engineOps.ClearUserPermissions w operatorKey userKey tenantKey
    = (None, w') ->
    ((forall a, In a AllActions ->
                checkManager.CheckPermission (enforcer w) operatorKey "*"
                  (mkPermission ResourceUser a) = Ok true)
     \/ (forall a, In a AllActions ->
                   checkManager.CheckPermission (enforcer w) operatorKey
                     tenantKey (mkPermission ResourceUser a) = Ok true))
    /\ (storeArity (enforcer w) ->
        (forall row,
           In row (casbin.policy (enforcer w'))
           <-> In row (casbin.policy (enforcer w))
               /\ idx row 0 <> userKey)
        /\ casbin.grouping (enforcer w') = casbin.grouping (enforcer w)
        /\ roles w' = roles w).
Proof.
  intros w w' op u t. unfold engineOps.ClearUserPermissions. cbv zeta.
  set (fg := fun resource action =>
               checkManager.CheckPermission (enforcer w) op "*"
                 (mkPermission resource action)).
  set (ft := fun resource action =>
               checkManager.CheckPermission (enforcer w) op t
                 (mkPermission resource action)).
  assert (Hall : forall f : Resource -> Action -> result bool,
            HasManagePermission f ResourceUser = Ok true ->
            forall a, In a AllActions -> f ResourceUser a = Ok true).
  { intros f H a Ha. apply HasManagePermission_true_iff in H.
    simpl in Ha. destruct Ha as [<- | [<- | [<- | []]]]; tauto. }
  destruct (HasManagePermission fg ResourceUser) as [hg|] eqn:Eg;
    [| discriminate].
  assert (Hauth :
            forall ht,
              (if negb hg then HasManagePermission ft ResourceUser
               else Ok false) = Ok ht ->
              negb hg && negb ht = false ->
              (forall a, In a AllActions -> fg ResourceUser a = Ok true)
              \/ (forall a, In a AllActions -> ft ResourceUser a = Ok true)).
  { intros ht Hht Hb. destruct hg; cbn [negb] in *.
    - left. apply Hall. exact Eg.
    - destruct ht; [| discriminate]. right. apply Hall. exact Hht. }
  destruct (if negb hg then HasManagePermission ft ResourceUser else Ok false)
    as [ht|] eqn:Et; [| discriminate].
  destruct (negb hg && negb ht) eqn:Eb; [discriminate |].
  intros H. split; [exact (Hauth ht eq_refl Eb) |].
  intros Ha. apply user_ClearUserPermissions_inv in H.
  destruct H as [Hu [e1 [Hc ->]]]. cbn [setEnforcer enforcer roles].
  split; [| split; [| reflexivity]].
  - intros row. apply (ClearPolicies_policy _ _ _ row Ha Hu Hc).
  - apply (ClearPolicies_policy _ _ _ [] Ha Hu Hc).
Qed.

Lemma engine_ClearUserPermissions_clears_every_domain_witness :
  ~ In ["erin"; "t2"; "document"; "write"]
       (casbin.policy
          (enforcer (snd (engineOps.ClearUserPermissions
                            world_admin "root" "erin" "t1"))))
  /\ In ["root"; "*"; "user"; "read"]
        (casbin.policy
           (enforcer (snd (engineOps.ClearUserPermissions
                             world_admin "root" "erin" "t1")))).
Proof.
  destruct (proj2 (engine_ClearUserPermissions_clears_every_domain
                     world_admin
                     (snd (engineOps.ClearUserPermissions
                             world_admin "root" "erin" "t1"))
                     "root" "erin" "t1"
                     ltac:(vm_compute; reflexivity))
                  ltac:(repeat constructor)) as [Hrows _].
  split.
  - intros H. apply Hrows in H. destruct H as [_ H]. apply H. reflexivity.
  - apply Hrows. split; [simpl; auto | discriminate].
Defined.

(* ================================================================== *)
(** * Tenant initialization and role creation *)

Section InitializeFacts.

Lemma scanRolePermissions_spec (permissions : list Permission) (a b : bool) :
  engineOps.scanRolePermissions permissions a b
  = (a || existsb isTenantResource permissions,
     b || existsb isBaseResource permissions).
Proof.
  revert a b. induction permissions as [|p permissions IH]; intros a b.
  - cbn. rewrite !orb_false_r. reflexivity.
  - cbn [engineOps.scanRolePermissions existsb]. cbv zeta. rewrite IH.
    fold (isTenantResource p). fold (isBaseResource p).
    destruct (isTenantResource p), (isBaseResource p), a, b; reflexivity.
Qed.

Lemma engine_AssignRole_system_role (cfg : SecurityConfig) (w : World)
    (operatorKey userKey roleKey tenantKey : string) :
  systemTagged cfg w roleKey ->
  exists err,
    casbinxClient.AssignRole cfg w operatorKey userKey roleKey tenantKey
    = (Some err, w).
Proof.
  intros Ht. unfold casbinxClient.AssignRole. cbv zeta.
  destruct (checkManager.CheckPermission (enforcer w) operatorKey tenantKey
              (mkPermission ResourceUser ActionWrite)) as [[|]|e1];
    cbn [negb]; try (eexists; reflexivity).
  destruct (checkManager.CheckPermission (enforcer w) operatorKey tenantKey
              (mkPermission ResourceRole ActionWrite)) as [[|]|e2];
    cbn [negb]; try (eexists; reflexivity).
  rewrite (systemTagged_HasSystemPermissions
             (casbinxClient.securityValidator cfg w) w roleKey Ht).
  eexists; reflexivity.
Qed.

End InitializeFacts.

(** X23.  [InitializeTenant] hands out a role without asking any
    operator and without looking at the security configuration.  When it
    succeeds the three keys are not empty, the role is in the role table
    and readable, none of its permissions is on the tenant or tag_tenant
    resource, one of them is on system, user, permission, role or
    tag_user, and the only change is the assignment of the role to the
    user in the tenant.  The role may well carry a system permission: in
    that case the engine's [AssignRole] refuses the same assignment to
    every operator and leaves the state as it was. *)
Theorem InitializeTenant_requirements_and_bypass :
  forall (cfg : SecurityConfig) (w w' : World)
         (tenantKey adminUserKey adminRoleKey : string),
    engineOps.InitializeTenant w tenantKey adminUserKey adminRoleKey
    = (None, w') ->
    (tenantKey <> "" /\ adminUserKey <> "" /\ adminRoleKey <> "")
    /\ (exists role,
          roleManager.GetRole w adminRoleKey = Ok role
          /\ (forall p, In p (Permissions role) ->
                        Resource_of p <> ResourceTenant
                        /\ Resource_of p <> ResourceTagTenant)
          /\ (exists p, In p (Permissions role)
                        /\ In (Resource_of p)
                              [ResourceSystem; ResourceUser;
                               ResourcePermission; ResourceRole;
                               ResourceTagUser]))
    /\ w' = setEnforcer w (Enforcer.AddGroupingPolicy
                             (enforcer w) adminUserKey adminRoleKey tenantKey)
    /\ (systemTagged cfg w adminRoleKey ->
        forall operatorKey,
        exists err,
          casbinxClient.AssignRole cfg w operatorKey adminUserKey
                                   adminRoleKey tenantKey
          = (Some err, w)).
Proof.
  intros cfg w w' t u r. unfold engineOps.InitializeTenant.
  destruct (t =? "") eqn:Et; [discriminate |].
  destruct (u =? "") eqn:Eu; [discriminate |].
  destruct (r =? "") eqn:Er; [discriminate |]. cbn [orb].
  apply String.eqb_neq in Et, Eu, Er.
  destruct (roleManager.GetRole w r) as [role|err]; [| discriminate].
  rewrite scanRolePermissions_spec. cbn [orb].
  destruct (existsb isTenantResource (Permissions role)) eqn:Eten;
    [discriminate |].
  destruct (existsb isBaseResource (Permissions role)) eqn:Ebase;
    cbn [negb]; [| discriminate].
  intros H. apply AssignRole_user_inv in H.
  destruct H as [_ [_ [_ [_ ->]]]].
  split; [auto |]. split; [| split; [reflexivity |]].
  - exists role. split; [reflexivity |]. split.
    + intros p Hp.
      assert (Hf : isTenantResource p = false).
      { destruct (isTenantResource p) eqn:E; [| reflexivity].
        rewrite <- Eten. symmetry. apply existsb_exists. eauto. }
      unfold isTenantResource in Hf. apply orb_false_iff in Hf.
      destruct Hf as [H1 H2]. apply String.eqb_neq in H1, H2. auto.
    + apply existsb_exists in Ebase. destruct Ebase as [p [Hp Hb]].
      exists p. split; [exact Hp |]. unfold isBaseResource in Hb.
      rewrite !orb_true_iff, !String.eqb_eq in Hb. simpl.
      destruct Hb as [[[[-> | ->] | ->] | ->] | ->]; auto 6.
  - intros Hs op. apply engine_AssignRole_system_role. exact Hs.
Qed.

Lemma InitializeTenant_requirements_and_bypass_witness :
  snd (engineOps.InitializeTenant world_admin "t9" "admin-001" "tenant_admin")
  = setEnforcer world_admin
      (Enforcer.AddGroupingPolicy (enforcer world_admin)
                                  "admin-001" "tenant_admin" "t9")
  /\ exists err,
       casbinxClient.AssignRole DefaultSecurityConfig world_admin "root"
                                "admin-001" "tenant_admin" "t9"
       = (Some err, world_admin).
Proof.
  pose proof (InitializeTenant_requirements_and_bypass
                DefaultSecurityConfig world_admin
                (snd (engineOps.InitializeTenant
                        world_admin "t9" "admin-001" "tenant_admin"))
                "t9" "admin-001" "tenant_admin"
                ltac:(vm_compute; reflexivity)) as [_ [_ [Hw Hb]]].
  split; [exact Hw |]. apply Hb.
  exists [mkPermission ResourceUser ActionWrite;
          mkPermission ResourceRole ActionWrite].
  split; [vm_compute; reflexivity |].
  exists (mkPermission ResourceUser ActionWrite). simpl. auto 10.
Defined.

Section CreateFacts.

Lemma filter_nil_false {A : Type} (f : A -> bool) (l : list A) (x : A) :
  filter f l = [] -> In x l -> f x = false.
Proof.
  intros Hf Hx. destruct (f x) eqn:E; [| reflexivity].
  assert (H : In x (filter f l)) by (apply filter_In; auto).
  rewrite Hf in H. contradiction.
Qed.

Lemma find_app_last {A : Type} (f : A -> bool) (l : list A) (y : A) :
  filter f l = [] -> f y = true -> find f (l ++ [y]) = Some y.
Proof.
  intros Hf Hy. induction l as [|x l IH]; cbn [app find].
  - rewrite Hy. reflexivity.
  - cbn [filter] in Hf. destruct (f x); [discriminate |]. apply IH, Hf.
Qed.

Lemma isRoleExists_false_inv (w : World) (roleKey : string) :
  roleManager.isRoleExists w roleKey = Ok false ->
  filter (fun r => md_RoleKey r =? roleKey) (roles w) = []
  /\ storeParses (enforcer w)
  /\ filter (matchesFilter roleKey "") (casbin.policy (enforcer w)) = [].
Proof.
  unfold roleManager.isRoleExists, roleManager.isRoleExistsInDB.
  cbn [bind].
  destruct (filter (fun r => md_RoleKey r =? roleKey) (roles w)) as [|md l];
    [| discriminate]. cbn [length Nat.ltb Nat.leb].
  unfold Enforcer.GetPolicies, casbin.GetPolicy.
  destruct (Enforcer.GetPolicies_loop (casbin.policy (enforcer w)) roleKey "")
    as [ps|err] eqn:E; cbn [bind]; [| discriminate].
  apply GetPolicies_loop_Ok in E. destruct E as [Hs ->].
  destruct (filter (matchesFilter roleKey "") (casbin.policy (enforcer w)))
    as [|row rows]; [| discriminate].
  intros _. auto.
Qed.

Lemma ClearPolicies_nothing (e : casbin.Enforcer) (subject : string) :
  storeParses e ->
  filter (matchesFilter subject "") (casbin.policy e) = [] ->
  Enforcer.ClearPolicies e subject = (None, e).
Proof.
  intros Hs Hf. unfold Enforcer.ClearPolicies, Enforcer.GetPolicies.
  rewrite (proj2 (GetPolicies_loop_Ok (casbin.GetPolicy e) subject "" _)
                 (conj Hs eq_refl)).
  unfold casbin.GetPolicy. rewrite Hf. reflexivity.
Qed.

Lemma CreateRole_inv (w w' : World)
    (operatorKey roleKey roleName description tenantKey : string)
    (permissions : list Permission) :
  roleOps.CreateRole w operatorKey roleKey roleName description tenantKey
                     permissions = (None, w') ->
  roleKey <> ""
  /\ roleManager.isRoleExists w roleKey = Ok false
  /\ roles w' = roles w ++ [mkRoleMetadata roleKey roleName
                                           (Some description) tenantKey]
  /\ casbin.grouping (enforcer w') = casbin.grouping (enforcer w)
  /\ (forall row,
        In row (casbin.policy (enforcer w'))
        <-> In row (casbin.policy (enforcer w))
            \/ (exists p, In p permissions /\ Permission_IsValid p = true
                          /\ row = permissionRule roleKey tenantKey p)
            \/ (permissions = []
                /\ row = permissionRule roleKey tenantKey
                                        PlaceholderPermission)).
Proof.
  unfold roleOps.CreateRole.
  destruct (roleKey =? "") eqn:Ek; [discriminate |].
  destruct (roleName =? ""); [discriminate |]. cbn [orb].
  destruct (tenantKey =? ""); [discriminate |].
  apply String.eqb_neq in Ek.
  destruct (roleManager.isRoleExists w roleKey) as [[|]|err] eqn:Ex;
    [discriminate | | discriminate].
  destruct (isRoleExists_false_inv w roleKey Ex) as [Hdb [Hs Hf]].
  unfold roleOps.createRoleMetadata.
  destruct (existsb (fun r => md_RoleKey r =? roleKey) (roles w));
    [discriminate |].
  destruct permissions as [|q permissions]; cbn [length Nat.eqb].
  - intros H. injection H as <-. cbn [setEnforcer enforcer roles].
    split; [exact Ek |]. split; [reflexivity |]. split; [reflexivity |].
    split; [reflexivity |]. intros row.
    unfold Enforcer.AddPolicy, casbin.AddPolicy. cbn [casbin.policy].
    rewrite In_addRule. fold (permissionRule roleKey tenantKey
                                             PlaceholderPermission).
    split.
    + intros [H | H]; auto.
    + intros [H | [[p [[] _]] | [_ H]]]; auto.
  - unfold roleManager.setRolePermissionsInTenant. cbn [enforcer].
    rewrite (ClearPolicies_nothing _ _ Hs Hf). cbv zeta.
    cbn [length Nat.eqb].
    assert (Hgr := addPermissions_grouping (q :: permissions) (enforcer w)
                     roleKey tenantKey).
    assert (Hadd := fun row =>
              addPermissions_policy (q :: permissions) (enforcer w)
                                    roleKey tenantKey row).
    set (e2 := roleManager.addPermissions (enforcer w) roleKey tenantKey
                                          (q :: permissions)) in *.
    clearbody e2. intros H. injection H as <-.
    cbn [setEnforcer enforcer roles].
    split; [exact Ek |]. split; [reflexivity |]. split; [reflexivity |].
    split; [exact Hgr |]. intros row.
    rewrite Hadd. split.
    + intros [H | H]; auto.
    + intros [H | [H | [H _]]]; auto. discriminate H.
Qed.

Lemma GetRolePermissions_In (w : World) (roleKey : string) :
  roleKey <> "" ->
  (exists md, In md (roles w) /\ md_RoleKey md = roleKey) ->
  storeParses (enforcer w) ->
  exists perms,
    roleManager.GetRolePermissions w roleKey = Ok perms
    /\ forall p,
         In p perms
         <-> exists row,
               In row (casbin.policy (enforcer w))
               /\ matchesFilter roleKey "" row = true
               /\ rowPermission row = p
               /\ p <> PlaceholderPermission.
Proof.
  intros Hk [md [Hmd Hkey]] Hs. unfold roleManager.GetRolePermissions.
  apply String.eqb_neq in Hk. rewrite Hk.
  unfold roleManager.isRoleExistsInDB. cbn [bind].
  rewrite (proj2 (count_pos_iff (fun r => md_RoleKey r =? roleKey) (roles w))).
  2:{ exists md. split; [exact Hmd | apply String.eqb_eq, Hkey]. }
  cbn [negb]. unfold Enforcer.GetPolicies.
  rewrite (proj2 (GetPolicies_loop_Ok (casbin.GetPolicy (enforcer w))
                    roleKey "" _) (conj Hs eq_refl)).
  cbn [bind]. eexists. split; [reflexivity |]. intros p.
  unfold casbin.GetPolicy. rewrite in_map_iff. split.
  - intros [pol [Hp Hin]]. apply filter_In in Hin. destruct Hin as [Hin Hnp].
    apply in_map_iff in Hin. destruct Hin as [row [<- Hin]].
    apply filter_In in Hin. destruct Hin as [Hin Hm].
    exists row. split; [exact Hin |]. split; [exact Hm |].
    split; [exact Hp |]. intros ->. cbn in Hp.
    unfold rowPolicy in Hnp. cbn [PResource PAction] in Hnp.
    injection Hp as H2 H3. rewrite H2, H3 in Hnp. discriminate Hnp.
  - intros [row [Hin [Hm [Hp Hne]]]]. exists (rowPolicy row).
    split; [exact Hp |]. apply filter_In. split.
    + apply in_map, filter_In. auto.
    + unfold rowPolicy. cbn [PResource PAction].
      destruct ((idx row 2 =? ResourcePlaceholder)
                && (idx row 3 =? ActionNone)) eqn:E; [| reflexivity].
      exfalso. apply Hne. rewrite <- Hp. unfold rowPermission.
      apply andb_true_iff in E. destruct E as [E1 E2].
      apply String.eqb_eq in E1, E2. rewrite E1, E2. reflexivity.
Qed.

End CreateFacts.

(** X24.  Creating a role and reading it back.  After a successful
    [CreateRole] of the role manager with permissions whose actions are
    among read, write, delete and _none, [GetRole] returns the role with
    the given key, name, description and tenant, and its permissions are
    exactly the valid permissions given, the placeholder left out: a role
    created with no permission reads back with none, although a
    placeholder tuple was stored for it.  The role assignments are
    untouched. *)
Theorem CreateRole_GetRole_round_trip :
  forall (w w' : World)
         (operatorKey roleKey roleName description tenantKey : string)
         (permissions : list Permission),
    roleOps.CreateRole w operatorKey roleKey roleName description tenantKey
                       permissions = (None, w') ->
    Forall (fun p => validActionb (Action_of p) = true) permissions ->
    (exists role,
       roleManager.GetRole w' roleKey = Ok role
       /\ Key role = roleKey /\ Name role = roleName
       /\ Description role = description /\ RTenantKey role = tenantKey
       /\ forall p, In p (Permissions role)
                    <-> In p permissions /\ Permission_IsValid p = true
                        /\ p <> PlaceholderPermission)
    /\ casbin.grouping (enforcer w') = casbin.grouping (enforcer w).
Proof.
  intros w w' op rk name desc t perms H Hact.
  apply CreateRole_inv in H.
  destruct H as [Hk [Hex [Hroles [Hgr Hpol]]]].
  destruct (isRoleExists_false_inv w rk Hex) as [Hdb [Hs Hf]].
  split; [| exact Hgr].
  assert (Hs' : storeParses (enforcer w')).
  { unfold storeParses. apply Forall_forall. intros row Hin.
    apply Hpol in Hin. destruct Hin as [Hin | [[p [Hp [_ ->]]] | [_ ->]]].
    - unfold storeParses in Hs. rewrite Forall_forall in Hs. auto.
    - intros _. rewrite Forall_forall in Hact. exact (Hact p Hp).
    - intros _. reflexivity. }
  destruct (GetRolePermissions_In w' rk Hk) as [ps [Hps Hin]];
    [| exact Hs' |].
  { eexists. split; [rewrite Hroles; apply in_or_app; right; left;
                     reflexivity | reflexivity]. }
  unfold roleManager.GetRole. apply String.eqb_neq in Hk. rewrite Hk.
  unfold roleManager.getRoleMetadata. rewrite Hroles.
  rewrite (find_app_last (fun r => md_RoleKey r =? rk) (roles w)
             (mkRoleMetadata rk name (Some desc) t) Hdb
             (String.eqb_refl rk)).
  rewrite Hps. cbn [bind md_Description md_RoleKey md_Name md_TenantKey].
  eexists. split; [reflexivity |].
  cbn [Key Name Description RTenantKey Permissions].
  repeat (split; [reflexivity |]).
  intros p. rewrite Hin. apply String.eqb_neq in Hk. split.
  - intros [row [Hrow [Hm [Hp Hne]]]]. apply Hpol in Hrow.
    destruct Hrow as [Hrow | [[q [Hq [Hv ->]]] | [_ ->]]].
    + rewrite (filter_nil_false _ _ row Hf Hrow) in Hm. discriminate Hm.
    + unfold rowPermission, permissionRule in Hp. cbn in Hp.
      destruct q as [qr qa]. cbn in Hp. subst p. auto.
    + unfold rowPermission, permissionRule in Hp. cbn in Hp.
      exfalso. apply Hne. rewrite <- Hp. reflexivity.
  - intros [Hp [Hv Hne]]. exists (permissionRule rk t p).
    split; [apply Hpol; right; left; exists p; auto |].
    split; [| split; [destruct p; reflexivity | exact Hne]].
    unfold matchesFilter, permissionRule, isTuple, idx.
    cbn [length nth Nat.leb]. rewrite String.eqb_refl.
    apply String.eqb_neq in Hk. rewrite Hk. reflexivity.
Qed.

Lemma CreateRole_GetRole_round_trip_witness :
  exists role,
    roleManager.GetRole
      (snd (roleOps.CreateRole world_admin "root" "auditor" "Auditor"
              "reads the documents" "t1"
              [mkPermission "document" ActionRead;
               mkPermission "report" ActionRead]))
      "auditor" = Ok role
    /\ Name role = "Auditor"
    /\ RTenantKey role = "t1"
    /\ forall p, In p (Permissions role)
                 <-> In p [mkPermission "document" ActionRead;
                           mkPermission "report" ActionRead]
                     /\ Permission_IsValid p = true
                     /\ p <> PlaceholderPermission.
Proof.
  destruct (CreateRole_GetRole_round_trip
              world_admin
              (snd (roleOps.CreateRole world_admin "root" "auditor" "Auditor"
                      "reads the documents" "t1"
                      [mkPermission "document" ActionRead;
                       mkPermission "report" ActionRead]))
              "root" "auditor" "Auditor" "reads the documents" "t1"
              [mkPermission "document" ActionRead;
               mkPermission "report" ActionRead]
              ltac:(vm_compute; reflexivity)
              ltac:(repeat constructor))
    as [[role [Hg [_ [Hn [_ [Ht Hp]]]]]] _].
  exists role. auto.
Defined.

(* ================================================================== *)
(** * The helpers on permission lists *)

Section PermissionListFacts.

Lemma filterMatch_resource (resource : Resource) (p : Permission) :
  resource <> "" ->
  PermissionOps.filterMatch resource "" p = true <-> Resource_of p = resource.
Proof.
  intros Hr. unfold PermissionOps.filterMatch, neqb.
  apply String.eqb_neq in Hr. rewrite Hr. cbn [negb andb].
  destruct (Resource_of p =? resource) eqn:E; cbn [negb].
  - apply String.eqb_eq in E. split; auto.
  - apply String.eqb_neq in E. split; [discriminate | contradiction].
Qed.

Lemma filter_true {A : Type} (f : A -> bool) (l : list A) :
  (forall x, f x = true) -> filter f l = l.
Proof.
  intros H. induction l as [|x l IH]; [reflexivity |].
  cbn [filter]. rewrite H, IH. reflexivity.
Qed.

Lemma mapStore_keys (m : list (string * Permission)) (key : string)
    (perm : Permission) (k : string) :
  In k (map fst (PermissionOps.mapStore m key perm))
  <-> In k (map fst m) \/ k = key.
Proof.
  induction m as [|[k0 v0] m IH]; cbn [PermissionOps.mapStore].
  - simpl. split; [intros [<- | []]; auto | intros [[] | ->]; auto].
  - destruct (k0 =? key) eqn:E.
    + apply String.eqb_eq in E. subst k0. simpl. split.
      * intros [H | H]; auto.
      * intros [[H | H] | H]; auto.
    + cbn [map fst In]. rewrite IH. split.
      * intros [H | [H | H]]; auto.
      * intros [[H | H] | H]; auto.
Qed.

Lemma mapStore_NoDup (m : list (string * Permission)) (key : string)
    (perm : Permission) :
  NoDup (map fst m) -> NoDup (map fst (PermissionOps.mapStore m key perm)).
Proof.
  induction m as [|[k0 v0] m IH]; cbn [PermissionOps.mapStore]; intros Hn.
  - simpl. constructor; [intros [] | constructor].
  - destruct (k0 =? key) eqn:E; [exact Hn |].
    cbn [map fst] in *. inversion Hn as [|? ? Hnot Hn']; subst.
    constructor; [| apply IH, Hn'].
    intros H. apply mapStore_keys in H. destruct H as [H | H].
    + contradiction.
    + apply String.eqb_neq in E. contradiction.
Qed.

Lemma mapStore_entries (m : list (string * Permission)) (key : string)
    (perm : Permission) (k : string) (v : Permission) :
  In (k, v) (PermissionOps.mapStore m key perm) ->
  (k = key /\ v = perm) \/ In (k, v) m.
Proof.
  induction m as [|[k0 v0] m IH]; cbn [PermissionOps.mapStore].
  - simpl. intros [H | []]. injection H as <- <-. auto.
  - destruct (k0 =? key) eqn:E.
    + apply String.eqb_eq in E. subst k0. simpl.
      intros [H | H]; [injection H as <- <-; auto | auto].
    + simpl. intros [H | H]; [auto |].
      destruct (IH H) as [H1 | H1]; auto.
Qed.

Lemma merge_fold_invariant (l done : list Permission)
    (m : list (string * Permission)) :
  mergeInvariant done m ->
  mergeInvariant (done ++ l)
    (fold_left (fun permMap perm =>
                  PermissionOps.mapStore permMap (PermissionOps.String perm)
                                         perm) l m).
Proof.
  revert done m. induction l as [|p l IH]; intros done m Hinv.
  - rewrite app_nil_r. exact Hinv.
  - cbn [fold_left].
    replace (done ++ p :: l) with ((done ++ [p]) ++ l)
      by (rewrite <- app_assoc; reflexivity).
    apply IH. destruct Hinv as [H1 [H2 H3]]. split; [| split].
    + apply mapStore_NoDup, H1.
    + intros k v Hin. apply mapStore_entries in Hin.
      destruct Hin as [[-> ->] | Hin].
      * split; [reflexivity |]. apply in_or_app. right. left. reflexivity.
      * destruct (H2 k v Hin) as [Hk Hv]. split; [exact Hk |].
        apply in_or_app. left. exact Hv.
    + intros q Hq. apply mapStore_keys. apply in_app_or in Hq.
      destruct Hq as [Hq | [<- | []]]; auto.
Qed.

Lemma merge_invariant (l : list Permission) :
  mergeInvariant l
    (fold_left (fun permMap perm =>
                  PermissionOps.mapStore permMap (PermissionOps.String perm)
                                         perm) l []).
Proof.
  apply (merge_fold_invariant l [] []). split; [constructor |].
  split; [intros k v [] | intros p []].
Qed.

Lemma map_String_entries (m : list (string * Permission)) :
  (forall k v, In (k, v) m -> k = PermissionOps.String v) ->
  map PermissionOps.String (map snd m) = map fst m.
Proof.
  induction m as [|[k v] m IH]; intros H; [reflexivity |].
  cbn [map fst snd]. rewrite IH.
  - rewrite <- (H k v); [reflexivity | left; reflexivity].
  - intros k' v' Hin. apply H. right. exact Hin.
Qed.

Lemma NoDup_map_inv' {A B : Type} (f : A -> B) (l : list A) :
  NoDup (map f l) -> NoDup l.
Proof.
  induction l as [|x l IH]; intros H; [constructor |].
  cbn [map] in H. inversion H as [|? ? Hnot Hn]; subst.
  constructor; [| apply IH, Hn].
  intros Hin. apply Hnot. apply in_map. exact Hin.
Qed.

End PermissionListFacts.

(** X25.  [GetUserPermissionsByResource] agrees with [CheckPermission]:
    for a resource that is not empty, the answer lists exactly the
    permissions on that resource for which the check of the same user in
    the same tenant answers [true]; for the empty resource it is the
    whole list of effective permissions. *)
Theorem GetUserPermissionsByResource_agrees_with_check :
  forall (w : World) (userKey tenantKey resource : string)
         (permissions : list Permission),
    userOps.GetUserPermissionsByResource w userKey tenantKey resource
    = Ok permissions ->
    (resource <> "" ->
     forall p, In p permissions
               <-> Resource_of p = resource
                   /\ checkManager.CheckPermission (enforcer w) userKey
                                                   tenantKey p = Ok true)
    /\ (resource = "" ->
        userOps.GetEffectivePermissions w userKey tenantKey = Ok permissions).
Proof.
  intros w u t r ps. unfold userOps.GetUserPermissionsByResource.
  destruct (userOps.GetEffectivePermissions w u t) as [eff|err] eqn:E;
    cbn [bind]; [| discriminate].
  intros H. injection H as <-. split.
  - intros Hr p. unfold PermissionOps.FilterPermissions.
    rewrite filter_In, (filterMatch_resource r p Hr).
    unfold userOps.GetEffectivePermissions in E.
    destruct (u =? ""); [discriminate |].
    destruct (CheckPermission_of_perms _ _ _ _ p E) as [b [Hc Hb]].
    rewrite Hc. split.
    + intros [Hin Hres]. split; [exact Hres |]. f_equal. apply Hb, Hin.
    + intros [Hres Hok]. injection Hok as ->. split; [| exact Hres].
      apply Hb. reflexivity.
  - intros ->. unfold PermissionOps.FilterPermissions.
    rewrite filter_true; [reflexivity |]. intros p. reflexivity.
Qed.

Lemma GetUserPermissionsByResource_agrees_with_check_witness :
  checkManager.CheckPermission (enforcer world_tenants) "dave" "t1"
                               (mkPermission "user" "read") = Ok true.
Proof.
  apply (proj1 (proj1 (GetUserPermissionsByResource_agrees_with_check
                         world_tenants "dave" "t1" "user"
                         [mkPermission "user" "read"]
                         ltac:(vm_compute; reflexivity))
                      ltac:(discriminate)
                      (mkPermission "user" "read"))).
  left. reflexivity.
Defined.

(** X26.  [MergePermissions] keeps one permission per key
    [resource:action].  Every permission of the result comes from one of
    the lists; every permission of the lists has a permission of the
    same key in the result; the keys of the result are distinct.  When
    permissions of the lists with the same key are the same permission,
    the result has exactly the members of the lists, each once.  The
    order of the result is not fixed by the code and nothing is said
    about it. *)
Theorem MergePermissions_one_per_key :
  forall (permLists : list (list Permission)),
    let merged := PermissionOps.MergePermissions permLists in
    (forall p, In p merged -> exists l, In l permLists /\ In p l)
    /\ (forall l p, In l permLists -> In p l ->
                    exists q, In q merged
                              /\ PermissionOps.String q
                                 = PermissionOps.String p)
    /\ NoDup (map PermissionOps.String merged)
    /\ ((forall l1 l2 p q,
           In l1 permLists -> In l2 permLists -> In p l1 -> In q l2 ->
           PermissionOps.String p = PermissionOps.String q -> p = q) ->
        NoDup merged
        /\ forall p, In p merged <-> exists l, In l permLists /\ In p l).
Proof.
  intros ls merged. unfold PermissionOps.MergePermissions in merged.
  pose proof (merge_invariant (concat ls)) as [H1 [H2 H3]].
  set (m := fold_left _ (concat ls) []) in *.
  assert (Hfrom : forall p, In p merged -> exists l, In l ls /\ In p l).
  { intros p Hp. apply in_map_iff in Hp. destruct Hp as [[k v] [<- Hin]].
    apply H2 in Hin. destruct Hin as [_ Hin]. apply in_concat in Hin.
    exact Hin. }
  assert (Hkey : forall l p, In l ls -> In p l ->
            exists q, In q merged
                      /\ PermissionOps.String q = PermissionOps.String p).
  { intros l p Hl Hp.
    assert (Hc : In p (concat ls)) by (apply in_concat; eauto).
    apply H3 in Hc. apply in_map_iff in Hc.
    destruct Hc as [[k v] [Hk Hin]]. cbn [fst] in Hk. subst k.
    exists v. split.
    - apply in_map_iff. exists (PermissionOps.String p, v). auto.
    - destruct (H2 _ _ Hin) as [Hs _]. symmetry. exact Hs. }
  assert (Hnd : NoDup (map PermissionOps.String merged)).
  { unfold merged. rewrite map_String_entries; [exact H1 |].
    intros k v Hin. apply (H2 k v Hin). }
  split; [exact Hfrom |]. split; [exact Hkey |]. split; [exact Hnd |].
  intros Hinj. split; [exact (NoDup_map_inv' _ _ Hnd) |].
  intros p. split; [apply Hfrom |].
  intros [l [Hl Hp]]. destruct (Hkey l p Hl Hp) as [q [Hq Hs]].
  destruct (Hfrom q Hq) as [l' [Hl' Hq']].
  rewrite <- (Hinj l' l q p Hl' Hl Hq' Hp Hs). exact Hq.
Qed.

Lemma MergePermissions_one_per_key_witness :
  NoDup (PermissionOps.MergePermissions
           [[mkPermission "document" "read"; mkPermission "report" "read"];
            [mkPermission "report" "read"; mkPermission "user" "write"]])
  /\ In (mkPermission "user" "write")
        (PermissionOps.MergePermissions
           [[mkPermission "document" "read"; mkPermission "report" "read"];
            [mkPermission "report" "read"; mkPermission "user" "write"]]).
Proof.
  destruct (proj2 (proj2 (proj2 (MergePermissions_one_per_key
    [[mkPermission "document" "read"; mkPermission "report" "read"];
     [mkPermission "report" "read"; mkPermission "user" "write"]])))) as [Hn Hm].
  - intros l1 l2 p q H1 H2 Hp Hq.
    simpl in H1, H2.
    destruct H1 as [<- | [<- | []]]; destruct H2 as [<- | [<- | []]];
      simpl in Hp, Hq;
      destruct Hp as [<- | [<- | []]]; destruct Hq as [<- | [<- | []]];
      intros H; try reflexivity; vm_compute in H; discriminate H.
  - split; [exact Hn |]. apply Hm.
    exists [mkPermission "report" "read"; mkPermission "user" "write"].
    simpl. auto.
Defined.

(* ================================================================== *)
(** * Roles created through the engine *)

Section EngineCreateFacts.

Lemma firstError_None_iff (check : Permission -> option error)
    (l : list Permission) :
  firstError check l = None <-> forall p, In p l -> check p = None.
Proof.
  induction l as [|q l IH]; cbn [firstError].
  - split; [intros _ p [] | reflexivity].
  - destruct (check q) eqn:E.
    + split; [discriminate |]. intros H.
      rewrite (H q (or_introl eq_refl)) in E. discriminate E.
    + rewrite IH. split.
      * intros H p [<- | Hp]; auto.
      * intros H p Hp. apply H. right. exact Hp.
Qed.

Lemma GetRolePermissions_Ok_parses (w : World) (roleKey : string)
    (perms : list Permission) :
  roleManager.GetRolePermissions w roleKey = Ok perms ->
  roleKey <> ""
  /\ (exists md, In md (roles w) /\ md_RoleKey md = roleKey)
  /\ storeParses (enforcer w).
Proof.
  unfold roleManager.GetRolePermissions.
  destruct (roleKey =? "") eqn:Ek; [discriminate |].
  apply String.eqb_neq in Ek.
  unfold roleManager.isRoleExistsInDB. cbn [bind].
  destruct (Nat.ltb 0 (length (filter (fun r => md_RoleKey r =? roleKey)
                                      (roles w))))
    eqn:Ec; cbn [negb]; [| discriminate].
  apply count_pos_iff in Ec. destruct Ec as [md [Hmd Hkey]].
  apply String.eqb_eq in Hkey.
  destruct (Enforcer.GetPolicies (enforcer w) roleKey "") as [ps|err] eqn:E;
    cbn [bind]; [| discriminate].
  intros _. split; [exact Ek |]. split; [eauto |].
  apply (GetPolicies_Ok_iff (enforcer w) roleKey ""). eauto.
Qed.

Lemma validateCreated_None (cfg : SecurityConfig) (w : World)
    (operatorKey roleKey tenantKey : string) (p : Permission) :
  engineOps.validateCreated (casbinxClient.securityValidator cfg w)
                            operatorKey roleKey tenantKey p = None ->
  ~ In p (SystemPermissions cfg)
  /\ holds (enforcer w) operatorKey tenantKey
           (mkPermission ResourcePermission ActionWrite).
Proof.
  unfold engineOps.validateCreated,
    Validator.ValidatePermissionGrantWithDomain.
  set (sv := casbinxClient.securityValidator cfg w).
  destruct (Validator.PreventSelfElevation_check sv operatorKey roleKey p);
    [discriminate |].
  destruct (Validator.isSystemPermission sv p) eqn:Es; [discriminate |].
  destruct (Validator.validateOperatorPermission sv operatorKey tenantKey p)
    eqn:Ev; [discriminate |].
  intros _. split.
  - intros Hin. apply (isSystemPermission_In sv p) in Hin.
    rewrite Hin in Es. discriminate Es.
  - apply validateOperatorPermission_nil_iff in Ev.
    destruct Ev as [Ev | [checker [Hc Hok]]]; [discriminate Ev |].
    injection Hc as <-. exact Hok.
Qed.

End EngineCreateFacts.

(** X27.  A role created through the engine is never a system role.
    When [CreateRole] of the engine succeeds, none of the permissions
    given is a system permission of the configuration, the operator
    holds permission-write in the tenant as soon as one permission is
    given, and the new role does not carry a system permission: the
    protection of system roles never applies to it. *)
Theorem engine_CreateRole_never_system_role :
  forall (cfg : SecurityConfig) (w w' : World)
         (operatorKey roleKey roleName description tenantKey : string)
         (permissions : list Permission),
    engineOps.CreateRole cfg w operatorKey roleKey roleName description
                         tenantKey permissions = (None, w') ->
    (forall p, In p permissions ->
               ~ In p (SystemPermissions cfg)
               /\ holds (enforcer w) operatorKey tenantKey
                        (mkPermission ResourcePermission ActionWrite))
    /\ ~ systemTagged cfg w' roleKey.
Proof.
  intros cfg w w' op rk name desc t perms. unfold engineOps.CreateRole.
  destruct (firstError _ perms) eqn:Ef; [discriminate |].
  pose proof (proj1 (firstError_None_iff _ _) Ef) as Hval. clear Ef.
  intros H.
  assert (Hperms : forall p, In p perms ->
            ~ In p (SystemPermissions cfg)
            /\ holds (enforcer w) op t
                     (mkPermission ResourcePermission ActionWrite)).
  { intros p Hp. apply (validateCreated_None cfg w op rk t p), Hval, Hp. }
  split; [exact Hperms |].
  apply CreateRole_inv in H. destruct H as [Hk [Hex [_ [_ Hpol]]]].
  destruct (isRoleExists_false_inv w rk Hex) as [_ [_ Hf]].
  intros [ps [Hps [p [Hin Hsys]]]].
  destruct (GetRolePermissions_Ok_parses w' rk ps Hps) as [_ [Hmd Hs']].
  destruct (GetRolePermissions_In w' rk Hk Hmd Hs') as [ps' [Hps' Hchar]].
  rewrite Hps in Hps'. injection Hps' as <-.
  apply Hchar in Hin. destruct Hin as [row [Hrow [Hm [Hp Hne]]]].
  apply Hpol in Hrow.
  destruct Hrow as [Hrow | [[q [Hq [Hv ->]]] | [_ ->]]].
  - rewrite (filter_nil_false _ _ row Hf Hrow) in Hm. discriminate Hm.
  - assert (p = q).
    { rewrite <- Hp. destruct q; reflexivity. }
    subst q. exact (proj1 (Hperms p Hq) Hsys).
  - apply Hne. rewrite <- Hp. reflexivity.
Qed.

Lemma engine_CreateRole_never_system_role_witness :
  ~ systemTagged DefaultSecurityConfig
      (snd (engineOps.CreateRole DefaultSecurityConfig world_sys "boss"
              "auditor" "Auditor" "reads the documents" "t1"
              [mkPermission "document" ActionRead]))
      "auditor".
Proof.
  apply (proj2 (engine_CreateRole_never_system_role
                  DefaultSecurityConfig world_sys
                  (snd (engineOps.CreateRole DefaultSecurityConfig world_sys
                          "boss" "auditor" "Auditor" "reads the documents"
                          "t1" [mkPermission "document" ActionRead]))
                  "boss" "auditor" "Auditor" "reads the documents" "t1"
                  [mkPermission "document" ActionRead]
                  ltac:(vm_compute; reflexivity))).
Defined.
